(** * Brieflow configuration notebooks: aggregate and merge parameters

    A shallow embedding of the aggregate and the merge configuration
    notebooks and of the [lib.aggregate] operations they call.  The
    notebooks are embedded from their code cells, with pandas tables as
    [DataFrame] and the YAML configuration as [yaml].  The operations of
    [lib.aggregate], which the notebooks import and call, are modelled from
    the specification of the alignment and aggregation pipeline where it
    describes them in full, and each such definition says so; the others
    are variables of the notebook's section. *)

From Stdlib Require Import ZArith QArith Qcanon Qround Lia Lqa.
From stdpp Require Import base tactics option list strings numbers sorting pretty gmap.

Local Open Scope string_scope.
Local Open Scope list_scope.

(** ** Values, errors and tables *)

(** A scalar of a table: what a pandas cell or a YAML leaf holds. *)
Inductive value :=
  | VBool (b : bool)
  | VInt (z : Z)
  | VNum (q : Qc)
  | VStr (s : string).

Global Instance value_eq_dec : EqDecision value.
Proof. solve_decision. Defined.

Global Instance value_countable : Countable value.
Proof.
  refine (inj_countable'
    (λ v, match v with
          | VBool b => inl (inl b)
          | VInt z => inl (inr z)
          | VNum q => inr (inl q)
          | VStr s => inr (inr s)
          end)
    (λ e, match e with
          | inl (inl b) => VBool b
          | inl (inr z) => VInt z
          | inr (inl q) => VNum q
          | inr (inr s) => VStr s
          end) _).
  by intros [].
Defined.

(** The error classes of the pipeline, and Python's [KeyError] for a missing
    dictionary key. *)
Inductive error :=
  | SchemaError (missing : list string)
  | ConfigError (param : string)
  | AlignmentPreconditionError (what : string)
  | KeyError (key : string)
  | TypeError (what : string)
  | FileNotFoundError (path : string).

Global Instance error_eq_dec : EqDecision error.
Proof. solve_decision. Defined.

Inductive result (A : Type) :=
  | Ok (a : A)
  | Err (e : error).
Arguments Ok {A} a.
Arguments Err {A} e.

Global Instance result_eq_dec {A} `{EqDecision A} : EqDecision (result A).
Proof. solve_decision. Defined.

Global Instance result_ret : MRet result := λ A a, Ok a.
Global Instance result_bind : MBind result := λ A B f m,
  match m with
  | Ok a => f a
  | Err e => Err e
  end.

(** A table: named columns, and rows in order.  A row carries its index label
    and one cell per column; [None] is a null cell. *)
Record DataFrame (A : Type) := mkDataFrame {
  columns : list string;
  rows : list (nat * list (option A))
}.
Arguments mkDataFrame {A} columns rows.
Arguments columns {A} d.
Arguments rows {A} d.

Global Instance DataFrame_eq_dec {A} `{EqDecision A} : EqDecision (DataFrame A).
Proof. solve_decision. Defined.

Section Tables.
Context {A : Type}.

Definition row_labels (df : DataFrame A) : list nat := (rows df).*1.

Definition n_rows (df : DataFrame A) : nat := length (rows df).

(** Position of the first column called [c]. *)
Definition col_index (cols : list string) (c : string) : option nat :=
  fst <$> list_find (λ c', c' = c) cols.

(** The cell of a row under column [c]; null when the column is absent or
    the row is too short. *)
Definition get_cell (cols : list string) (r : list (option A)) (c : string)
    : option A :=
  i ← col_index cols c; mjoin (r !! i).

Definition cell_at (df : DataFrame A) (i : nat) (c : string) : option A :=
  r ← rows df !! i; get_cell (columns df) r.2 c.

(** [df[cols]]: the listed columns, in the order listed, same rows. *)
Definition select (cols : list string) (df : DataFrame A) : DataFrame A :=
  mkDataFrame cols
    ((λ r, (r.1, (λ c, get_cell (columns df) r.2 c) <$> cols)) <$> rows df).

(** [df[c]] as a list of cells; a missing column is a [KeyError]. *)
Definition column (df : DataFrame A) (c : string) : result (list (option A)) :=
  if decide (c ∈ columns df)
  then Ok ((λ r, get_cell (columns df) r.2 c) <$> rows df)
  else Err (KeyError c).

(** [df[mask]]: the rows whose mask entry is [true]. *)
Definition mask_rows (mask : list bool) (df : DataFrame A) : DataFrame A :=
  mkDataFrame (columns df)
    ((filter (λ p : bool * (nat * list (option A)), p.1 = true)
             (zip mask (rows df))).*2).
End Tables.

(** ** Metadata/feature splitter *)

(** Modelled from the spec: [split_cell_data] of
    [lib.aggregate.cell_data_utils], which the aggregate notebook imports and
    calls as [split_cell_data(cell_data, METADATA_COLS)].  Given a cell table
    and an ordered list of metadata column names it returns the metadata
    table (the listed columns) and the feature table (every column not
    listed, in input order), both with the rows of the input; it fails with
    [SchemaError] when a listed column is absent. *)
Definition split_cell_data {A} (cell_data : DataFrame A)
    (metadata_cols : list string) : result (DataFrame A * DataFrame A) :=
  match filter (λ c, c ∉ columns cell_data) metadata_cols with
  | [] =>
      Ok (select metadata_cols cell_data,
          select (filter (λ c, c ∉ metadata_cols) (columns cell_data)) cell_data)
  | missing => Err (SchemaError missing)
  end.


(** ** Filter chain *)

(** Modelled from the spec: what every filter of [lib.aggregate.filter]
    does with its row test.  A metadata table and a feature table are
    row-aligned by position; a filter keeps the positions whose rows pass, in
    both tables. *)
Definition filter_pair {A B} (keep : list (option A) → list (option B) → bool)
    (md : DataFrame A) (ft : DataFrame B) : DataFrame A * DataFrame B :=
  let kept :=
    filter (λ p : (nat * list (option A)) * (nat * list (option B)),
              keep p.1.2 p.2.2 = true)
           (zip (rows md) (rows ft)) in
  (mkDataFrame (columns md) kept.*1, mkDataFrame (columns ft) kept.*2).

(** Modelled from the spec: the metadata+feature-joined row a query of
    [query_filter] is evaluated against, as a lookup by column name. *)
Definition joined_row (mcols fcols : list string)
    (m : list (option value)) (f : list (option Qc)) (c : string) : option value :=
  match get_cell mcols m c with
  | Some v => Some v
  | None => VNum <$> get_cell fcols f c
  end.

(** Modelled from the spec: a query of [query_filter], a boolean expression
    string: the text, and the boolean it evaluates to on a joined row. *)
Record query := mkQuery {
  expr : string;
  holds : (string → option value) → bool
}.

(** Modelled from the spec: [query_filter] of [lib.aggregate.filter], called
    by the notebook as [query_filter(class_metadata, class_features,
    FILTER_QUERIES)].  A row survives only if it satisfies all expressions;
    an empty or absent expression list is the identity. *)
Definition query_filter (metadata : DataFrame value) (features : DataFrame Qc)
    (queries : option (list query)) : DataFrame value * DataFrame Qc :=
  match queries with
  | None | Some [] => (metadata, features)
  | Some qs =>
      filter_pair
        (λ m f, forallb (λ q : query,
                  holds q (joined_row (columns metadata) (columns features) m f))
                  qs)
        metadata features
  end.

(** Modelled from the spec: [perturbation_filter] of [lib.aggregate.filter].
    Drops the rows whose perturbation-identity cell is null; a table without
    that column is a [SchemaError]. *)
Definition perturbation_filter (metadata : DataFrame value)
    (features : DataFrame Qc) (perturbation_name_col : string)
    : result (DataFrame value * DataFrame Qc) :=
  if decide (perturbation_name_col ∈ columns metadata)
  then Ok (filter_pair
             (λ m _, bool_decide
                (is_Some (get_cell (columns metadata) m perturbation_name_col)))
             metadata features)
  else Err (SchemaError [perturbation_name_col]).

(** [Series.nunique()]: the number of distinct non-null values. *)
Definition nunique {A} `{EqDecision A} (cells : list (option A)) : nat :=
  length (remove_dups (omap id cells)).

(** Modelled from the spec: the nulls of a column or row, for the null
    fractions of [missing_values_filter]. *)
Definition null_count {A} (cells : list (option A)) : nat :=
  length (filter (λ c, c = None) cells).

(** Modelled from the spec: the threshold test of [missing_values_filter],
    whether the fraction [nulls / total] exceeds [threshold].  With no rows
    (or no columns) there is no fraction and nothing exceeds. *)
Definition fraction_exceeds (nulls total : nat) (threshold : Qc) : bool :=
  bool_decide (threshold * Qc_of_Z (Z.of_nat total) < Qc_of_Z (Z.of_nat nulls))%Qc.

Definition column_cells {A} (df : DataFrame A) (c : string) : list (option A) :=
  (λ r, get_cell (columns df) r.2 c) <$> rows df.

(** Modelled from the spec: the per-column median of [missing_values_filter]
    and [aggregate], over the values present: the middle of the sorted
    values, or the mean of the two middle ones; no values, no median. *)
Definition median (l : list Qc) : option Qc :=
  let s := merge_sort Qcle l in
  let n := length s in
  if Nat.even n
  then a ← s !! (n / 2 - 1); b ← s !! (n / 2); Some ((a + b) / 2)%Qc
  else s !! (n / 2).

(** Modelled from the spec: imputation of one row of
    [missing_values_filter]; a null takes the fill value of its column. *)
Definition fill_nulls (fill : list (option Qc)) (r : list (option Qc))
    : list (option Qc) :=
  zip_with (λ cell m, match cell with Some v => Some v | None => m end) r fill.

(** Modelled from the spec: imputation of [missing_values_filter]; each null
    becomes the median of its column over the rows of [ft]. *)
Definition impute_median (ft : DataFrame Qc) : DataFrame Qc :=
  let medians := (λ c, median (omap id (column_cells ft c))) <$> columns ft in
  mkDataFrame (columns ft) ((λ r, (r.1, fill_nulls medians r.2)) <$> rows ft).

Definition no_nulls {A} (df : DataFrame A) : Prop :=
  Forall (λ r : nat * list (option A), Forall is_Some r.2) (rows df).

Global Instance no_nulls_dec {A} (df : DataFrame A) : Decision (no_nulls df).
Proof. unfold no_nulls. apply _. Defined.

(** Modelled from the spec: [missing_values_filter] of
    [lib.aggregate.filter].  A column is dropped if its null fraction over
    all rows exceeds [drop_cols_threshold]; then a row is dropped if its null
    fraction over the remaining feature columns exceeds
    [drop_rows_threshold]; with [impute] the remaining nulls are filled with
    the column median over the surviving rows, without it remaining nulls are
    an [AlignmentPreconditionError]. *)
Definition missing_values_filter (metadata : DataFrame value)
    (features : DataFrame Qc) (drop_cols_threshold drop_rows_threshold : Qc)
    (impute : bool) : result (DataFrame value * DataFrame Qc) :=
  let kept_cols :=
    filter (λ c, fraction_exceeds (null_count (column_cells features c))
                   (n_rows features) drop_cols_threshold = false)
           (columns features) in
  let pruned := select kept_cols features in
  let surviving :=
    filter_pair
      (λ _ f, negb (fraction_exceeds (null_count f) (length kept_cols)
                      drop_rows_threshold))
      metadata pruned in
  if impute then Ok (surviving.1, impute_median surviving.2)
  else if decide (no_nulls surviving.2) then Ok surviving
  else Err (AlignmentPreconditionError "features").

(** ** Aggregator *)

(** Modelled from the spec: the AggregateRecord of the data model, one row of
    the output of [aggregate]. *)
Record AggregateRecord := mkAggregateRecord {
  perturbation : value;
  aggregated : list Qc;
  cell_count : nat
}.

Definition sum_Qc (l : list Qc) : Qc := foldr Qcplus 0%Qc l.

(** Modelled from the spec: the arithmetic mean of [aggregate]. *)
Definition mean (l : list Qc) : Qc :=
  (sum_Qc l / Qc_of_Z (Z.of_nat (length l)))%Qc.

(** Feature [j] of each row of an embedding matrix. *)
Definition feature_column (j : nat) (m : list (list Qc)) : list Qc :=
  (λ r, default 0%Qc (r !! j)) <$> m.

Definition width (m : list (list Qc)) : nat :=
  match m with
  | [] => 0
  | r :: _ => length r
  end.

(** Modelled from the spec: the rows [aggregate] groups, the embedding rows
    that have a perturbation value, each with its value. *)
Definition labelled_rows (keys : list (option value)) (embeddings : list (list Qc))
    : list (value * list Qc) :=
  omap (λ p : option value * list Qc, k ← p.1; Some (k, p.2)) (zip keys embeddings).

(** Modelled from the spec: the rows contributing to perturbation [k] in
    [aggregate]. *)
Definition contributing (k : value) (cells : list (value * list Qc))
    : list (list Qc) :=
  (filter (λ p : value * list Qc, p.1 = k) cells).*2.

(** Modelled from the spec: [aggregate] of [lib.aggregate.aggregate].  One
    record per unique perturbation value, holding for each feature dimension
    the mean or the median of the contributing rows (the median independently
    per dimension) and the number of contributing cells; rows without a
    perturbation value contribute nowhere.  An unknown method is a
    [ConfigError], a missing perturbation column a [SchemaError].  The
    notebook receives the records as the pair of their feature vectors and
    their metadata. *)
Definition aggregate (embeddings : list (list Qc)) (metadata : DataFrame value)
    (perturbation_col : string) (method : string) : result (list AggregateRecord) :=
  stat ← (if decide (method = "mean") then Ok mean
          else if decide (method = "median")
               then Ok (λ l, default 0%Qc (median l))
               else Err (ConfigError "agg_method"));
  if decide (perturbation_col ∈ columns metadata) then
    let cells := labelled_rows (column_cells metadata perturbation_col) embeddings in
    Ok ((λ k, let group := contributing k cells in
              mkAggregateRecord k
                ((λ j, stat (feature_column j group)) <$> seq 0 (width embeddings))
                (length group))
          <$> remove_dups cells.*1)
  else Err (SchemaError [perturbation_col]).

(** ** Configuration file *)

(** A YAML document; a mapping keeps the order of its keys, as the Python
    dictionary it is loaded into does. *)
#[local] Unset Elimination Schemes.
Inductive yaml :=
  | YNull
  | YScalar (v : value)
  | YList (items : list yaml)
  | YMap (entries : list (string * yaml)).
#[local] Set Elimination Schemes.

Fixpoint dict_get (k : string) (d : list (string * yaml)) : option yaml :=
  match d with
  | [] => None
  | (k', v) :: d' => if decide (k = k') then Some v else dict_get k d'
  end.

(** [d[k] = v]: replaces the value of an existing key in place, appends a
    new key. *)
Fixpoint dict_set (k : string) (v : yaml) (d : list (string * yaml))
    : list (string * yaml) :=
  match d with
  | [] => [(k, v)]
  | (k', v') :: d' =>
      if decide (k = k') then (k', v) :: d' else (k', v') :: dict_set k v d'
  end.

(** [y[k]] *)
Definition yaml_item (k : string) (y : yaml) : result yaml :=
  match y with
  | YMap d =>
      match dict_get k d with
      | Some v => Ok v
      | None => Err (KeyError k)
      end
  | _ => Err (TypeError k)
  end.

(** [y[k1][k2]] *)
Definition yaml_item2 (k1 k2 : string) (y : yaml) : result yaml :=
  y1 ← yaml_item k1 y; yaml_item k2 y1.

(** [y[k] = v] *)
Definition yaml_set_item (k : string) (v : yaml) (y : yaml) : result yaml :=
  match y with
  | YMap d => Ok (YMap (dict_set k v d))
  | _ => Err (TypeError k)
  end.

(** [Path(y)] *)
Definition yaml_path (y : yaml) : result string :=
  match y with
  | YScalar (VStr s) => Ok s
  | _ => Err (TypeError "Path")
  end.

(** What a file holds: a YAML document under a comment header, or a table. *)
Inductive file :=
  | YamlFile (header : string) (doc : yaml)
  | TableFile (t : DataFrame value).

(** [yaml.safe_load(open(path))]; the header comments are not part of the
    document. *)
Definition load_yaml (fs : gmap string file) (path : string) : result yaml :=
  match fs !! path with
  | Some (YamlFile _ doc) => Ok doc
  | Some (TableFile _) => Err (TypeError path)
  | None => Err (FileNotFoundError path)
  end.

(** [pd.read_csv(path, sep="\t")] *)
Definition read_csv (fs : gmap string file) (path : string)
    : result (DataFrame value) :=
  match fs !! path with
  | Some (TableFile t) => Ok t
  | Some (YamlFile _ _) => Err (TypeError path)
  | None => Err (FileNotFoundError path)
  end.

Definition YStr (s : string) : yaml := YScalar (VStr s).

Definition yaml_opt {A} (f : A → yaml) (o : option A) : yaml :=
  match o with
  | Some a => f a
  | None => YNull
  end.

(** A YAML list of strings, as a Python list of [str]. *)
Definition yaml_strings (y : yaml) : result (list string) :=
  match y with
  | YList items =>
      foldr (λ item acc,
               l ← acc;
               match item with
               | YScalar (VStr s) => Ok (s :: l)
               | _ => Err (TypeError "str")
               end)
            (Ok []) items
  | _ => Err (TypeError "list")
  end.

(** ** The aggregate configuration notebook *)

Module Aggregate.

Definition CONFIG_FILE_PATH : string := "config/config.yml".

(** The values of the notebook's SET PARAMETERS cells. *)
Record params := mkParams {
  TEST_CELL_CLASS : string;
  TEST_CHANNEL_COMBO : list string;
  METADATA_COLS_FP : string;
  COLLAPSE_COLS : option (list string);
  CLASSIFIER_PATH : string;
  AGGREGATE_COMBO_FP : string;
  FILTER_QUERIES : option (list query);
  PERTURBATION_NAME_COL : string;
  DROP_COLS_THRESHOLD : Qc;
  DROP_ROWS_THRESHOLD : Qc;
  IMPUTE : bool;
  CONTAMINATION : Qc;
  BATCH_COLS : list string;
  CONTROL_KEY : string;
  PERTURBATION_ID_COL : option string;
  VARIANCE_OR_NCOMP : value;
  NUM_ALIGN_BATCHES : Z;
  AGG_METHOD : string
}.

Section Notebook.
(** What the notebook imports from modules whose code is not part of the
    sources. *)
Variable CONFIG_FILE_HEADER : string.
Variable channel_combo_subset :
  DataFrame Qc → list string → list string → DataFrame Qc.
Variable intensity_filter :
  DataFrame value → DataFrame Qc → list string → Qc →
  result (DataFrame value * DataFrame Qc).
Variable prepare_alignment_data :
  DataFrame value → DataFrame Qc → list string → string → string →
  option string → result (DataFrame value * DataFrame Qc).
Variable embed_by_pca :
  DataFrame Qc → DataFrame value → value → string → result (list (list Qc)).
Variable tvn_on_controls :
  list (list Qc) → DataFrame value → string → string → string →
  result (list (list Qc)).

Variable p : params.

(** Cell "subset cell class": the rows of the test class, then the
    features of the test channel combination.  The mask of the metadata
    selects in both tables by position, as pandas does for two tables with
    the same row labels. *)
Definition class_subset_cell (config : yaml)
    (classified_metadata : DataFrame value)
    (classified_features : DataFrame Qc)
    : result (DataFrame value * DataFrame Qc) :=
  '(class_metadata, class_features) ←
    (if decide (TEST_CELL_CLASS p ≠ "all") then
       classes ← column classified_metadata "class";
       let cell_class_mask :=
         (λ c, bool_decide (c = Some (VStr (TEST_CELL_CLASS p))))
           <$> (classes : list (option value)) in
       Ok (mask_rows cell_class_mask classified_metadata,
           mask_rows cell_class_mask classified_features)
     else Ok (classified_metadata, classified_features));
  channel_names ← yaml_item2 "phenotype" "channel_names" config;
  all_channels ← yaml_strings channel_names;
  Ok (class_metadata,
      channel_combo_subset class_features (TEST_CHANNEL_COMBO p) all_channels).

(** Cell "perturbation filtering": the filtered pair, and the number
    printed as "Unique populations", which the cell takes from
    [metadata], the metadata table of the split. *)
Definition perturbation_cell (metadata class_metadata : DataFrame value)
    (class_features : DataFrame Qc)
    : result (DataFrame value * DataFrame Qc * nat) :=
  let '(qf_metadata, qf_features) :=
    query_filter class_metadata class_features (FILTER_QUERIES p) in
  '(pf_metadata, pf_features) ←
    perturbation_filter qf_metadata qf_features (PERTURBATION_NAME_COL p);
  populations ← column metadata (PERTURBATION_NAME_COL p);
  Ok (pf_metadata, pf_features, nunique populations).

(** Cell "filter by missing values": the call passes [impute=True]. *)
Definition missing_values_cell (pf_metadata : DataFrame value)
    (pf_features : DataFrame Qc) : result (DataFrame value * DataFrame Qc) :=
  missing_values_filter pf_metadata pf_features
    (DROP_COLS_THRESHOLD p) (DROP_ROWS_THRESHOLD p) true.

(** Cell "filter by intensity outliers". *)
Definition intensity_cell (config : yaml) (mvf_metadata : DataFrame value)
    (mvf_features : DataFrame Qc) : result (DataFrame value * DataFrame Qc) :=
  names ← yaml_item2 "phenotype" "channel_names" config;
  channel_names ← yaml_strings names;
  intensity_filter mvf_metadata mvf_features channel_names (CONTAMINATION p).

(** Cells "prepare alignment data" and "align and aggregate"; the
    variance plot in between only draws. *)
Definition align_aggregate_cells (if_metadata : DataFrame value)
    (if_features : DataFrame Qc) : result (list AggregateRecord) :=
  '(pad_metadata, pad_features) ←
    prepare_alignment_data if_metadata if_features (BATCH_COLS p)
      (PERTURBATION_NAME_COL p) (CONTROL_KEY p) (PERTURBATION_ID_COL p);
  pca_embeddings ←
    embed_by_pca pad_features pad_metadata (VARIANCE_OR_NCOMP p) "batch_values";
  tvn_normalized ←
    tvn_on_controls pca_embeddings pad_metadata (PERTURBATION_NAME_COL p)
      (CONTROL_KEY p) "batch_values";
  aggregate tvn_normalized pad_metadata (PERTURBATION_NAME_COL p) (AGG_METHOD p).

(** The mapping assigned to [config["aggregate"]]. *)
Definition aggregate_section : yaml :=
  YMap [
    ("metadata_cols_fp", YStr (METADATA_COLS_FP p));
    ("collapse_cols", yaml_opt (λ l, YList (YStr <$> l)) (COLLAPSE_COLS p));
    ("classifier_path", YStr (CLASSIFIER_PATH p));
    ("aggregate_combo_fp", YStr (AGGREGATE_COMBO_FP p));
    ("filter_queries",
       yaml_opt (λ l, YList ((λ q, YStr (expr q)) <$> l)) (FILTER_QUERIES p));
    ("perturbation_name_col", YStr (PERTURBATION_NAME_COL p));
    ("drop_cols_threshold", YScalar (VNum (DROP_COLS_THRESHOLD p)));
    ("drop_rows_threshold", YScalar (VNum (DROP_ROWS_THRESHOLD p)));
    ("impute", YScalar (VBool (IMPUTE p)));
    ("contamination", YScalar (VNum (CONTAMINATION p)));
    ("batch_cols", YList (YStr <$> BATCH_COLS p));
    ("control_key", YStr (CONTROL_KEY p));
    ("perturbation_id_col", yaml_opt YStr (PERTURBATION_ID_COL p));
    ("variance_or_ncomp", YScalar (VARIANCE_OR_NCOMP p));
    ("num_align_batches", YScalar (VInt (NUM_ALIGN_BATCHES p)));
    ("agg_method", YStr (AGG_METHOD p))
  ].

(** Cell "load config file": the configuration mapping and the root
    path read from it. *)
Definition load_config_cell (fs : gmap string file) : result (yaml * string) :=
  config ← load_yaml fs CONFIG_FILE_PATH;
  root_fp ← yaml_item2 "all" "root_fp" config;
  ROOT_FP ← yaml_path root_fp;
  Ok (config, ROOT_FP).

(** Cell "add aggregate section": sets [config["aggregate"]] and rewrites
    the configuration file, header first. *)
Definition write_config_cell (config : yaml) (fs : gmap string file)
    : result (gmap string file) :=
  config' ← yaml_set_item "aggregate" aggregate_section config;
  Ok (<[CONFIG_FILE_PATH := YamlFile CONFIG_FILE_HEADER config']> fs).

(** The cells between loading and writing.  They read [config] and read
    and write data files (the metadata column list, the aggregate
    combinations); none of them assigns to [config] or to one of its
    sections. *)
Variable data_cells : yaml → gmap string file → result (gmap string file).

(** The configuration mapping through the notebook: loaded by the first
    cell, read by the cells in between, written by the last. *)
Definition persist_aggregate_params (fs : gmap string file)
    : result (gmap string file) :=
  '(config, _) ← load_config_cell fs;
  fs' ← data_cells config fs;
  write_config_cell config fs'.
End Notebook.

End Aggregate.

(** ** Python equality and sets *)

(** What Python's [==] compares of a scalar: numbers by their value, whether
    [bool], [int] or [float], strings by their text. *)
Definition py_key (v : value) : Qc + string :=
  match v with
  | VBool b => inl (if b then 1%Qc else 0%Qc)
  | VInt z => inl (Qc_of_Z z)
  | VNum q => inl q
  | VStr s => inr s
  end.


(** The first entry of each key, in order of first appearance. *)
Fixpoint unique_on {A K} `{EqDecision K} (key : A → K) (l : list A) : list A :=
  match l with
  | [] => []
  | x :: l' => x :: filter (λ y, key y ≠ key x) (unique_on key l')
  end.


(** What a Python set compares of a tuple entry: a value by [==] and [hash],
    a NaN by the object it is.  Iterating a column of a numeric dtype makes a
    float object of its own for every missing entry; a column of dtype
    object hands out the object it stores, and the parser stores the one
    [np.nan] for every missing entry. *)
Inductive entry_key :=
  | EntryValue (k : Qc + string)
  | EntryOwnNan (frame : string) (row : nat)
  | EntrySharedNan.

Global Instance entry_key_eq_dec : EqDecision entry_key.
Proof. solve_decision. Defined.

Definition tuple_key : Type := entry_key * entry_key.

(** Whether [read_csv] gives a column a numeric dtype: it holds numbers and
    missing entries only. *)
Definition numeric_column (cells : list (option value)) : bool :=
  forallb (λ c, match c with
                | None | Some (VInt _) | Some (VNum _) => true
                | Some (VBool _) | Some (VStr _) => false
                end) cells.

(** The key of the entry at [row] of a column of [frame]. *)
Definition entry_key_of (frame : string) (numeric : bool) (row : nat)
    (cell : option value) : entry_key :=
  match cell with
  | Some v => EntryValue (py_key v)
  | None => if numeric then EntryOwnNan frame row else EntrySharedNan
  end.

(** ** The merge configuration notebook *)

Module Merge.

Definition CONFIG_FILE_PATH : string := "config/config.yml".
Definition MERGE_COMBO_DF_FP : string := "config/merge_combo.tsv".

Definition MISMATCH_WARNING : string :=
  "SBS and PHENOTYPE do not have matching plate-well combinations. Merging requires identical sets.".

Record params := mkParams {
  SBS_METADATA_CYCLE : Z;
  SBS_METADATA_CHANNEL : option string;
  PH_METADATA_CHANNEL : option string;
  INITIAL_SITES : yaml;
  DET_RANGE : yaml;
  SCORE : yaml;
  THRESHOLD : yaml
}.

(** [set(zip(df["plate"], df["well"]))]: the tuples of the frame, each once,
    as the key the set knows it by and the tuple that was put in first.
    [frame] names the frame whose columns are iterated. *)
Definition plate_well_combos (frame : string) (df : DataFrame value)
    : result (list (tuple_key * (option value * option value))) :=
  plates ← column df "plate";
  wells ← column df "well";
  Ok (unique_on fst
        (imap (λ i (pw : option value * option value),
                 ((entry_key_of frame (numeric_column plates) i pw.1,
                   entry_key_of frame (numeric_column wells) i pw.2), pw))
              (zip plates wells))).

(** [a == b] on two such sets: each holds the tuples of the other. *)
Definition py_set_eq {X Y} (a : list (tuple_key * X)) (b : list (tuple_key * Y))
    : bool :=
  bool_decide (a.*1 ⊆ b.*1 ∧ b.*1 ⊆ a.*1).

(** [pd.DataFrame(list(combos), columns=["plate", "well"])] *)
Definition combos_table (combos : list (option value * option value))
    : DataFrame value :=
  mkDataFrame ["plate"; "well"]
    (imap (λ i (pw : option value * option value), (i, [pw.1; pw.2])) combos).

(** What the notebook has after a cell: the files, the warnings emitted so
    far, and its variables [config] and [merge_wildcard_combos]. *)
Record state := mkState {
  files : gmap string file;
  warnings : list string;
  config : yaml;
  merge_wildcard_combos : DataFrame value
}.

(** Cell "load config file ... generate plate-well combinations for
    merge".  [list_set] is [list(s)] on a set of tuples: its elements in the
    order Python iterates the set, which follows the hashes and, for
    strings, changes from one interpreter run to the next. *)
Definition merge_combo_cell
    (list_set : list (option value * option value)
                → list (option value * option value))
    (fs : gmap string file) : result state :=
  config ← load_yaml fs CONFIG_FILE_PATH;
  sbs_combo_fp ← yaml_item2 "preprocess" "sbs_combo_fp" config;
  SBS_COMBO_FP ← yaml_path sbs_combo_fp;
  sbs_wildcard_combos ← read_csv fs SBS_COMBO_FP;
  phenotype_combo_fp ← yaml_item2 "preprocess" "phenotype_combo_fp" config;
  PHENOTYPE_COMBO_FP ← yaml_path phenotype_combo_fp;
  phenotype_wildcard_combos ← read_csv fs PHENOTYPE_COMBO_FP;
  sbs_combos ← plate_well_combos "sbs_wildcard_combos" sbs_wildcard_combos;
  phenotype_combos ←
    plate_well_combos "phenotype_wildcard_combos" phenotype_wildcard_combos;
  let '(warned, merge_wildcard_combos) :=
    if py_set_eq sbs_combos phenotype_combos
    then ([], combos_table (list_set sbs_combos.*2))
    else ([MISMATCH_WARNING], mkDataFrame ["plate"; "well"] []) in
  Ok (mkState (<[MERGE_COMBO_DF_FP := TableFile merge_wildcard_combos]> fs)
        warned config merge_wildcard_combos).

Section Notebook.
Variable list_set :
  list (option value * option value) → list (option value * option value).
Variable CONFIG_FILE_HEADER : string.
Variable p : params.

(** The mapping assigned to [config["merge"]]. *)
Definition merge_section : yaml :=
  YMap [
    ("merge_combo_fp", YStr MERGE_COMBO_DF_FP);
    ("sbs_metadata_cycle", YScalar (VInt (SBS_METADATA_CYCLE p)));
    ("sbs_metadata_channel", yaml_opt YStr (SBS_METADATA_CHANNEL p));
    ("ph_metadata_channel", yaml_opt YStr (PH_METADATA_CHANNEL p));
    ("initial_sites", INITIAL_SITES p);
    ("det_range", DET_RANGE p);
    ("score", SCORE p);
    ("threshold", THRESHOLD p)
  ].

(** Cell "add merge section". *)
Definition write_config_cell (st : state) : result state :=
  config' ← yaml_set_item "merge" merge_section (config st);
  Ok (mkState (<[CONFIG_FILE_PATH := YamlFile CONFIG_FILE_HEADER config']> (files st))
        (warnings st) config' (merge_wildcard_combos st)).

(** The cells between the combo cell and the write.  They read [config]
    and data files and draw; none of them assigns to [config] or to one of
    its sections. *)
Variable data_cells : yaml → gmap string file → result (gmap string file).

(** The configuration mapping through the notebook: loaded by the combo
    cell, its root path read by the metadata cell, written by the last
    cell. *)
Definition persist_merge_params (fs : gmap string file) : result state :=
  st ← merge_combo_cell list_set fs;
  root_fp ← yaml_item2 "all" "root_fp" (config st);
  ROOT_FP ← yaml_path root_fp;
  files' ← data_cells (config st) (files st);
  write_config_cell
    (mkState files' (warnings st) (config st) (merge_wildcard_combos st)).
End Notebook.

End Merge.

(** ** Specification predicates *)

(** The state of the configuration mapping [d'] after assigning section
    [name] in [d]: the other sections are as they were, in the same order. *)
Definition only_section_changed (name : string) (section : yaml)
    (d d' : list (string * yaml)) : Prop :=
  dict_get name d' = Some section ∧
  (∀ k, k ≠ name → dict_get k d' = dict_get k d) ∧
  filter (λ e : string * yaml, e.1 ≠ name) d'
  = filter (λ e : string * yaml, e.1 ≠ name) d.

(** The key of a plate-well tuple that holds no NaN: what [==] compares of
    its two entries. *)
Definition value_tuple_key (pw : option value * option value) : tuple_key :=
  (entry_key_of "" false 0 pw.1, entry_key_of "" false 0 pw.2).

Definition same_type (u v : value) : bool :=
  match u, v with
  | VBool _, VBool _ | VInt _, VInt _ | VNum _, VNum _ | VStr _, VStr _ => true
  | _, _ => false
  end.

(** A column of one dtype, as [read_csv] makes it: its entries are all
    integers, all floats, all booleans or all strings. *)
Definition one_dtype (cells : list (option value)) : bool :=
  match omap id cells with
  | [] => true
  | v :: vs => forallb (same_type v) vs
  end.

(** ** Example inputs *)

Module Examples.

Definition num (z : Z) : Qc := Qc_of_Z z.

Definition config : yaml :=
  YMap [
    ("all", YMap [("root_fp", YStr "analysis_root")]);
    ("preprocess",
       YMap [("sbs_combo_fp", YStr "config/sbs_combo.tsv");
             ("phenotype_combo_fp", YStr "config/phenotype_combo.tsv")]);
    ("phenotype", YMap [("channel_names", YList [YStr "DAPI"; YStr "WGA"])])
  ].

Definition params : Aggregate.params :=
  {| Aggregate.TEST_CELL_CLASS := "all";
     Aggregate.TEST_CHANNEL_COMBO := ["DAPI"; "WGA"];
     Aggregate.METADATA_COLS_FP := "config/cell_data_metadata_cols.tsv";
     Aggregate.COLLAPSE_COLS := Some ["sgRNA_0"; "gene_symbol_0"];
     Aggregate.CLASSIFIER_PATH := "config/classifier.dill";
     Aggregate.AGGREGATE_COMBO_FP := "config/aggregate_combo.tsv";
     Aggregate.FILTER_QUERIES := None;
     Aggregate.PERTURBATION_NAME_COL := "gene_symbol_0";
     Aggregate.DROP_COLS_THRESHOLD := 1;
     Aggregate.DROP_ROWS_THRESHOLD := 1;
     Aggregate.IMPUTE := true;
     Aggregate.CONTAMINATION := 0;
     Aggregate.BATCH_COLS := ["plate"; "well"];
     Aggregate.CONTROL_KEY := "nontargeting";
     Aggregate.PERTURBATION_ID_COL := None;
     Aggregate.VARIANCE_OR_NCOMP := VInt 2;
     Aggregate.NUM_ALIGN_BATCHES := 1;
     Aggregate.AGG_METHOD := "mean" |}.

(** Two cells with different perturbations, of different cell classes. *)
Definition two_genes_metadata : DataFrame value :=
  mkDataFrame ["gene_symbol_0"]
    [(0, [Some (VStr "GENE_A")]); (1, [Some (VStr "GENE_B")])].

Definition two_genes_classified : DataFrame value :=
  mkDataFrame ["gene_symbol_0"; "class"; "confidence"]
    [(0, [Some (VStr "GENE_A"); Some (VStr "mitotic"); Some (VInt 1)]);
     (1, [Some (VStr "GENE_B"); Some (VStr "interphase"); Some (VInt 1)])].

Definition two_genes_features : DataFrame Qc :=
  mkDataFrame ["cell_DAPI_mean"] [(0, [Some (num 4)]); (1, [Some (num 6)])].

Definition mitotic_params : Aggregate.params :=
  {| Aggregate.TEST_CELL_CLASS := "mitotic";
     Aggregate.TEST_CHANNEL_COMBO := Aggregate.TEST_CHANNEL_COMBO params;
     Aggregate.METADATA_COLS_FP := Aggregate.METADATA_COLS_FP params;
     Aggregate.COLLAPSE_COLS := Aggregate.COLLAPSE_COLS params;
     Aggregate.CLASSIFIER_PATH := Aggregate.CLASSIFIER_PATH params;
     Aggregate.AGGREGATE_COMBO_FP := Aggregate.AGGREGATE_COMBO_FP params;
     Aggregate.FILTER_QUERIES := None;
     Aggregate.PERTURBATION_NAME_COL := "gene_symbol_0";
     Aggregate.DROP_COLS_THRESHOLD := 1;
     Aggregate.DROP_ROWS_THRESHOLD := 1;
     Aggregate.IMPUTE := true;
     Aggregate.CONTAMINATION := 0;
     Aggregate.BATCH_COLS := Aggregate.BATCH_COLS params;
     Aggregate.CONTROL_KEY := Aggregate.CONTROL_KEY params;
     Aggregate.PERTURBATION_ID_COL := None;
     Aggregate.VARIANCE_OR_NCOMP := Aggregate.VARIANCE_OR_NCOMP params;
     Aggregate.NUM_ALIGN_BATCHES := 1;
     Aggregate.AGG_METHOD := "mean" |}.

(** A channel-combination subsetter that keeps every feature. *)
Definition all_features (ft : DataFrame Qc) (_ _ : list string) : DataFrame Qc :=
  ft.

(** Three cells, one of them without a value for its single feature. *)
Definition three_cells_metadata : DataFrame value :=
  mkDataFrame ["gene_symbol_0"]
    [(0, [Some (VStr "GENE_A")]); (1, [Some (VStr "GENE_A")]);
     (2, [Some (VStr "GENE_B")])].

Definition three_cells_features : DataFrame Qc :=
  mkDataFrame ["cell_DAPI_mean"]
    [(0, [Some (num 1)]); (1, [None]); (2, [Some (num 3)])].

Definition three_cells_imputed : DataFrame Qc :=
  mkDataFrame ["cell_DAPI_mean"]
    [(0, [Some (num 1)]); (1, [Some (num 2)]); (2, [Some (num 3)])].

Definition no_impute_params : Aggregate.params :=
  {| Aggregate.TEST_CELL_CLASS := "all";
     Aggregate.TEST_CHANNEL_COMBO := Aggregate.TEST_CHANNEL_COMBO params;
     Aggregate.METADATA_COLS_FP := Aggregate.METADATA_COLS_FP params;
     Aggregate.COLLAPSE_COLS := Aggregate.COLLAPSE_COLS params;
     Aggregate.CLASSIFIER_PATH := Aggregate.CLASSIFIER_PATH params;
     Aggregate.AGGREGATE_COMBO_FP := Aggregate.AGGREGATE_COMBO_FP params;
     Aggregate.FILTER_QUERIES := None;
     Aggregate.PERTURBATION_NAME_COL := "gene_symbol_0";
     Aggregate.DROP_COLS_THRESHOLD := 1;
     Aggregate.DROP_ROWS_THRESHOLD := 1;
     Aggregate.IMPUTE := false;
     Aggregate.CONTAMINATION := 0;
     Aggregate.BATCH_COLS := Aggregate.BATCH_COLS params;
     Aggregate.CONTROL_KEY := Aggregate.CONTROL_KEY params;
     Aggregate.PERTURBATION_ID_COL := None;
     Aggregate.VARIANCE_OR_NCOMP := Aggregate.VARIANCE_OR_NCOMP params;
     Aggregate.NUM_ALIGN_BATCHES := 1;
     Aggregate.AGG_METHOD := "mean" |}.

Definition half : Qc := Q2Qc (1 # 2).

(** Embeddings of three cells in two dimensions. *)
Definition three_cells_embeddings : list (list Qc) :=
  [[num 1; num 2]; [num 3; num 4]; [num 5; num 6]].

(** Combination tables: SBS has wells A1 and B2, phenotype only A1. *)
Definition sbs_combos_table : DataFrame value :=
  mkDataFrame ["plate"; "well"; "tile"; "cycle"]
    [(0, [Some (VInt 1); Some (VStr "A1"); Some (VInt 0); Some (VInt 1)]);
     (1, [Some (VInt 1); Some (VStr "A1"); Some (VInt 1); Some (VInt 1)]);
     (2, [Some (VInt 1); Some (VStr "B2"); Some (VInt 0); Some (VInt 1)])].

Definition phenotype_combos_table : DataFrame value :=
  mkDataFrame ["plate"; "well"; "tile"]
    [(0, [Some (VInt 1); Some (VStr "A1"); Some (VInt 0)]);
     (1, [Some (VInt 1); Some (VStr "A1"); Some (VInt 1)])].

Definition files : gmap string file :=
  <["config/config.yml" := YamlFile "# Brieflow configuration" config]>
  (<["config/sbs_combo.tsv" := TableFile sbs_combos_table]>
  (<["config/phenotype_combo.tsv" := TableFile phenotype_combos_table]> ∅)).

(** Data cells that leave a file of their own. *)
Definition data_cells (_ : yaml) (fs : gmap string file)
    : result (gmap string file) :=
  Ok (<["config/cell_data_metadata_cols.tsv" :=
          TableFile (mkDataFrame ["column"]
                       [(0, [Some (VStr "plate")]); (1, [Some (VStr "well")])])]> fs).

Definition merge_params : Merge.params :=
  {| Merge.SBS_METADATA_CYCLE := 1;
     Merge.SBS_METADATA_CHANNEL := None;
     Merge.PH_METADATA_CHANNEL := None;
     Merge.INITIAL_SITES :=
       YList [YList [YScalar (VInt 5); YScalar (VInt 0)]];
     Merge.DET_RANGE := YList [YScalar (VNum half); YScalar (VInt 2)];
     Merge.SCORE := YScalar (VNum half);
     Merge.THRESHOLD := YScalar (VInt 2) |}.

End Examples.

(** * The other cells of the notebooks *)

(** ** Python exceptions and pandas operations *)

(** What a cell raises: an error of the classes above, or one of Python's
    [ValueError] and [IndexError]. *)
Inductive exception :=
  | Raised (e : error)
  | ValueError (what : string)
  | IndexError (what : string).

Inductive outcome (A : Type) :=
  | Returns (a : A)
  | Raises (e : exception).
Arguments Returns {A} a.
Arguments Raises {A} e.

Global Instance outcome_ret : MRet outcome := λ A a, Returns a.
Global Instance outcome_bind : MBind outcome := λ A B f m,
  match m with
  | Returns a => f a
  | Raises e => Raises e
  end.

Definition lift {A} (r : result A) : outcome A :=
  match r with
  | Ok a => Returns a
  | Err e => Raises (Raised e)
  end.

(** [l[i]] on a Python list, for an index that is not negative. *)
Definition py_index {A} (l : list A) (i : nat) : outcome A :=
  match l !! i with
  | Some x => Returns x
  | None => Raises (IndexError "list index out of range")
  end.

(** [[f(x) for x in l]], stopping at the first exception. *)
Fixpoint for_each {A B} (f : A → outcome B) (l : list A) : outcome (list B) :=
  match l with
  | [] => Returns []
  | x :: l' => y ← f x; ys ← for_each f l'; Returns (y :: ys)
  end.

(** [cell == x], elementwise in a column: a null cell equals nothing. *)
Definition cell_eq (x : value) (cell : option value) : bool :=
  match cell with
  | Some v => bool_decide (py_key v = py_key x)
  | None => false
  end.

(** [Series.unique()]: the distinct values in order of first appearance; the
    nulls count as one value. *)
Definition unique (cells : list (option value)) : list (option value) :=
  unique_on (fmap (M:=option) py_key) cells.

(** [Index.union] without sorting, as [pd.concat] joins column names. *)
Definition union_names (names : list string) : list string :=
  unique_on id names.

(** The cells of the rows of [df] under the columns [cols]; null where [df]
    has no such column. *)
Definition rows_under {A} (cols : list string) (df : DataFrame A)
    : list (list (option A)) :=
  (λ r : nat * list (option A), (λ c, get_cell (columns df) r.2 c) <$> cols)
    <$> rows df.

(** A fresh [RangeIndex] for the rows. *)
Definition range_index {A} (rs : list (list (option A)))
    : list (nat * list (option A)) :=
  imap (λ i r, (i, r)) rs.

(** [pd.concat([df1, df2], ignore_index=True)] for tables with unique column
    names: the rows of [df1], then those of [df2], under the union of the
    columns, labelled anew.  pandas gives each column of the result one
    dtype and converts the cells to it (an integer column that one table
    lacks, or that is a float column in the other, becomes a float column).
    Tables hold values, not dtypes, so the conversion is the parameter
    [astype]: from the name of a column and a cell to the cell in the dtype
    of that column of the result. *)
Definition concat_ignore_index {A} (astype : string → option A → option A)
    (df1 df2 : DataFrame A) : DataFrame A :=
  let cols := union_names (columns df1 ++ columns df2) in
  mkDataFrame cols
    (range_index (zip_with astype cols
                    <$> (rows_under cols df1 ++ rows_under cols df2))).

(** [df.itertuples(index=False, name=None)]: each row as the tuple of its
    cells, by position. *)
Definition itertuples {A} (df : DataFrame A) : list (list (option A)) :=
  (λ r : nat * list (option A),
     (λ i, mjoin (r.2 !! i)) <$> seq 0 (length (columns df))) <$> rows df.

(** [str(x)] of a cell, as an f-string or [format] writes it; how a float
    prints is left to [float_str]. *)
Definition py_str (float_str : Qc → string) (c : option value) : string :=
  match c with
  | None => "nan"
  | Some (VBool b) => if b then "True" else "False"
  | Some (VInt z) => pretty z
  | Some (VNum q) => float_str q
  | Some (VStr s) => s
  end.

(** ** The data cells of the aggregate notebook *)

Module AggregateData.

(** Cell "load subset of data": the two loaded subsets, one table. *)
Definition load_cell_data {A} (astype : string → option A → option A)
    (cell_data cell_data_2 : DataFrame A) : DataFrame A :=
  concat_ignore_index astype cell_data cell_data_2.

(** [df[df["class"] == cell_class]] *)
Definition class_rows (df : DataFrame value) (cell_class : option value)
    : result (DataFrame value) :=
  classes ← column df "class";
  Ok (mask_rows
        ((λ c, match cell_class with
               | Some x => cell_eq x c
               | None => false
               end) <$> classes)
        df).

(** [CELL_CLASSES = list(classified_metadata["class"].unique())] *)
Definition CELL_CLASSES (classified_metadata : DataFrame value)
    : result (list (option value)) :=
  classes ← column classified_metadata "class";
  Ok (unique classes).

(** [cell_classes]: the classes and ["all"]. *)
Definition cell_classes (classified_metadata : DataFrame value)
    : result (list (option value)) :=
  classes ← CELL_CLASSES classified_metadata;
  Ok (classes ++ [Some (VStr "all")]).

(** The dictionary [cell_class_dfs], in the order of its keys; [CELL_CLASSES]
    has no key twice. *)
Fixpoint cell_class_dfs (classified_metadata_copy : DataFrame value)
    (classes : list (option value))
    : result (list (option value * DataFrame value)) :=
  match classes with
  | [] => Ok []
  | cell_class :: classes' =>
      cell_df ← class_rows classified_metadata_copy cell_class;
      dfs ← cell_class_dfs classified_metadata_copy classes';
      Ok ((cell_class, cell_df) :: dfs)
  end.

Definition title_template (ascending : bool) (cell_class channel : string) : string :=
  (if ascending then "Lowest Confidence " else "Highest Confidence ")
  +:+ cell_class +:+ " Cells - " +:+ channel.

Section Montages.
(** A montage, and [create_cell_montage(cell_data, channels,
    selection_params)[MONTAGE_CHANNEL]] of [lib.aggregate.montage_utils] for
    sorting by confidence, ascending or not. *)
Variable montage : Type.
Variable create_cell_montage :
  DataFrame value → yaml → bool → string → result montage.
Variable float_str : Qc → string.

(** Cell "generate montages dynamically": for each class the montage of the
    lowest and of the highest confidence, and their titles. *)
Fixpoint montage_loop (config : yaml) (MONTAGE_CHANNEL : string)
    (dfs : list (option value * DataFrame value))
    : result (list montage * list string) :=
  match dfs with
  | [] => Ok ([], [])
  | (cell_class, cell_df) :: dfs' =>
      channels ← yaml_item2 "phenotype" "channel_names" config;
      lowest ← create_cell_montage cell_df channels true MONTAGE_CHANNEL;
      channels' ← yaml_item2 "phenotype" "channel_names" config;
      highest ← create_cell_montage cell_df channels' false MONTAGE_CHANNEL;
      rest ← montage_loop config MONTAGE_CHANNEL dfs';
      Ok (lowest :: highest :: rest.1,
          title_template true (py_str float_str cell_class) MONTAGE_CHANNEL
          :: title_template false (py_str float_str cell_class) MONTAGE_CHANNEL
          :: rest.2)
  end.

(** The cell from the classified metadata on: the classes, the table with
    file names per class, the montages and titles, and the number of rows of
    the figure. *)
Definition montage_cell (add_filenames : DataFrame value → DataFrame value)
    (config : yaml) (MONTAGE_CHANNEL : string)
    (classified_metadata : DataFrame value)
    : result (list montage * list string * nat) :=
  classes ← CELL_CLASSES classified_metadata;
  dfs ← cell_class_dfs (add_filenames classified_metadata) classes;
  shown ← montage_loop config MONTAGE_CHANNEL dfs;
  Ok (shown.1, shown.2, length classes).
End Montages.

(** Cell "determine cell classes and channel combos": the table of every
    merge row with every cell class and channel combination.  Assigning the
    expanded [plate_well] tuples to the two columns [plate] and [well] is a
    [ValueError] unless there are tuples and they have two entries. *)
Definition aggregate_wildcard_combos (merge_wildcard_combos : DataFrame value)
    (classes : list (option value)) (CHANNEL_COMBOS : list (list string))
    : outcome (DataFrame value) :=
  let channel_combos := String.concat "_" <$> CHANNEL_COMBOS in
  let combos :=
    plate_well ← itertuples merge_wildcard_combos;
    cell_class ← classes;
    channel_combo ← channel_combos;
    [(plate_well, cell_class, channel_combo)] in
  if decide (combos ≠ [] ∧ length (columns merge_wildcard_combos) = 2)
  then
    Returns
      (mkDataFrame ["cell_class"; "channel_combo"; "plate"; "well"]
         (range_index
            ((λ combo : list (option value) * option value * string,
                [combo.1.2; Some (VStr combo.2);
                 mjoin (combo.1.1 !! 0); mjoin (combo.1.1 !! 1)])
               <$> combos)))
  else Raises (ValueError "Columns must be same length as key").

(** The same cell with its files: reads the merge combinations named in the
    configuration, writes the aggregate combinations. *)
Definition aggregate_combo_cell (config : yaml) (fs : gmap string file)
    (classes : list (option value)) (CHANNEL_COMBOS : list (list string))
    (AGGREGATE_COMBO_FP : string)
    : outcome (gmap string file * DataFrame value) :=
  merge_combo_fp ← lift (yaml_item2 "merge" "merge_combo_fp" config);
  MERGE_COMBO_FP ← lift (yaml_path merge_combo_fp);
  merge_wildcard_combos ← lift (read_csv fs MERGE_COMBO_FP);
  combos ← aggregate_wildcard_combos merge_wildcard_combos classes CHANNEL_COMBOS;
  Returns (<[AGGREGATE_COMBO_FP := TableFile combos]> fs, combos).





(** The order of [sort_values("cell_count", ascending=False)]. *)
Definition more_cells (a b : AggregateRecord) : Prop :=
  (cell_count b ≤ cell_count a)%nat.

Global Instance more_cells_dec : RelDecision more_cells.
Proof. intros a b. unfold more_cells. apply _. Defined.

(** [aggregated_cell_data]: the aggregate records, most cells first, under a
    fresh index.  The order among equal counts is not fixed by pandas; here
    it is the order of the records. *)
Definition aggregated_cell_data (records : list AggregateRecord)
    : list (nat * AggregateRecord) :=
  imap (λ i rec, (i, rec)) (merge_sort more_cells records).

End AggregateData.

(** ** The data cells of the merge notebook *)

Module MergeData.

(** [sbs_test_metadata[sbs_test_metadata["cycle"] == SBS_METADATA_CYCLE]] *)
Definition cycle_rows (sbs_test_metadata : DataFrame value)
    (SBS_METADATA_CYCLE : Z) : result (DataFrame value) :=
  cycles ← column sbs_test_metadata "cycle";
  Ok (mask_rows (cell_eq (VInt SBS_METADATA_CYCLE) <$> cycles) sbs_test_metadata).

(** Cell "derive sites for phenotype and sbs": [phenotype_tiles] and
    [sbs_tiles]. *)
Definition site_tiles (INITIAL_SITES : list (list value))
    : outcome (list value * list value) :=
  phenotype_tiles ← for_each (λ site, py_index site 0) INITIAL_SITES;
  sbs_tiles ← for_each (λ site, py_index site 1) INITIAL_SITES;
  Returns (phenotype_tiles, sbs_tiles).

(** [alignment_vec_example]: the first row of the initial alignment for the
    first initial site.  [iloc[0]] returns the row as a Series named by the
    row label, and pandas converts the cells of the row to one dtype, the
    common dtype of the columns of the table (an integer next to a float
    column comes back as a float).  Tables hold values, not dtypes, so the
    conversion is the parameter [series_values]: from the table and the
    cells of one of its rows to the values of the Series. *)
Definition alignment_vec_example
    (series_values : DataFrame value → list (option value) → list (option value))
    (initial_alignment_df : DataFrame value)
    (INITIAL_SITES : list (list value)) : outcome (nat * list (option value)) :=
  tiles ← lift (column initial_alignment_df "tile");
  first_site ← py_index INITIAL_SITES 0;
  tile ← py_index first_site 0;
  sites ← lift (column initial_alignment_df "site");
  first_site' ← py_index INITIAL_SITES 0;
  site ← py_index first_site' 1;
  let mask := zip_with andb (cell_eq tile <$> tiles) (cell_eq site <$> sites) in
  let selected := mask_rows mask initial_alignment_df in
  match rows selected with
  | r :: _ => Returns (r.1, series_values selected r.2)
  | [] => Raises (IndexError "single positional indexer is out-of-bounds")
  end.

End MergeData.

(** ** The downstream analysis notebook *)

Module Downstream.

(** [GENE_COL = config["aggregate"]["perturbation_name_col"]] *)
Definition GENE_COL (config : yaml) : result yaml :=
  yaml_item2 "aggregate" "perturbation_name_col" config.

End Downstream.

(** ** Predicates for the properties of the cells *)

(** Whether a row of [df] is of class [cell_class], as [==] has it. *)
Definition of_class (df : DataFrame value) (cell_class : option value)
    (r : nat * list (option value)) : bool :=
  match cell_class with
  | Some x => cell_eq x (get_cell (columns df) r.2 "class")
  | None => false
  end.

(** The product of the merge rows, the classes and the channel
    combinations, in the order of [itertools.product]. *)
Definition combo_product (tuples : list (list (option value)))
    (classes : list (option value)) (channel_combos : list string)
    : list (list (option value) * option value * string) :=
  plate_well ← tuples;
  cell_class ← classes;
  channel_combo ← channel_combos;
  [(plate_well, cell_class, channel_combo)].

(** ** Example inputs for the other cells *)

Module CellExamples.

(** Two loaded subsets; the second lacks [cell_area] and has [cell_dapi]. *)
Definition well_1 : DataFrame value :=
  mkDataFrame ["plate"; "well"; "cell_area"]
    [(0, [Some (VInt 1); Some (VStr "A1"); Some (VInt 40)]);
     (1, [Some (VInt 1); Some (VStr "A1"); Some (VInt 52)])].

Definition well_2 : DataFrame value :=
  mkDataFrame ["plate"; "well"; "cell_dapi"]
    [(0, [Some (VInt 1); Some (VStr "A2"); Some (VInt 7)])].

(** The dtypes of the table that joins [well_1] and [well_2]: each of the
    integer columns [cell_area] and [cell_dapi] is missing in one of them
    and becomes a float column. *)
Definition wells_astype (c : string) (cell : option value) : option value :=
  match cell with
  | Some (VInt z) =>
      if bool_decide (c ∈ ["cell_area"; "cell_dapi"])
      then Some (VNum (Examples.num z)) else cell
  | _ => cell
  end.

(** A montage stand-in: the number of cells it was drawn from. *)
Definition counted_montage (cell_df : DataFrame value) (_ : yaml) (_ : bool)
    (_ : string) : result nat :=
  Ok (n_rows cell_df).

Definition plain_float (_ : Qc) : string := "0.0".

Definition same_table (df : DataFrame value) : DataFrame value := df.

(** Phenotype combinations of both wells, the plate read as a float. *)
Definition phenotype_combos_float : DataFrame value :=
  mkDataFrame ["plate"; "well"; "tile"]
    [(0, [Some (VNum (Examples.num 1)); Some (VStr "A1"); Some (VInt 0)]);
     (1, [Some (VNum (Examples.num 1)); Some (VStr "B2"); Some (VInt 0)])].

Definition matching_files : gmap string file :=
  <["config/phenotype_combo.tsv" := TableFile phenotype_combos_float]>
    Examples.files.

(** The merge table of two wells. *)
Definition merge_table : DataFrame value :=
  Merge.combos_table
    [(Some (VInt 1), Some (VStr "A1")); (Some (VInt 1), Some (VStr "B2"))].

Definition classes : list (option value) :=
  [Some (VStr "mitotic"); Some (VStr "interphase"); Some (VStr "all")].

Definition CHANNEL_COMBOS : list (list string) := [["DAPI"; "WGA"]; ["DAPI"]].

(** The SBS combinations of [Examples], rows in another order and one of
    them twice. *)
Definition sbs_combos_shuffled : DataFrame value :=
  mkDataFrame ["plate"; "well"; "tile"; "cycle"]
    [(0, [Some (VInt 1); Some (VStr "B2"); Some (VInt 0); Some (VInt 1)]);
     (1, [Some (VInt 1); Some (VStr "A1"); Some (VInt 1); Some (VInt 1)]);
     (2, [Some (VInt 1); Some (VStr "A1"); Some (VInt 0); Some (VInt 1)]);
     (3, [Some (VInt 1); Some (VStr "B2"); Some (VInt 0); Some (VInt 1)])].

(** Other aggregate parameters: another perturbation column. *)
Definition sgrna_params : Aggregate.params :=
  {| Aggregate.TEST_CELL_CLASS := "all";
     Aggregate.TEST_CHANNEL_COMBO := ["DAPI"];
     Aggregate.METADATA_COLS_FP := "config/cell_data_metadata_cols.tsv";
     Aggregate.COLLAPSE_COLS := None;
     Aggregate.CLASSIFIER_PATH := "config/classifier.dill";
     Aggregate.AGGREGATE_COMBO_FP := "config/aggregate_combo.tsv";
     Aggregate.FILTER_QUERIES := None;
     Aggregate.PERTURBATION_NAME_COL := "sgRNA_0";
     Aggregate.DROP_COLS_THRESHOLD := 1;
     Aggregate.DROP_ROWS_THRESHOLD := 1;
     Aggregate.IMPUTE := true;
     Aggregate.CONTAMINATION := 0;
     Aggregate.BATCH_COLS := ["plate"];
     Aggregate.CONTROL_KEY := "nontargeting";
     Aggregate.PERTURBATION_ID_COL := None;
     Aggregate.VARIANCE_OR_NCOMP := VInt 2;
     Aggregate.NUM_ALIGN_BATCHES := 1;
     Aggregate.AGG_METHOD := "median" |}.

Definition INITIAL_SITES : list (list value) :=
  [[VInt 5; VInt 0]; [VInt 141; VInt 32]].

(** An initial alignment; the second row is the one of site (5, 0). *)
Definition initial_alignment_df : DataFrame value :=
  mkDataFrame ["tile"; "site"; "score"]
    [(0, [Some (VInt 5); Some (VInt 1); Some (VInt 3)]);
     (1, [Some (VInt 5); Some (VInt 0); Some (VInt 9)]);
     (2, [Some (VInt 141); Some (VInt 32); Some (VInt 8)])].

End CellExamples.

(** * Properties *)

Section TableFacts.
Context {A : Type}.
Implicit Types (df : DataFrame A) (cols : list string).

Lemma col_index_Some cols c :
  c ∈ cols → ∃ i, col_index cols c = Some i ∧ cols !! i = Some c.
Proof.
  intros Hin. unfold col_index.
  destruct (list_find (λ c', c' = c) cols) as [[i c']|] eqn:Hfind.
  - apply list_find_Some in Hfind as (Hi & -> & _). eauto.
  - apply list_find_None in Hfind.
    rewrite Forall_forall in Hfind. by destruct (Hfind c Hin).
Qed.

Lemma get_cell_fmap cols (f : string → option A) c :
  c ∈ cols → get_cell cols (f <$> cols) c = f c.
Proof.
  intros (i & Hi & Hc)%col_index_Some. unfold get_cell.
  rewrite Hi. simpl. by rewrite list_lookup_fmap, Hc.
Qed.

Lemma row_labels_select cols df : row_labels (select cols df) = row_labels df.
Proof.
  unfold row_labels, select. simpl.
  rewrite <-list_fmap_compose. by apply list_fmap_ext.
Qed.

Lemma n_rows_select cols df : n_rows (select cols df) = n_rows df.
Proof. unfold n_rows, select. simpl. by rewrite length_fmap. Qed.

Lemma cell_at_select cols df i c :
  c ∈ cols → cell_at (select cols df) i c = cell_at df i c.
Proof.
  intros Hc. unfold cell_at, select. simpl.
  rewrite list_lookup_fmap.
  destruct (rows df !! i) as [[lbl r]|]; simpl; [|done].
  by rewrite get_cell_fmap.
Qed.
End TableFacts.

Lemma filter_absent_nil (l cols : list string) :
  l ⊆ cols → filter (λ c, c ∉ cols) l = [].
Proof.
  intros Hsub. induction l as [|c l IH]; [done|].
  rewrite filter_cons_False.
  - apply IH. intros x Hx. apply Hsub. by right.
  - intros Hc. apply Hc, Hsub. by left.
Qed.

(** C6.  When every listed metadata column is present, [split_cell_data]
    succeeds; the columns of the two tables partition the columns of the
    input (union equal to the input's columns, no column in both), the
    feature columns keep the input's column order, and both tables have the
    input's rows: same number, same labels in the same order, same cells. *)
Theorem split_cell_data_partition {A} (cell_data : DataFrame A)
    (metadata_cols : list string) :
  metadata_cols ⊆ columns cell_data →
  ∃ metadata features,
    split_cell_data cell_data metadata_cols = Ok (metadata, features) ∧
    (∀ c, c ∈ columns metadata ∨ c ∈ columns features ↔ c ∈ columns cell_data) ∧
    (∀ c, c ∈ columns metadata → c ∉ columns features) ∧
    columns features `sublist_of` columns cell_data ∧
    n_rows metadata = n_rows cell_data ∧
    n_rows features = n_rows cell_data ∧
    row_labels metadata = row_labels cell_data ∧
    row_labels features = row_labels cell_data ∧
    (∀ i c, c ∈ columns metadata →
       cell_at metadata i c = cell_at cell_data i c) ∧
    (∀ i c, c ∈ columns features →
       cell_at features i c = cell_at cell_data i c).
Proof.
  intros Hsub. unfold split_cell_data.
  rewrite (filter_absent_nil _ _ Hsub).
  eexists _, _. split; [reflexivity|]. simpl.
  split_and!.
  - intros c. rewrite list_elem_of_filter. split.
    + intros [Hc|[_ Hc]]; [by apply Hsub|done].
    + intros Hc. destruct (decide (c ∈ metadata_cols)); auto.
  - intros c Hc. rewrite list_elem_of_filter. tauto.
  - apply sublist_filter.
  - apply n_rows_select.
  - apply n_rows_select.
  - apply row_labels_select.
  - apply row_labels_select.
  - intros i c Hc. by apply cell_at_select.
  - intros i c Hc. by apply cell_at_select.
Qed.

(** ** Configuration persistence *)

Lemma dict_get_set_ne k k' v d :
  k ≠ k' → dict_get k' (dict_set k v d) = dict_get k' d.
Proof.
  intros Hne. induction d as [|[k0 v0] d IH]; simpl.
  - by rewrite decide_False by done.
  - destruct (decide (k = k0)) as [->|]; simpl.
    + by rewrite !decide_False by done.
    + destruct (decide (k' = k0)); [done|apply IH].
Qed.

Lemma dict_get_set_eq k v d : dict_get k (dict_set k v d) = Some v.
Proof.
  induction d as [|[k0 v0] d IH]; simpl.
  - by rewrite decide_True.
  - destruct (decide (k = k0)) as [->|Hne]; simpl.
    + by rewrite decide_True.
    + by rewrite decide_False.
Qed.

Lemma dict_set_others k v d :
  filter (λ e : string * yaml, e.1 ≠ k) (dict_set k v d)
  = filter (λ e : string * yaml, e.1 ≠ k) d.
Proof.
  induction d as [|[k0 v0] d IH]; simpl.
  - by rewrite filter_cons_False by (simpl; auto).
  - destruct (decide (k = k0)) as [->|Hne].
    + by rewrite !filter_cons_False by (simpl; auto).
    + rewrite !filter_cons_True by (simpl; auto). by rewrite IH.
Qed.

Lemma dict_set_only_section name section d :
  only_section_changed name section d (dict_set name section d).
Proof.
  split_and!.
  - apply dict_get_set_eq.
  - intros k Hk. by apply dict_get_set_ne.
  - apply dict_set_others.
Qed.

Ltac result_cases H :=
  repeat match type of H with
  | (mbind _ ?m) = Ok _ =>
      let E := fresh "E" in destruct m eqn:E; simpl in H; [|discriminate H]
  | (match ?m with _ => _ end) = Ok _ =>
      let E := fresh "E" in destruct m eqn:E; simpl in H; try discriminate H
  | Ok _ = Ok _ => injection H as H
  end.

(** C9.  When the aggregate notebook rewrites the configuration file, the
    file holds the mapping that was loaded with only its [aggregate] key
    assigned: every other top-level section has the value it was loaded
    with, in the same order, whatever the cells in between did to the
    files.  The merge notebook does the same with the [merge] key. *)
Theorem persist_changes_only_own_section (header : string)
    (data_cells : yaml → gmap string file → result (gmap string file))
    (pa : Aggregate.params) (pm : Merge.params) (fs : gmap string file)
    (list_set : list (option value * option value)
                → list (option value * option value)) :
  (∀ fs', Aggregate.persist_aggregate_params header pa data_cells fs = Ok fs' →
     ∃ d d',
       load_yaml fs Aggregate.CONFIG_FILE_PATH = Ok (YMap d) ∧
       fs' !! Aggregate.CONFIG_FILE_PATH = Some (YamlFile header (YMap d')) ∧
       only_section_changed "aggregate" (Aggregate.aggregate_section pa) d d') ∧
  (∀ st, Merge.persist_merge_params list_set header pm data_cells fs = Ok st →
     ∃ d d',
       load_yaml fs Merge.CONFIG_FILE_PATH = Ok (YMap d) ∧
       Merge.files st !! Merge.CONFIG_FILE_PATH
       = Some (YamlFile header (YMap d')) ∧
       Merge.config st = YMap d' ∧
       only_section_changed "merge" (Merge.merge_section pm) d d').
Proof.
  split.
  - intros fs' H. unfold Aggregate.persist_aggregate_params in H.
    unfold Aggregate.load_config_cell in H.
    destruct (load_yaml fs Aggregate.CONFIG_FILE_PATH) as [cfg|] eqn:Hload;
      [|discriminate H].
    simpl in H.
    destruct (yaml_item2 "all" "root_fp" cfg) as [root|]; [|discriminate H].
    simpl in H.
    destruct (yaml_path root) as [root_fp|]; [|discriminate H].
    simpl in H.
    destruct (data_cells cfg fs) as [fs1|]; [|discriminate H].
    simpl in H. unfold Aggregate.write_config_cell in H.
    destruct cfg as [| |?|d]; try discriminate H.
    simpl in H. injection H as <-.
    exists d, (dict_set "aggregate" (Aggregate.aggregate_section pa) d).
    split_and!; [done|by rewrite lookup_insert_eq|].
    apply dict_set_only_section.
  - intros st H. unfold Merge.persist_merge_params in H.
    destruct (Merge.merge_combo_cell list_set fs) as [st0|] eqn:Hcell;
      [|discriminate H].
    simpl in H.
    destruct (yaml_item2 "all" "root_fp" (Merge.config st0)) as [root|];
      [|discriminate H].
    simpl in H.
    destruct (yaml_path root) as [root_fp|]; [|discriminate H].
    simpl in H.
    destruct (data_cells (Merge.config st0) (Merge.files st0)) as [fs1|];
      [|discriminate H].
    simpl in H. unfold Merge.write_config_cell in H. simpl in H.
    destruct (Merge.config st0) as [| |?|d] eqn:Hcfg; try discriminate H.
    simpl in H. injection H as <-. simpl.
    exists d, (dict_set "merge" (Merge.merge_section pm) d).
    assert (load_yaml fs Merge.CONFIG_FILE_PATH = Ok (YMap d)) as Hload.
    { unfold Merge.merge_combo_cell in Hcell.
      destruct (load_yaml fs Merge.CONFIG_FILE_PATH) as [cfg|]; [|discriminate Hcell].
      simpl in Hcell. f_equal. rewrite <-Hcfg. clear Hcfg.
      result_cases Hcell; by subst. }
    split_and!; [done|by rewrite lookup_insert_eq|done|].
    apply dict_set_only_section.
Qed.

(** ** Merge combinations *)

Lemma imap_snd {A B} (h : nat → nat) (g : A → B) (l : list A) :
  (imap (λ i x, (h i, g x)) l).*2 = g <$> l.
Proof.
  revert h. induction l as [|x l IH]; intros h; [done|].
  simpl. f_equal. apply (IH (h ∘ S)).
Qed.

Lemma combos_table_rows (combos : list (option value * option value)) :
  (rows (Merge.combos_table combos)).*2
  = (λ pw : option value * option value, [pw.1; pw.2]) <$> combos.
Proof. apply (imap_snd id). Qed.

(** ** Python sets and fresh indexes *)

Lemma filter_twice {X} (P : X → Prop) `{∀ x, Decision (P x)} (l : list X) :
  filter P (filter P l) = filter P l.
Proof.
  induction l as [|x l IH]; [done|].
  rewrite (filter_cons _ x l). destruct (decide (P x)); [|done].
  rewrite filter_cons_True by done. by rewrite IH.
Qed.

Lemma filter_all {X} (P : X → Prop) `{∀ x, Decision (P x)} (l : list X) :
  Forall P l → filter P l = l.
Proof.
  induction 1 as [|x l Hx Hl IH]; [done|].
  rewrite filter_cons_True by done. by rewrite IH.
Qed.

Lemma filter_none {X} (P : X → Prop) `{∀ x, Decision (P x)} (l : list X) :
  Forall (λ x, ¬ P x) l → filter P l = [].
Proof.
  induction 1 as [|x l Hx Hl IH]; [done|].
  by rewrite filter_cons_False.
Qed.

Section UniqueOn.
Context {A K : Type} `{EqDecision K}.
Implicit Types (key : A → K) (l : list A).

Lemma unique_on_elem key l x : x ∈ unique_on key l → x ∈ l.
Proof.
  revert x. induction l as [|y l IH]; intros x; [done|].
  simpl. rewrite !elem_of_cons, list_elem_of_filter.
  intros [->|[_ Hx]]; auto.
Qed.

Lemma unique_on_covers key l x :
  x ∈ l → ∃ y, y ∈ unique_on key l ∧ key y = key x.
Proof.
  induction l as [|z l IH]; intros Hx; [by apply elem_of_nil in Hx|].
  apply elem_of_cons in Hx as [->|Hx].
  - exists z. split; [by left|done].
  - destruct (IH Hx) as (y & Hy & Hkey).
    destruct (decide (key y = key z)) as [Heq|Hne].
    + exists z. split; [by left|congruence].
    + exists y. split; [|done]. simpl. right.
      by apply list_elem_of_filter.
Qed.

Lemma unique_on_keys_NoDup key l : NoDup (key <$> unique_on key l).
Proof.
  induction l as [|x l IH]; [constructor|].
  simpl. constructor.
  - rewrite list_elem_of_fmap. intros (y & Hkey & Hy).
    apply list_elem_of_filter in Hy as [Hne _]. by apply Hne.
  - clear -IH. induction (unique_on key l) as [|y u IHu]; [constructor|].
    apply NoDup_cons in IH as [Hy Hu].
    rewrite filter_cons. destruct (decide (key y ≠ key x)); [|by apply IHu].
    rewrite fmap_cons. constructor; [|by apply IHu].
    rewrite list_elem_of_fmap. intros (z & Hkey & Hz).
    apply list_elem_of_filter in Hz as [_ Hz].
    apply Hy, list_elem_of_fmap. by exists z.
Qed.

Lemma unique_on_NoDup key l : NoDup (unique_on key l).
Proof. eapply NoDup_fmap_1, unique_on_keys_NoDup. Qed.

Lemma unique_on_sublist key l : unique_on key l `sublist_of` l.
Proof.
  induction l as [|x l IH]; [done|].
  simpl. apply sublist_skip. etrans; [apply sublist_filter|done].
Qed.

Lemma unique_on_id key l : NoDup (key <$> l) → unique_on key l = l.
Proof.
  induction l as [|x l IH]; [done|].
  rewrite fmap_cons. intros [Hx Hl]%NoDup_cons. simpl. f_equal.
  rewrite IH by done. apply filter_all, Forall_forall.
  intros y Hy Heq. apply Hx. rewrite <-Heq. by apply list_elem_of_fmap_2.
Qed.
End UniqueOn.

Lemma range_index_lookup {A} (rs : list (list (option A))) (i : nat) :
  range_index rs !! i = (λ r, (i, r)) <$> rs !! i.
Proof. unfold range_index. apply list_lookup_imap. Qed.

Lemma range_index_length {A} (rs : list (list (option A))) :
  length (range_index rs) = length rs.
Proof. unfold range_index. apply length_imap. Qed.

Lemma range_index_labels {A} (rs : list (list (option A))) :
  (range_index rs).*1 = seq 0 (length rs).
Proof.
  apply list_eq. intros i.
  rewrite list_lookup_fmap, range_index_lookup.
  destruct (rs !! i) as [r|] eqn:Hi; simpl.
  - symmetry. apply lookup_seq. split; [done|]. by eapply lookup_lt_Some.
  - symmetry. apply lookup_seq_ge. by apply lookup_ge_None.
Qed.

Lemma range_index_cells {A} (rs : list (list (option A))) :
  (range_index rs).*2 = rs.
Proof. unfold range_index. rewrite (imap_snd id id). apply list_fmap_id. Qed.

Lemma entry_key_of_Some (frame frame' : string) (numeric numeric' : bool)
    (row row' : nat) (cell : option value) :
  is_Some cell →
  entry_key_of frame numeric row cell = entry_key_of frame' numeric' row' cell.
Proof. by intros [v ->]. Qed.

Lemma value_tuple_key_eq (a b : option value * option value) :
  is_Some a.1 ∧ is_Some a.2 → is_Some b.1 ∧ is_Some b.2 →
  value_tuple_key a = value_tuple_key b
  ↔ py_key <$> a.1 = py_key <$> b.1 ∧ py_key <$> a.2 = py_key <$> b.2.
Proof.
  destruct a as [a1 a2], b as [b1 b2]. simpl.
  intros [[u ->] [v ->]] [[u' ->] [v' ->]]. unfold value_tuple_key. simpl.
  split.
  - by intros [= -> ->].
  - by intros [[= ->] [= ->]].
Qed.

(** The set of a frame without NaN among its plates and wells. *)
Lemma plate_well_combos_values (frame : string) (df : DataFrame value) :
  "plate" ∈ columns df → "well" ∈ columns df →
  Forall (λ pw : option value * option value, is_Some pw.1 ∧ is_Some pw.2)
    (zip (column_cells df "plate") (column_cells df "well")) →
  Merge.plate_well_combos frame df
  = Ok (unique_on fst
          ((λ pw, (value_tuple_key pw, pw))
             <$> zip (column_cells df "plate") (column_cells df "well"))).
Proof.
  intros Hp Hw Hvalues. unfold Merge.plate_well_combos, column.
  rewrite !decide_True by done. simpl. f_equal. f_equal.
  fold (column_cells df "plate") (column_cells df "well").
  rewrite <-imap_const. apply imap_ext. intros i pw Hpw. simpl.
  rewrite Forall_lookup in Hvalues. destruct (Hvalues i pw Hpw) as [H1 H2].
  unfold value_tuple_key.
  by rewrite (entry_key_of_Some _ "" _ false _ 0 _ H1),
             (entry_key_of_Some _ "" _ false _ 0 _ H2).
Qed.

Section ValueSets.
Implicit Types (l : list (option value * option value)).

Lemma value_set_elem l y :
  y ∈ unique_on fst ((λ pw, (value_tuple_key pw, pw)) <$> l) →
  y.2 ∈ l ∧ y.1 = value_tuple_key y.2.
Proof.
  intros (pw & -> & Hpw)%unique_on_elem%list_elem_of_fmap. done.
Qed.

Lemma value_set_keys l k :
  k ∈ (unique_on fst ((λ pw, (value_tuple_key pw, pw)) <$> l)).*1
  ↔ ∃ pw, pw ∈ l ∧ value_tuple_key pw = k.
Proof.
  rewrite list_elem_of_fmap. split.
  - intros (y & -> & [Hy Hk]%value_set_elem). by exists y.2.
  - intros (pw & Hpw & <-).
    destruct (unique_on_covers fst ((λ pw, (value_tuple_key pw, pw)) <$> l)
                (value_tuple_key pw, pw)) as (y & Hy & Hkey).
    { apply list_elem_of_fmap. by exists pw. }
    by exists y.
Qed.

Lemma value_set_keys_NoDup l :
  NoDup (value_tuple_key
           <$> (unique_on fst ((λ pw, (value_tuple_key pw, pw)) <$> l)).*2).
Proof.
  pose proof (unique_on_keys_NoDup fst ((λ pw, (value_tuple_key pw, pw)) <$> l))
    as Hnd.
  assert ((unique_on fst ((λ pw, (value_tuple_key pw, pw)) <$> l)).*1
          = value_tuple_key
              <$> (unique_on fst ((λ pw, (value_tuple_key pw, pw)) <$> l)).*2)
    as <-; [|done].
  rewrite <-list_fmap_compose. apply list_fmap_ext.
  intros i y Hy. simpl.
  by apply list_elem_of_lookup_2, value_set_elem in Hy as [_ ->].
Qed.

(** Python's [==] on two sets without NaN, in terms of their tuples. *)
Lemma py_set_eq_values l l' :
  Forall (λ pw, is_Some pw.1 ∧ is_Some pw.2) l →
  Forall (λ pw, is_Some pw.1 ∧ is_Some pw.2) l' →
  Merge.py_set_eq (unique_on fst ((λ pw, (value_tuple_key pw, pw)) <$> l))
            (unique_on fst ((λ pw, (value_tuple_key pw, pw)) <$> l')) = true
  ↔ (∀ a, a ∈ l → ∃ b, b ∈ l' ∧ py_key <$> a.1 = py_key <$> b.1
                               ∧ py_key <$> a.2 = py_key <$> b.2) ∧
    (∀ b, b ∈ l' → ∃ a, a ∈ l ∧ py_key <$> a.1 = py_key <$> b.1
                              ∧ py_key <$> a.2 = py_key <$> b.2).
Proof.
  intros Hl Hl'. rewrite Forall_forall in Hl, Hl'.
  unfold Merge.py_set_eq. rewrite bool_decide_eq_true. split.
  - intros [Hsub Hsub']. split.
    + intros a Ha.
      destruct (proj1 (value_set_keys l' (value_tuple_key a))) as (b & Hb & Hk).
      { apply Hsub, value_set_keys. by exists a. }
      exists b. split; [done|]. apply value_tuple_key_eq; auto.
    + intros b Hb.
      destruct (proj1 (value_set_keys l (value_tuple_key b))) as (a & Ha & Hk).
      { apply Hsub', value_set_keys. by exists b. }
      exists a. split; [done|]. apply value_tuple_key_eq; auto.
  - intros [Hall Hall']. split.
    + intros k (a & Ha & <-)%value_set_keys.
      destruct (Hall a Ha) as (b & Hb & Heq). apply value_set_keys.
      exists b. split; [done|]. symmetry. apply value_tuple_key_eq; auto.
    + intros k (b & Hb & <-)%value_set_keys.
      destruct (Hall' b Hb) as (a & Ha & Heq). apply value_set_keys.
      exists a. split; [done|]. apply value_tuple_key_eq; auto.
Qed.
End ValueSets.

Lemma combos_table_labels (combos : list (option value * option value)) :
  row_labels (Merge.combos_table combos)
  = seq 0 (n_rows (Merge.combos_table combos)).
Proof.
  assert (Merge.combos_table combos
          = mkDataFrame ["plate"; "well"]
              (range_index ((λ pw : option value * option value, [pw.1; pw.2])
                              <$> combos))) as ->.
  { unfold Merge.combos_table, range_index. by rewrite imap_fmap. }
  unfold row_labels, n_rows. cbn [rows].
  by rewrite range_index_labels, range_index_length.
Qed.

(** C10.  Once the two combination tables are read, with distinct column
    names as [read_csv] gives them, and have their [plate] and [well]
    columns, without missing entries and the SBS columns of one dtype each,
    the merge-combo cell never raises.  The two sets are equal
    when every tuple of one table has a tuple equal under [==] in the other.
    When they differ the cell emits the mismatch warning and writes a table
    with the columns [plate] and [well] and no rows to the merge combo file;
    when they are equal it emits no warning and writes, under a fresh index
    and in the order Python lists the set, tuples of the SBS table: every
    shared pair, and no two rows equal under [==]. *)
Theorem merge_combo_cell_outcome
    (list_set : list (option value * option value)
                → list (option value * option value))
    (fs : gmap string file) (cfg sbs_fp ph_fp : yaml)
    (SBS_COMBO_FP PHENOTYPE_COMBO_FP : string) (sbs ph : DataFrame value) :
  (∀ s, list_set s ≡ₚ s) →
  load_yaml fs Merge.CONFIG_FILE_PATH = Ok cfg →
  yaml_item2 "preprocess" "sbs_combo_fp" cfg = Ok sbs_fp →
  yaml_path sbs_fp = Ok SBS_COMBO_FP →
  read_csv fs SBS_COMBO_FP = Ok sbs →
  yaml_item2 "preprocess" "phenotype_combo_fp" cfg = Ok ph_fp →
  yaml_path ph_fp = Ok PHENOTYPE_COMBO_FP →
  read_csv fs PHENOTYPE_COMBO_FP = Ok ph →
  "plate" ∈ columns sbs → "well" ∈ columns sbs →
  "plate" ∈ columns ph → "well" ∈ columns ph →
  NoDup (columns sbs) → NoDup (columns ph) →
  let tuples (df : DataFrame value) :=
    zip (column_cells df "plate") (column_cells df "well") in
  let equal (a b : option value * option value) :=
    py_key <$> a.1 = py_key <$> b.1 ∧ py_key <$> a.2 = py_key <$> b.2 in
  Forall (λ pw, is_Some pw.1 ∧ is_Some pw.2) (tuples sbs) →
  Forall (λ pw, is_Some pw.1 ∧ is_Some pw.2) (tuples ph) →
  one_dtype (column_cells sbs "plate") = true →
  one_dtype (column_cells sbs "well") = true →
  let same_sets :=
    (∀ a, a ∈ tuples sbs → ∃ b, b ∈ tuples ph ∧ equal a b) ∧
    (∀ b, b ∈ tuples ph → ∃ a, a ∈ tuples sbs ∧ equal a b) in
  (¬ same_sets →
     let empty := mkDataFrame ["plate"; "well"] [] in
     Merge.merge_combo_cell list_set fs
     = Ok (Merge.mkState (<[Merge.MERGE_COMBO_DF_FP := TableFile empty]> fs)
             [Merge.MISMATCH_WARNING] cfg empty)) ∧
  (same_sets →
     ∃ t,
       Merge.merge_combo_cell list_set fs
       = Ok (Merge.mkState (<[Merge.MERGE_COMBO_DF_FP := TableFile t]> fs) [] cfg t) ∧
       columns t = ["plate"; "well"] ∧
       row_labels t = seq 0 (n_rows t) ∧
       (∀ cells, cells ∈ (rows t).*2 →
          ∃ a, a ∈ tuples sbs ∧ cells = [a.1; a.2]) ∧
       (∀ a, a ∈ tuples sbs →
          ∃ b, [b.1; b.2] ∈ (rows t).*2 ∧ equal a b) ∧
       (∀ i j a b,
          (rows t).*2 !! i = Some [a.1; a.2] →
          (rows t).*2 !! j = Some [b.1; b.2] →
          equal a b → i = j)).
Proof.
  intros Hlist Hload Hsbs_fp Hsbs_path Hsbs Hph_fp Hph_path Hph
         Hsp Hsw Hpp Hpw _ _ tuples equal Hsv Hpv _ _ same_sets.
  unfold Merge.merge_combo_cell.
  rewrite Hload. simpl. rewrite Hsbs_fp. simpl. rewrite Hsbs_path. simpl.
  rewrite Hsbs. simpl. rewrite Hph_fp. simpl. rewrite Hph_path. simpl.
  rewrite Hph. simpl.
  rewrite (plate_well_combos_values _ sbs Hsp Hsw Hsv). simpl.
  rewrite (plate_well_combos_values _ ph Hpp Hpw Hpv). simpl.
  fold (tuples sbs) (tuples ph).
  pose proof (py_set_eq_values (tuples sbs) (tuples ph) Hsv Hpv) as Heq.
  fold same_sets in Heq.
  set (S := unique_on fst ((λ pw, (value_tuple_key pw, pw)) <$> tuples sbs)).
  fold S in Heq.
  split.
  - intros Hne. destruct (Merge.py_set_eq S _); [|done]. by destruct Hne; apply Heq.
  - intros Hsame. rewrite (proj2 Heq Hsame).
    eexists. split; [reflexivity|]. split; [done|].
    split; [apply combos_table_labels|].
    rewrite combos_table_rows.
    assert (Hin : ∀ a, a ∈ list_set S.*2 ↔ a ∈ S.*2)
      by (intros a; by rewrite (Hlist S.*2)).
    assert (Hvalues : ∀ a, a ∈ S.*2 → a ∈ tuples sbs).
    { intros a (y & -> & Hy)%list_elem_of_fmap.
      by apply value_set_elem in Hy as [? _]. }
    rewrite Forall_forall in Hsv.
    split_and!.
    + intros cells (a & -> & Ha%Hin%Hvalues)%list_elem_of_fmap. by exists a.
    + intros a Ha.
      assert (value_tuple_key a ∈ S.*1) as (y & Hk & Hy)%list_elem_of_fmap
        by (apply value_set_keys; by exists a).
      pose proof (value_set_elem _ _ Hy) as [Hy2 Hy1].
      exists y.2. split.
      * apply list_elem_of_fmap. exists y.2. split; [done|].
        apply Hin, list_elem_of_fmap. by exists y.
      * apply value_tuple_key_eq; auto. by rewrite <-Hy1.
    + intros i j a b Hi Hj Hab.
      rewrite list_lookup_fmap in Hi, Hj.
      destruct (list_set S.*2 !! i) as [a'|] eqn:Ha'; [|done].
      destruct (list_set S.*2 !! j) as [b'|] eqn:Hb'; [|done].
      destruct a as [a1 a2], b as [b1 b2], a' as [a1' a2'], b' as [b1' b2'].
      simpl in Hi, Hj. injection Hi as -> ->. injection Hj as -> ->.
      assert (NoDup (value_tuple_key <$> list_set S.*2)) as Hnd.
      { rewrite (Hlist S.*2). apply value_set_keys_NoDup. }
      eapply (NoDup_lookup _ i j _ Hnd); rewrite list_lookup_fmap.
      * by rewrite Ha'.
      * rewrite Hb'. simpl. f_equal. symmetry. apply value_tuple_key_eq; [..|done].
        -- apply Hsv, Hvalues, Hin. by eapply list_elem_of_lookup_2.
        -- apply Hsv, Hvalues, Hin. by eapply list_elem_of_lookup_2.
Qed.

(** ** Notebook cells *)

(** The number the perturbation cell prints is the number of distinct
    perturbations of the split metadata, whatever the filters kept. *)
Lemma perturbation_cell_reports_split_metadata (p : Aggregate.params)
    (metadata class_metadata : DataFrame value) (class_features : DataFrame Qc)
    pf_metadata pf_features reported :
  Aggregate.perturbation_cell p metadata class_metadata class_features
  = Ok (pf_metadata, pf_features, reported) →
  reported = nunique (column_cells metadata (Aggregate.PERTURBATION_NAME_COL p)).
Proof.
  unfold Aggregate.perturbation_cell. intros H.
  destruct (query_filter _ _ _) as [qf_metadata qf_features].
  destruct (perturbation_filter _ _ _) as [[pf_m pf_f]|]; [|discriminate H].
  simpl in H. unfold column in H. case_decide; [|discriminate H].
  simpl in H. by injection H as _ _ <-.
Qed.

(** C3.  With test class [mitotic], of two cells with perturbations GENE_A
    (mitotic) and GENE_B (interphase) only the GENE_A cell reaches and
    survives the perturbation filter, so one perturbation value survives;
    the cell reports two, the count over the split metadata. *)
Theorem unique_populations_not_of_survivors :
  ∃ class_metadata class_features pf_metadata pf_features reported,
    Aggregate.class_subset_cell Examples.all_features Examples.mitotic_params
      Examples.config Examples.two_genes_classified Examples.two_genes_features
    = Ok (class_metadata, class_features) ∧
    Aggregate.perturbation_cell Examples.mitotic_params
      Examples.two_genes_metadata class_metadata class_features
    = Ok (pf_metadata, pf_features, reported) ∧
    nunique (column_cells pf_metadata "gene_symbol_0") = 1 ∧
    reported = 2.
Proof. do 5 eexists. split_and!; vm_compute; reflexivity. Qed.

(** The missing-values cell does not read [IMPUTE]: two parameter sets that
    agree on the thresholds give the same result. *)
Lemma missing_values_cell_fixed_impute (p p' : Aggregate.params)
    (pf_metadata : DataFrame value) (pf_features : DataFrame Qc) :
  Aggregate.DROP_COLS_THRESHOLD p = Aggregate.DROP_COLS_THRESHOLD p' →
  Aggregate.DROP_ROWS_THRESHOLD p = Aggregate.DROP_ROWS_THRESHOLD p' →
  Aggregate.missing_values_cell p pf_metadata pf_features
  = Aggregate.missing_values_cell p' pf_metadata pf_features.
Proof. unfold Aggregate.missing_values_cell. by intros -> ->. Qed.

(** C4.  With [IMPUTE = False] and a null that no threshold removes, the
    filter called with the configured value fails with
    [AlignmentPreconditionError]; the notebook cell, which calls it with
    [impute=True], returns the table with the null replaced by the column
    median. *)
Theorem missing_values_cell_imputes_when_disabled :
  Aggregate.IMPUTE Examples.no_impute_params = false ∧
  missing_values_filter Examples.three_cells_metadata Examples.three_cells_features
    (Aggregate.DROP_COLS_THRESHOLD Examples.no_impute_params)
    (Aggregate.DROP_ROWS_THRESHOLD Examples.no_impute_params)
    (Aggregate.IMPUTE Examples.no_impute_params)
  = Err (AlignmentPreconditionError "features") ∧
  Aggregate.missing_values_cell Examples.no_impute_params
    Examples.three_cells_metadata Examples.three_cells_features
  = Ok (Examples.three_cells_metadata, Examples.three_cells_imputed).
Proof. split_and!; compute_done. Qed.

(** ** Aggregation *)

Section Grouping.
Context {K V : Type} `{EqDecision K}.
Implicit Types (l : list (K * V)) (ks : list K).

Lemma sum_list_with_add {X} (f g : X → nat) (xs : list X) :
  sum_list_with (λ x, f x + g x) xs = sum_list_with f xs + sum_list_with g xs.
Proof. induction xs as [|x xs IH]; simpl; lia. Qed.

Lemma sum_list_with_agree {X} (f g : X → nat) (xs : list X) :
  (∀ x, x ∈ xs → f x = g x) → sum_list_with f xs = sum_list_with g xs.
Proof.
  induction xs as [|x xs IH]; intros Hfg; [done|].
  simpl. rewrite (Hfg x), IH; [done| |by left].
  intros y Hy. apply Hfg. by right.
Qed.

Lemma sum_list_with_zero {X} (xs : list X) : sum_list_with (λ _, 0) xs = 0.
Proof. induction xs; simpl; lia. Qed.

Lemma sum_list_with_indicator ks (a : K) :
  NoDup ks → a ∈ ks →
  sum_list_with (λ k, if decide (a = k) then 1 else 0) ks = 1.
Proof.
  induction 1 as [|k ks Hk Hnd IH]; intros Ha; [by apply elem_of_nil in Ha|].
  simpl. destruct (decide (a = k)) as [->|Hne].
  - rewrite (sum_list_with_agree _ (λ _, 0)), sum_list_with_zero; [done|].
    intros k' Hk'. rewrite decide_False; [done|]. by intros <-.
  - apply elem_of_cons in Ha as [?|Ha]; [done|]. by rewrite IH.
Qed.

(** Group sizes over a duplicate-free key list covering the keys add up
    to the number of pairs. *)
Lemma group_sizes_total l ks :
  NoDup ks → (∀ p, p ∈ l → p.1 ∈ ks) →
  sum_list_with (λ k, length (filter (λ p : K * V, p.1 = k) l)) ks = length l.
Proof.
  intros Hnd. induction l as [|p l IH]; intros Hks.
  - simpl. apply sum_list_with_zero.
  - rewrite (sum_list_with_agree _
      (λ k, (if decide (p.1 = k) then 1 else 0)
            + length (filter (λ p : K * V, p.1 = k) l))).
    + rewrite sum_list_with_add, sum_list_with_indicator, IH; simpl; auto.
      * intros p' Hp'. apply Hks. by right.
      * apply Hks. by left.
    + intros k _. rewrite filter_cons. by destruct (decide (p.1 = k)).
Qed.
End Grouping.

Lemma sum_list_fmap_with {X} (f : X → nat) (xs : list X) :
  sum_list (f <$> xs) = sum_list_with f xs.
Proof. induction xs as [|x xs IH]; [done|]. simpl. f_equal. apply IH. Qed.

Lemma contributing_labelled (v : value) (keys : list (option value))
    (embeddings : list (list Qc)) :
  contributing v (labelled_rows keys embeddings)
  = (filter (λ p : option value * list Qc, p.1 = Some v) (zip keys embeddings)).*2.
Proof.
  unfold contributing, labelled_rows.
  induction (zip keys embeddings) as [|[[k|] row] zs IH]; [done| |].
  - rewrite (filter_cons _ (Some k, row)). cbn [omap list_omap mbind option_bind fst snd].
    rewrite (filter_cons _ (k, row)). cbn [fst].
    destruct (decide (k = v)) as [->|Hne].
    + rewrite decide_True by done. cbn [fmap list_fmap snd]. f_equal. apply IH.
    + rewrite decide_False by congruence. apply IH.
  - rewrite filter_cons_False by done. apply IH.
Qed.

Lemma labelled_rows_cons (k : option value) (row : list Qc)
    (keys : list (option value)) (embeddings : list (list Qc)) :
  labelled_rows (k :: keys) (row :: embeddings)
  = match k with
    | Some v => (v, row) :: labelled_rows keys embeddings
    | None => labelled_rows keys embeddings
    end.
Proof. by destruct k. Qed.

Lemma labelled_rows_length (keys : list (option value)) (embeddings : list (list Qc)) :
  length keys = length embeddings →
  length (labelled_rows keys embeddings) = length (filter is_Some keys).
Proof.
  revert embeddings.
  induction keys as [|k keys IH]; intros [|row embeddings] Hlen; try done.
  rewrite labelled_rows_cons, filter_cons.
  injection Hlen as Hlen. specialize (IH _ Hlen).
  destruct k as [k|].
  - rewrite decide_True by done. simpl. by rewrite IH.
  - rewrite decide_False by (by intros [? ?]). done.
Qed.

Lemma labelled_rows_keys (v : value) (keys : list (option value))
    (embeddings : list (list Qc)) :
  length keys = length embeddings →
  v ∈ (labelled_rows keys embeddings).*1 ↔ Some v ∈ keys.
Proof.
  revert embeddings.
  induction keys as [|k keys IH]; intros [|row embeddings] Hlen; try done.
  - unfold labelled_rows. simpl. by rewrite !elem_of_nil.
  - injection Hlen as Hlen. specialize (IH _ Hlen).
    rewrite labelled_rows_cons.
    destruct k as [k|].
    + rewrite fmap_cons, !elem_of_cons, IH. simpl. split.
      * intros [->|?]; auto.
      * intros [[= ->]|?]; auto.
    + rewrite elem_of_cons, IH. split; [auto|]. by intros [?|?].
Qed.

Lemma feature_column_length j m : length (feature_column j m) = length m.
Proof. unfold feature_column. by rewrite length_fmap. Qed.

Lemma feature_column_sum (j : nat) (m : list (list Qc)) :
  Forall (λ row, j < length row) m →
  sum_Qc (feature_column j m)
  = foldr Qcplus 0%Qc (omap (λ row : list Qc, row !! j) m).
Proof.
  unfold sum_Qc, feature_column.
  induction 1 as [|row m Hrow Hm IH]; [done|].
  destruct (lookup_lt_is_Some_2 row j Hrow) as [q Hq].
  cbn [fmap list_fmap omap list_omap]. rewrite Hq. cbn. by rewrite IH.
Qed.

(** C2.  For a metadata table aligned with the rows of an embedding matrix
    of [d] columns, a present perturbation column and method [mean] or
    [median], [aggregate] returns one record per unique perturbation value;
    the cell counts of the records add up to the number of rows with a
    non-null perturbation value; each record counts its contributing rows
    and holds [d] aggregated features; and for [mean] aggregated feature [j]
    is the sum of entry [j] of the contributing rows divided by their
    number. *)
Theorem aggregate_counts_and_means (embeddings : list (list Qc))
    (metadata : DataFrame value) (perturbation_col method : string) (d : nat) :
  perturbation_col ∈ columns metadata →
  method = "mean" ∨ method = "median" →
  length embeddings = n_rows metadata →
  Forall (λ row, length row = d) embeddings →
  let keys := column_cells metadata perturbation_col in
  let rows_of (v : value) :=
    (filter (λ p : option value * list Qc, p.1 = Some v) (zip keys embeddings)).*2 in
  ∃ records,
    aggregate embeddings metadata perturbation_col method = Ok records ∧
    NoDup (perturbation <$> records) ∧
    (∀ v, v ∈ perturbation <$> records ↔ Some v ∈ keys) ∧
    sum_list (cell_count <$> records) = length (filter is_Some keys) ∧
    (∀ rec, rec ∈ records →
       cell_count rec = length (rows_of (perturbation rec)) ∧
       0 < cell_count rec ∧
       length (aggregated rec) = d) ∧
    (method = "mean" →
     ∀ rec j, rec ∈ records → j < d →
       aggregated rec !! j
       = Some (foldr Qcplus 0%Qc
                 (omap (λ row : list Qc, row !! j) (rows_of (perturbation rec)))
               / Qc_of_Z (Z.of_nat (length (rows_of (perturbation rec)))))%Qc).
Proof.
  intros Hcol Hmethod Hlen Hd keys rows_of.
  assert (length keys = length embeddings) as Hkeys.
  { unfold keys, column_cells. rewrite length_fmap. done. }
  set (cells := labelled_rows keys embeddings).
  assert (∃ stat,
    aggregate embeddings metadata perturbation_col method
    = Ok ((λ k, let group := contributing k cells in
                mkAggregateRecord k
                  ((λ j, stat (feature_column j group)) <$> seq 0 (width embeddings))
                  (length group)) <$> remove_dups cells.*1) ∧
    (method = "mean" → stat = mean)) as (stat & -> & Hstat).
  { unfold aggregate. destruct Hmethod as [-> | ->].
    - exists mean. rewrite decide_True by done. simpl.
      by rewrite decide_True.
    - exists (λ l, default 0%Qc (median l)).
      rewrite decide_False by done. rewrite decide_True by done. simpl.
      by rewrite decide_True. }
  eexists. split; [reflexivity|].
  rewrite <-!list_fmap_compose.
  assert (∀ rec, rec ∈ (λ k, let group := contributing k cells in
                mkAggregateRecord k
                  ((λ j, stat (feature_column j group)) <$> seq 0 (width embeddings))
                  (length group)) <$> remove_dups cells.*1 →
     ∃ k, k ∈ cells.*1 ∧ perturbation rec = k ∧
          cell_count rec = length (rows_of k) ∧
          aggregated rec
          = (λ j, stat (feature_column j (rows_of k))) <$> seq 0 (width embeddings))
    as Hrec.
  { intros rec (k & -> & Hk)%list_elem_of_fmap. exists k. simpl.
    rewrite elem_of_remove_dups in Hk. unfold cells at 2 3.
    by rewrite contributing_labelled. }
  assert (Hwidth : ∀ k, k ∈ cells.*1 → width embeddings = d).
  { intros k Hk. destruct embeddings as [|row embeddings].
    - exfalso. unfold cells, labelled_rows in Hk.
      rewrite zip_with_nil_r in Hk. by apply elem_of_nil in Hk.
    - simpl. by apply Forall_cons in Hd as [? _]. }
  assert (Hrows : ∀ k row, row ∈ rows_of k → length row = d).
  { intros k row (pr & -> & [_ Hpr]%list_elem_of_filter)%list_elem_of_fmap.
    rewrite Forall_forall in Hd. apply Hd.
    destruct pr as [key row]. by apply elem_of_zip_r in Hpr. }
  assert (Hpos : ∀ k, k ∈ cells.*1 → 0 < length (rows_of k)).
  { intros k Hk. unfold rows_of. rewrite <-contributing_labelled.
    unfold contributing. rewrite length_fmap.
    apply list_elem_of_fmap in Hk as (pr & -> & Hpr).
    assert (pr ∈ filter (λ p : value * list Qc, p.1 = pr.1) cells) as Hin
      by (apply list_elem_of_filter; split; done).
    fold cells. destruct (filter _ cells); [by apply elem_of_nil in Hin|simpl; lia]. }
  split_and!.
  - simpl. rewrite list_fmap_id. apply NoDup_remove_dups.
  - intros v. simpl. rewrite list_fmap_id, elem_of_remove_dups.
    by apply labelled_rows_keys.
  - simpl. rewrite sum_list_fmap_with.
    rewrite <-(labelled_rows_length keys embeddings Hkeys). fold cells.
    rewrite <-(group_sizes_total cells (remove_dups cells.*1)).
    + apply sum_list_with_agree. intros k _. simpl.
      unfold contributing. by rewrite length_fmap.
    + apply NoDup_remove_dups.
    + intros pr Hpr. apply elem_of_remove_dups. by apply list_elem_of_fmap_2.
  - intros rec (k & Hk & -> & Hcount & Hagg)%Hrec. split; [done|].
    split; [rewrite Hcount; by apply Hpos|].
    by rewrite Hagg, length_fmap, length_seq, (Hwidth k).
  - intros Hmean rec j (k & Hk & -> & Hcount & Hagg)%Hrec Hj.
    rewrite Hagg, list_lookup_fmap, (Hwidth k Hk), lookup_seq_lt by done. simpl.
    rewrite (Hstat Hmean). unfold mean.
    rewrite feature_column_length, feature_column_sum; [done|].
    apply Forall_forall. intros row Hrow. by rewrite (Hrows k row Hrow).
Qed.

(** ** The properties at the example inputs *)

Lemma split_cell_data_partition_witness :
  ["gene_symbol_0"; "class"] ⊆ columns Examples.two_genes_classified ∧
  ∃ metadata features,
    split_cell_data Examples.two_genes_classified ["gene_symbol_0"; "class"]
    = Ok (metadata, features) ∧
    columns features `sublist_of` columns Examples.two_genes_classified ∧
    row_labels metadata = row_labels Examples.two_genes_classified ∧
    row_labels features = row_labels Examples.two_genes_classified.
Proof.
  assert (["gene_symbol_0"; "class"] ⊆ columns Examples.two_genes_classified)
    as Hcols by compute_done.
  split; [exact Hcols|].
  destruct (split_cell_data_partition Examples.two_genes_classified
              ["gene_symbol_0"; "class"] Hcols)
    as (metadata & features & Hsplit & _ & _ & Hsub & _ & _ & Hm & Hf & _).
  by exists metadata, features.
Defined.

Lemma aggregate_counts_and_means_witness :
  ∃ records rec,
    aggregate Examples.three_cells_embeddings Examples.three_cells_metadata
      "gene_symbol_0" "mean" = Ok records ∧
    sum_list (cell_count <$> records) = 3 ∧
    rec ∈ records ∧
    perturbation rec = VStr "GENE_A" ∧
    cell_count rec = 2 ∧
    aggregated rec = [Examples.num 2; Examples.num 3].
Proof.
  destruct (aggregate_counts_and_means Examples.three_cells_embeddings
              Examples.three_cells_metadata "gene_symbol_0" "mean" 2)
    as (records & Hagg & _ & Hkeys & Hsum & Hcount & Hmean).
  - compute_done.
  - left. reflexivity.
  - reflexivity.
  - repeat constructor.
  - assert (VStr "GENE_A" ∈ perturbation <$> records)
      as (rec & Hp & Hrec)%list_elem_of_fmap by (apply Hkeys; compute_done).
    exists records, rec.
    destruct (Hcount rec Hrec) as (Hn & _ & Hlen).
    pose proof (Hmean eq_refl rec 0 Hrec ltac:(lia)) as H0.
    pose proof (Hmean eq_refl rec 1 Hrec ltac:(lia)) as H1.
    rewrite <-Hp in H0, H1, Hn.
    split; [exact Hagg|]. split; [rewrite Hsum; reflexivity|].
    split; [exact Hrec|]. split; [by symmetry|]. split; [rewrite Hn; reflexivity|].
    destruct (aggregated rec) as [|x [|y [|z l]]]; try discriminate Hlen.
    injection H0 as ->. injection H1 as ->.
    f_equal; [|f_equal]; apply Qc_is_canon; reflexivity.
Defined.

Lemma persist_changes_only_own_section_witness :
  ∃ fs' d d',
    Aggregate.persist_aggregate_params "# Brieflow configuration"
      Examples.params Examples.data_cells Examples.files = Ok fs' ∧
    load_yaml Examples.files Aggregate.CONFIG_FILE_PATH = Ok (YMap d) ∧
    fs' !! Aggregate.CONFIG_FILE_PATH
    = Some (YamlFile "# Brieflow configuration" (YMap d')) ∧
    only_section_changed "aggregate"
      (Aggregate.aggregate_section Examples.params) d d'.
Proof.
  destruct (persist_changes_only_own_section "# Brieflow configuration"
              Examples.data_cells Examples.params Examples.merge_params
              Examples.files id)
    as [Haggregate _].
  eexists.
  destruct (Haggregate _ eq_refl) as (d & d' & Hload & Hfile & Honly).
  exists d, d'. split_and!; [reflexivity|done..].
Defined.

Lemma merge_combo_cell_outcome_witness :
  (let empty := mkDataFrame ["plate"; "well"] [] in
   Merge.merge_combo_cell id Examples.files
   = Ok (Merge.mkState
           (<[Merge.MERGE_COMBO_DF_FP := TableFile empty]> Examples.files)
           [Merge.MISMATCH_WARNING] Examples.config empty)) ∧
  ∃ t,
    Merge.merge_combo_cell id CellExamples.matching_files
    = Ok (Merge.mkState
            (<[Merge.MERGE_COMBO_DF_FP := TableFile t]> CellExamples.matching_files)
            [] Examples.config t) ∧
    [Some (VInt 1); Some (VStr "B2")] ∈ (rows t).*2 ∧
    n_rows t = 2.
Proof.
  assert (Hvalues : ∀ df : DataFrame value,
            bool_decide (Forall (λ pw : option value * option value,
                                   is_Some pw.1 ∧ is_Some pw.2)
                           (zip (column_cells df "plate") (column_cells df "well")))
            = true →
            Forall (λ pw : option value * option value,
                      is_Some pw.1 ∧ is_Some pw.2)
              (zip (column_cells df "plate") (column_cells df "well")))
    by (intros df; apply bool_decide_eq_true).
  split.
  - destruct (merge_combo_cell_outcome id Examples.files Examples.config
                (YStr "config/sbs_combo.tsv") (YStr "config/phenotype_combo.tsv")
                "config/sbs_combo.tsv" "config/phenotype_combo.tsv"
                Examples.sbs_combos_table Examples.phenotype_combos_table)
      as [Hdiffer _];
      [done|reflexivity..|compute_done|compute_done|compute_done|compute_done
      |compute_done|compute_done
      |by apply Hvalues|by apply Hvalues|reflexivity|reflexivity|].
    apply Hdiffer. intros Hsame.
    apply (py_set_eq_values _ _
             (Hvalues Examples.sbs_combos_table eq_refl)
             (Hvalues Examples.phenotype_combos_table eq_refl)) in Hsame.
    vm_compute in Hsame. discriminate Hsame.
  - destruct (merge_combo_cell_outcome id CellExamples.matching_files
                Examples.config
                (YStr "config/sbs_combo.tsv") (YStr "config/phenotype_combo.tsv")
                "config/sbs_combo.tsv" "config/phenotype_combo.tsv"
                Examples.sbs_combos_table CellExamples.phenotype_combos_float)
      as [_ Hsame];
      [done|reflexivity..|compute_done|compute_done|compute_done|compute_done
      |compute_done|compute_done
      |by apply Hvalues|by apply Hvalues|reflexivity|reflexivity|].
    destruct Hsame as (t & Hrun & _ & _ & _ & Hall & _).
    { apply (py_set_eq_values _ _
               (Hvalues Examples.sbs_combos_table eq_refl)
               (Hvalues CellExamples.phenotype_combos_float eq_refl)).
      vm_compute. reflexivity. }
    exists t. split; [exact Hrun|].
    assert (Ok (Merge.mkState
                  (<[Merge.MERGE_COMBO_DF_FP := TableFile t]>
                     CellExamples.matching_files) [] Examples.config t)
            = Ok (Merge.mkState
                    (<[Merge.MERGE_COMBO_DF_FP :=
                         TableFile (Merge.combos_table
                                      [(Some (VInt 1), Some (VStr "A1"));
                                       (Some (VInt 1), Some (VStr "B2"))])]>
                       CellExamples.matching_files) [] Examples.config
                    (Merge.combos_table
                       [(Some (VInt 1), Some (VStr "A1"));
                        (Some (VInt 1), Some (VStr "B2"))]))) as Ht
      by (rewrite <-Hrun; vm_compute; reflexivity).
    injection Ht as _ ->. split; [compute_done|reflexivity].
Defined.

(** * The other cells of the notebooks *)

(** ** pandas operations *)

Lemma filter_mask {X} (f : X → bool) (l : list X) :
  (filter (λ p : bool * X, p.1 = true) (zip (f <$> l) l)).*2
  = filter (λ x, f x = true) l.
Proof.
  induction l as [|x l IH]; [done|].
  rewrite fmap_cons.
  change (zip (f x :: (f <$> l)) (x :: l)) with ((f x, x) :: zip (f <$> l) l).
  rewrite (filter_cons _ (f x, x)), (filter_cons _ x). cbn [fst].
  destruct (decide (f x = true)); [rewrite fmap_cons; cbn [snd]|];
    by rewrite IH.
Qed.

(** A mask computed from the rows keeps the rows that pass. *)
Lemma mask_rows_filter {A} (f : nat * list (option A) → bool) (df : DataFrame A) :
  rows (mask_rows (f <$> rows df) df) = filter (λ r, f r = true) (rows df).
Proof. unfold mask_rows. cbn [rows]. apply filter_mask. Qed.

Lemma mask_rows_column {A} (g : option A → bool) (df : DataFrame A) (c : string) :
  rows (mask_rows (g <$> column_cells df c) df)
  = filter (λ r, g (get_cell (columns df) r.2 c) = true) (rows df).
Proof.
  unfold column_cells. rewrite <-list_fmap_compose.
  apply (mask_rows_filter (λ r, g (get_cell (columns df) r.2 c))).
Qed.

Lemma column_Ok {A} (df : DataFrame A) (c : string) :
  c ∈ columns df → column df c = Ok (column_cells df c).
Proof. intros Hc. unfold column. by rewrite decide_True. Qed.

Lemma column_Err {A} (df : DataFrame A) (c : string) :
  c ∉ columns df → column df c = Err (KeyError c).
Proof. intros Hc. unfold column. by rewrite decide_False. Qed.

Lemma union_names_elem (names : list string) (c : string) :
  c ∈ union_names names ↔ c ∈ names.
Proof.
  unfold union_names. split; [apply unique_on_elem|].
  intros Hc. destruct (unique_on_covers id names c Hc) as (y & Hy & Hid).
  simpl in Hid. by subst y.
Qed.

Lemma get_cell_astype {A} (astype : string → option A → option A)
    (cols : list string) (f : string → option A) (c : string) :
  c ∈ cols →
  get_cell cols (zip_with astype cols (f <$> cols)) c = astype c (f c).
Proof.
  intros (i & Hi & Hc)%col_index_Some. unfold get_cell.
  rewrite Hi. simpl. by rewrite lookup_zip_with, list_lookup_fmap, Hc.
Qed.

Lemma concat_cell_at {A} (astype : string → option A → option A)
    (cols : list string) (df : DataFrame A)
    (before after : list (list (option A))) (i : nat) (c : string) :
  c ∈ cols → i < n_rows df →
  cell_at (mkDataFrame cols
             (range_index (zip_with astype cols
                             <$> (before ++ rows_under cols df ++ after))))
          (length before + i) c
  = astype c (cell_at df i c).
Proof.
  intros Hc Hi. unfold cell_at at 1. cbn [rows columns].
  assert (length (rows_under cols df) = n_rows df) as Hlen
    by (unfold rows_under; by rewrite length_fmap).
  rewrite range_index_lookup, list_lookup_fmap, lookup_app_r by lia.
  replace (length before + i - length before) with i by lia.
  rewrite lookup_app_l by lia. unfold rows_under, cell_at.
  rewrite list_lookup_fmap.
  destruct (rows df !! i) as [r|] eqn:Hrow.
  - simpl. by rewrite get_cell_astype.
  - apply lookup_ge_None in Hrow. unfold n_rows in Hi. lia.
Qed.

(** ** The data cells of the aggregate notebook *)

Lemma unique_on_app {X K} `{EqDecision K} (key : X → K) (l1 l2 : list X) :
  unique_on key (l1 ++ l2)
  = unique_on key l1
    ++ filter (λ y, key y ∉ key <$> l1) (unique_on key l2).
Proof.
  induction l1 as [|x l1 IH]; simpl.
  - symmetry. apply filter_all, Forall_forall. intros y _. apply not_elem_of_nil.
  - f_equal. rewrite IH, filter_app. f_equal.
    rewrite list_filter_filter. apply list_filter_iff.
    intros y. rewrite not_elem_of_cons. tauto.
Qed.

Lemma union_names_app (l1 l2 : list string) :
  NoDup l1 → NoDup l2 →
  union_names (l1 ++ l2) = l1 ++ filter (λ c, c ∉ l1) l2.
Proof.
  intros H1 H2. unfold union_names. rewrite unique_on_app.
  rewrite !unique_on_id by (by rewrite list_fmap_id).
  by rewrite list_fmap_id.
Qed.

(** X1.  The table of the load cell, for two subsets whose column names are
    unique.  It has the rows of the first subset followed by those of the
    second, labelled 0, 1, 2, ... without a repeat; its columns are those of
    the first subset followed by the columns only the second has; and every
    cell is the cell of the subset the row came from, null where that subset
    lacks the column, converted to the dtype of its column in the joined
    table. *)
Theorem load_cell_data_rows {A} (astype : string → option A → option A)
    (cell_data cell_data_2 : DataFrame A) :
  NoDup (columns cell_data) → NoDup (columns cell_data_2) →
  let both := AggregateData.load_cell_data astype cell_data cell_data_2 in
  n_rows both = n_rows cell_data + n_rows cell_data_2 ∧
  row_labels both = seq 0 (n_rows both) ∧
  columns both
  = columns cell_data
    ++ filter (λ c, c ∉ columns cell_data) (columns cell_data_2) ∧
  NoDup (columns both) ∧
  (∀ c, c ∈ columns both ↔ c ∈ columns cell_data ∨ c ∈ columns cell_data_2) ∧
  (∀ i c, c ∈ columns both → i < n_rows cell_data →
     cell_at both i c = astype c (cell_at cell_data i c)) ∧
  (∀ i c, c ∈ columns both → i < n_rows cell_data_2 →
     cell_at both (n_rows cell_data + i) c = astype c (cell_at cell_data_2 i c)) ∧
  (∀ i c, c ∈ columns cell_data_2 → c ∉ columns cell_data →
     i < n_rows cell_data → cell_at both i c = astype c None) ∧
  (∀ i c, c ∈ columns cell_data → c ∉ columns cell_data_2 →
     i < n_rows cell_data_2 →
     cell_at both (n_rows cell_data + i) c = astype c None).
Proof.
  intros Hnd1 Hnd2.
  intros both. unfold both, AggregateData.load_cell_data, concat_ignore_index.
  set (cols := union_names (columns cell_data ++ columns cell_data_2)).
  assert (∀ df : DataFrame A, length (rows_under cols df) = n_rows df) as Hlen
    by (intros df; unfold rows_under; by rewrite length_fmap).
  assert (∀ c, c ∈ cols ↔ c ∈ columns cell_data ∨ c ∈ columns cell_data_2)
    as Hcols
    by (intros c; unfold cols; by rewrite union_names_elem, elem_of_app).
  assert (∀ (df : DataFrame A) i c, c ∉ columns df → cell_at df i c = None)
    as Hmissing.
  { intros df i c Hc. unfold cell_at. destruct (rows df !! i) as [r|]; [|done].
    simpl. unfold get_cell, col_index.
    destruct (list_find (λ c', c' = c) (columns df)) as [[j c']|] eqn:Hfind;
      [|done].
    apply list_find_Some in Hfind as (Hj & -> & _).
    destruct Hc. by eapply list_elem_of_lookup_2. }
  assert (∀ i c, c ∈ cols → i < n_rows cell_data →
            cell_at (mkDataFrame cols
                       (range_index (zip_with astype cols
                          <$> (rows_under cols cell_data
                               ++ rows_under cols cell_data_2)))) i c
            = astype c (cell_at cell_data i c)) as Hfirst.
  { intros i c Hc Hi.
    exact (concat_cell_at astype cols cell_data []
             (rows_under cols cell_data_2) i c Hc Hi). }
  assert (∀ i c, c ∈ cols → i < n_rows cell_data_2 →
            cell_at (mkDataFrame cols
                       (range_index (zip_with astype cols
                          <$> (rows_under cols cell_data
                               ++ rows_under cols cell_data_2))))
                    (n_rows cell_data + i) c
            = astype c (cell_at cell_data_2 i c)) as Hsecond.
  { intros i c Hc Hi.
    pose proof (concat_cell_at astype cols cell_data_2
                  (rows_under cols cell_data) [] i c Hc Hi) as Hcell.
    by rewrite app_nil_r, Hlen in Hcell. }
  split_and!.
  - unfold n_rows at 1. cbn [rows].
    by rewrite range_index_length, length_fmap, length_app, !Hlen.
  - unfold row_labels, n_rows. cbn [rows].
    by rewrite range_index_labels, range_index_length.
  - cbn [columns]. by apply union_names_app.
  - apply unique_on_NoDup.
  - exact Hcols.
  - exact Hfirst.
  - exact Hsecond.
  - intros i c Hc2 Hc1 Hi. rewrite Hfirst by (done || apply Hcols; by right).
    by rewrite Hmissing.
  - intros i c Hc1 Hc2 Hi. rewrite Hsecond by (done || apply Hcols; by left).
    by rewrite Hmissing.
Qed.

Lemma mask_zip {X Y} (h : X → bool) (l : list X) (k : list Y) :
  length l = length k →
  zip ((filter (λ p : bool * X, p.1 = true) (zip (h <$> l) l)).*2)
      ((filter (λ p : bool * Y, p.1 = true) (zip (h <$> l) k)).*2)
  = filter (λ pr : X * Y, h pr.1 = true) (zip l k).
Proof.
  revert k. induction l as [|x l IH]; intros [|y k] Hlen; try done.
  injection Hlen as Hlen. specialize (IH _ Hlen).
  rewrite fmap_cons.
  change (zip (h x :: (h <$> l)) (x :: l)) with ((h x, x) :: zip (h <$> l) l).
  change (zip (h x :: (h <$> l)) (y :: k)) with ((h x, y) :: zip (h <$> l) k).
  change (zip (x :: l) (y :: k)) with ((x, y) :: zip l k).
  rewrite (filter_cons _ (h x, x)), (filter_cons _ (h x, y)),
    (filter_cons _ (x, y)). cbn [fst].
  destruct (decide (h x = true)); [|done].
  rewrite !fmap_cons. cbn [snd zip zip_with]. f_equal. apply IH.
Qed.

Lemma mask_labels {X Y} (g : nat * X → bool) (l : list (nat * X))
    (k : list (nat * Y)) :
  l.*1 = k.*1 →
  (filter (λ p : bool * (nat * X), p.1 = true) (zip (g <$> l) l)).*2.*1
  = (filter (λ p : bool * (nat * Y), p.1 = true) (zip (g <$> l) k)).*2.*1.
Proof.
  revert k. induction l as [|x l IH]; intros [|y k] Hlabels; try done.
  rewrite !fmap_cons in Hlabels. injection Hlabels as Hlabel Hlabels.
  specialize (IH _ Hlabels). rewrite fmap_cons.
  change (zip (g x :: (g <$> l)) (x :: l)) with ((g x, x) :: zip (g <$> l) l).
  change (zip (g x :: (g <$> l)) (y :: k)) with ((g x, y) :: zip (g <$> l) k).
  rewrite (filter_cons _ (g x, x)), (filter_cons _ (g x, y)). cbn [fst].
  destruct (decide (g x = true)); [|done].
  rewrite !fmap_cons. cbn [snd]. by f_equal.
Qed.

(** X2.  The class-subset cell.  With test class [all] the tables pass
    unchanged, whether or not the metadata has a [class] column.  With any
    other test class a metadata table without [class] column is a
    [KeyError].  Otherwise, for a metadata table with distinct column names
    and a feature table with the same row labels in the same order (the
    case in which pandas applies the boolean mask of the metadata to the
    features position by position), the metadata keeps exactly its rows of
    that class, in order, the features keep exactly the rows at the same
    positions, and the two results again have the same row labels.  The
    columns stay, and the features then go through the channel subset. *)
Theorem class_subset_cell_rows
    (channel_combo_subset : DataFrame Qc → list string → list string → DataFrame Qc)
    (p : Aggregate.params) (config names : yaml) (all_channels : list string)
    (classified_metadata : DataFrame value) (classified_features : DataFrame Qc) :
  yaml_item2 "phenotype" "channel_names" config = Ok names →
  yaml_strings names = Ok all_channels →
  let test_class (r : nat * list (option value)) :=
    get_cell (columns classified_metadata) r.2 "class"
    = Some (VStr (Aggregate.TEST_CELL_CLASS p)) in
  (Aggregate.TEST_CELL_CLASS p = "all" →
     Aggregate.class_subset_cell channel_combo_subset p config
       classified_metadata classified_features
     = Ok (classified_metadata,
           channel_combo_subset classified_features
             (Aggregate.TEST_CHANNEL_COMBO p) all_channels)) ∧
  (Aggregate.TEST_CELL_CLASS p ≠ "all" →
     "class" ∉ columns classified_metadata →
     Aggregate.class_subset_cell channel_combo_subset p config
       classified_metadata classified_features
     = Err (KeyError "class")) ∧
  (Aggregate.TEST_CELL_CLASS p ≠ "all" →
     "class" ∈ columns classified_metadata →
     NoDup (columns classified_metadata) →
     row_labels classified_metadata = row_labels classified_features →
     ∃ class_metadata class_features,
       Aggregate.class_subset_cell channel_combo_subset p config
         classified_metadata classified_features
       = Ok (class_metadata,
             channel_combo_subset class_features
               (Aggregate.TEST_CHANNEL_COMBO p) all_channels) ∧
       columns class_metadata = columns classified_metadata ∧
       columns class_features = columns classified_features ∧
       rows class_metadata = filter test_class (rows classified_metadata) ∧
       zip (rows class_metadata) (rows class_features)
       = filter (λ pr, test_class pr.1)
           (zip (rows classified_metadata) (rows classified_features)) ∧
       row_labels class_metadata = row_labels class_features).
Proof.
  intros Hnames Hchannels test_class. unfold Aggregate.class_subset_cell.
  split_and!.
  - intros Hall. rewrite decide_False by (by intros []). simpl.
    rewrite Hnames. simpl. by rewrite Hchannels.
  - intros Htest Hcol. rewrite decide_True by done.
    by rewrite (column_Err _ _ Hcol).
  - intros Htest Hcol _ Hlabels. rewrite decide_True by done.
    rewrite (column_Ok _ _ Hcol). simpl. rewrite Hnames. simpl.
    rewrite Hchannels. simpl.
    eexists _, _. split; [reflexivity|]. split; [done|]. split; [done|].
    unfold column_cells. rewrite <-list_fmap_compose.
    set (h := (λ c, bool_decide (c = Some (VStr (Aggregate.TEST_CELL_CLASS p))))
              ∘ (λ r : nat * list (option value),
                   get_cell (columns classified_metadata) r.2 "class")).
    assert (∀ r, h r = true ↔ test_class r) as Hh
      by (intros r; unfold h, test_class; simpl; apply bool_decide_eq_true).
    assert (length (rows classified_metadata) = length (rows classified_features))
      as Hlen.
    { unfold row_labels in Hlabels.
      by rewrite <-(length_fmap fst (rows classified_metadata)), Hlabels,
        length_fmap. }
    split_and!.
    + rewrite mask_rows_filter. by apply list_filter_iff.
    + unfold mask_rows. cbn [rows].
      rewrite mask_zip by done. apply list_filter_iff. intros [m f]. apply Hh.
    + unfold mask_rows, row_labels. cbn [rows]. by apply mask_labels.
Qed.

Lemma sum_list_with_fmap {X Y} (f : Y → nat) (g : X → Y) (xs : list X) :
  sum_list_with f (g <$> xs) = sum_list_with (f ∘ g) xs.
Proof. induction xs as [|x xs IH]; [done|]. cbn. by f_equal. Qed.

Lemma sum_list_with_sum_list {X} (f : X → nat) (xs : list X) :
  sum_list_with f xs = sum_list (f <$> xs).
Proof. induction xs as [|x xs IH]; [done|]. cbn. by f_equal. Qed.

Lemma class_rows_Ok (df : DataFrame value) (cell_class : option value) :
  "class" ∈ columns df →
  AggregateData.class_rows df cell_class
  = Ok (mkDataFrame (columns df)
          (filter (λ r, of_class df cell_class r = true) (rows df))).
Proof.
  intros Hcol. unfold AggregateData.class_rows.
  rewrite (column_Ok _ _ Hcol). simpl. f_equal.
  set (g := λ c, match cell_class with
                 | Some x => cell_eq x c
                 | None => false
                 end).
  pose proof (mask_rows_column g df "class") as Hrows.
  unfold mask_rows in *. cbn [rows] in Hrows. by rewrite Hrows.
Qed.

Lemma cell_class_dfs_Ok (df : DataFrame value) (classes : list (option value)) :
  "class" ∈ columns df →
  AggregateData.cell_class_dfs df classes
  = Ok ((λ c, (c, mkDataFrame (columns df)
                    (filter (λ r, of_class df c r = true) (rows df))))
          <$> classes).
Proof.
  intros Hcol. induction classes as [|c classes IH]; [done|].
  simpl. rewrite (class_rows_Ok _ _ Hcol). simpl. by rewrite IH.
Qed.

Lemma of_class_key (df : DataFrame value) (c : option value)
    (r : nat * list (option value)) (v : value) :
  get_cell (columns df) r.2 "class" = Some v →
  of_class df c r = true ↔ Some (py_key v) = py_key <$> c.
Proof.
  intros Hv. unfold of_class. rewrite Hv. destruct c as [x|]; simpl.
  - rewrite bool_decide_eq_true. split; congruence.
  - split; discriminate.
Qed.

(** Over classes with distinct keys that cover the classes of the rows, the
    sizes of the per-class tables add up to the rows that have a class. *)
Lemma class_sizes_total (df : DataFrame value) (classes : list (option value))
    (rs : list (nat * list (option value))) :
  NoDup (fmap (M:=option) py_key <$> classes) →
  (∀ r v, r ∈ rs → get_cell (columns df) r.2 "class" = Some v →
     Some (py_key v) ∈ fmap (M:=option) py_key <$> classes) →
  sum_list_with (λ c, length (filter (λ r, of_class df c r = true) rs)) classes
  = length (filter (λ r, is_Some (get_cell (columns df) r.2 "class")) rs).
Proof.
  intros Hnd. induction rs as [|r rs IH]; intros Hcover.
  - simpl. apply sum_list_with_zero.
  - rewrite (sum_list_with_agree _
      (λ c, (if decide (of_class df c r = true) then 1 else 0)
            + length (filter (λ r, of_class df c r = true) rs))).
    2:{ intros c _. rewrite filter_cons.
        by destruct (decide (of_class df c r = true)). }
    rewrite sum_list_with_add, IH.
    2:{ intros r' v Hr'. apply Hcover. by right. }
    rewrite filter_cons.
    destruct (get_cell (columns df) r.2 "class") as [v|] eqn:Hv.
    + rewrite decide_True by done.
      assert (sum_list_with
                (λ c, if decide (of_class df c r = true) then 1 else 0) classes
              = 1) as ->; [|done].
      rewrite (sum_list_with_agree _
        ((λ k, if decide (Some (py_key v) = k) then 1 else 0)
         ∘ fmap (M:=option) py_key)).
      2:{ intros c _. simpl.
          destruct (decide (of_class df c r = true)) as [Hc|Hc];
            rewrite (of_class_key _ _ _ _ Hv) in Hc;
            [by rewrite decide_True|by rewrite decide_False]. }
      rewrite <-(sum_list_with_fmap
        (λ k, if decide (Some (py_key v) = k) then 1 else 0)).
      apply sum_list_with_indicator; [done|].
      apply (Hcover r v); [by left|done].
    + rewrite decide_False by (by intros [? ?]).
      rewrite (sum_list_with_agree _ (λ _, 0)), sum_list_with_zero; [done|].
      intros c _. rewrite decide_False; [done|].
      unfold of_class. rewrite Hv. by destruct c.
Qed.

(** X3.  The per-class tables.  [CELL_CLASSES] lists classes of the [class]
    column, no two of them equal under [==], and [cell_classes] adds ["all"]
    at the end.  When the table with file names has the [class] column of the
    classified metadata, the dictionary has one table per class, in the order
    of the classes, holding exactly the rows of that class in order; every
    row that has a class is in one of the tables; and the table sizes add up
    to the number of rows that have a class, so no row is in two tables. *)
Theorem cell_class_dfs_partition
    (classified_metadata classified_metadata_copy : DataFrame value) :
  "class" ∈ columns classified_metadata →
  "class" ∈ columns classified_metadata_copy →
  column_cells classified_metadata_copy "class"
  = column_cells classified_metadata "class" →
  ∃ classes dfs,
    AggregateData.CELL_CLASSES classified_metadata = Ok classes ∧
    AggregateData.cell_classes classified_metadata
    = Ok (classes ++ [Some (VStr "all")]) ∧
    AggregateData.cell_class_dfs classified_metadata_copy classes = Ok dfs ∧
    NoDup (fmap (M:=option) py_key <$> classes) ∧
    (∀ c, c ∈ classes → c ∈ column_cells classified_metadata "class") ∧
    dfs.*1 = classes ∧
    (∀ c df, (c, df) ∈ dfs →
       columns df = columns classified_metadata_copy ∧
       rows df = filter (λ r, of_class classified_metadata_copy c r = true)
                   (rows classified_metadata_copy)) ∧
    (∀ r, r ∈ rows classified_metadata_copy →
       is_Some (get_cell (columns classified_metadata_copy) r.2 "class") →
       ∃ c df, (c, df) ∈ dfs ∧ r ∈ rows df) ∧
    sum_list ((λ cdf : option value * DataFrame value, n_rows cdf.2) <$> dfs)
    = length (filter (λ r, is_Some (get_cell (columns classified_metadata_copy)
                                      r.2 "class"))
                (rows classified_metadata_copy)).
Proof.
  intros Hcol Hcol' Hsame.
  set (classes := unique (column_cells classified_metadata "class")).
  assert (Hcover : ∀ r v, r ∈ rows classified_metadata_copy →
            get_cell (columns classified_metadata_copy) r.2 "class" = Some v →
            Some (py_key v) ∈ fmap (M:=option) py_key <$> classes).
  { intros r v Hr Hv.
    assert (Some v ∈ column_cells classified_metadata "class") as Hin.
    { rewrite <-Hsame, <-Hv. unfold column_cells.
      by apply (list_elem_of_fmap_2
                  (λ r, get_cell (columns classified_metadata_copy) r.2 "class")). }
    apply (unique_on_covers (fmap (M:=option) py_key)) in Hin
      as (y & Hy & Hkey).
    change (Some (py_key v)) with (py_key <$> Some v). rewrite <-Hkey.
    by apply list_elem_of_fmap_2. }
  exists classes, ((λ c, (c, mkDataFrame (columns classified_metadata_copy)
                     (filter (λ r, of_class classified_metadata_copy c r = true)
                        (rows classified_metadata_copy)))) <$> classes).
  assert (HCC : AggregateData.CELL_CLASSES classified_metadata = Ok classes).
  { unfold AggregateData.CELL_CLASSES. by rewrite (column_Ok _ _ Hcol). }
  split; [done|]. split.
  { unfold AggregateData.cell_classes. by rewrite HCC. }
  split; [by apply cell_class_dfs_Ok|].
  split; [apply unique_on_keys_NoDup|].
  split; [intros c; apply unique_on_elem|].
  split.
  { rewrite <-list_fmap_compose. apply list_fmap_id. }
  split.
  { by intros c df (c' & [= -> ->] & _)%list_elem_of_fmap. }
  split.
  { intros r Hr [v Hv].
    pose proof (Hcover r v Hr Hv) as (c & Hkey & Hc)%list_elem_of_fmap.
    eexists c, _. split.
    - apply list_elem_of_fmap. by exists c.
    - cbn [rows]. apply list_elem_of_filter. split; [|done].
      by apply (of_class_key _ _ _ _ Hv). }
  rewrite <-list_fmap_compose, <-sum_list_with_sum_list.
  rewrite <-(class_sizes_total classified_metadata_copy classes);
    [|apply unique_on_keys_NoDup|done].
  done.
Qed.

Lemma cell_class_dfs_lookup (df : DataFrame value) classes dfs :
  AggregateData.cell_class_dfs df classes = Ok dfs →
  length dfs = length classes ∧
  ∀ k c, classes !! k = Some c →
    ∃ cell_df, AggregateData.class_rows df c = Ok cell_df ∧
               dfs !! k = Some (c, cell_df).
Proof.
  revert dfs. induction classes as [|c classes IH]; intros dfs H; simpl in H.
  - injection H as <-. split; [done|]. intros k c Hk. by destruct k.
  - result_cases H. subst dfs. destruct (IH _ eq_refl) as [Hlen Hall].
    split; [simpl; by f_equal|].
    intros [|k] c' Hk; simpl in Hk.
    + injection Hk as <-. by eexists.
    + by apply Hall.
Qed.

Section MontageLoop.
Context (montage : Type).
Context (create_cell_montage : DataFrame value → yaml → bool → string → result montage).
Context (float_str : Qc → string).

Lemma montage_loop_lookup config MONTAGE_CHANNEL dfs montages titles :
  AggregateData.montage_loop montage create_cell_montage float_str
    config MONTAGE_CHANNEL dfs = Ok (montages, titles) →
  length montages = 2 * length dfs ∧ length titles = 2 * length dfs ∧
  ∀ k c cell_df, dfs !! k = Some (c, cell_df) →
    ∃ channels lowest highest,
      yaml_item2 "phenotype" "channel_names" config = Ok channels ∧
      create_cell_montage cell_df channels true MONTAGE_CHANNEL = Ok lowest ∧
      create_cell_montage cell_df channels false MONTAGE_CHANNEL = Ok highest ∧
      montages !! (2 * k) = Some lowest ∧
      montages !! (2 * k + 1) = Some highest ∧
      titles !! (2 * k)
      = Some (AggregateData.title_template true (py_str float_str c)
                MONTAGE_CHANNEL) ∧
      titles !! (2 * k + 1)
      = Some (AggregateData.title_template false (py_str float_str c)
                MONTAGE_CHANNEL).
Proof.
  revert montages titles.
  induction dfs as [|[c cell_df] dfs IH]; intros montages titles H; simpl in H.
  - injection H as <- <-. by repeat split.
  - result_cases H. subst montages titles.
    match goal with a2 : (list montage * list string)%type |- _ =>
      destruct a2 as [ms ts] end.
    destruct (IH _ _ eq_refl) as (Hm & Ht & Hall).
    simpl. split; [lia|]. split; [lia|].
    intros [|k] c' df' Hk; simpl in Hk.
    + injection Hk as <- <-. eexists _, _, _. repeat split; eauto.
    + destruct (Hall _ _ _ Hk)
        as (ch & lo & hi & Hch & Hlo & Hhi & Hm1 & Hm2 & Ht1 & Ht2).
      exists ch, lo, hi.
      replace (S k + (S k + 0)) with (S (S (2 * k))) by lia.
      replace (S (S (2 * k)) + 1) with (S (S (2 * k + 1))) by lia.
      by repeat split.
Qed.

End MontageLoop.

(** X4.  The montage figure.  When the montage cell succeeds, the figure has
    one row per class and two montages and two titles per row, so the grid is
    filled exactly; in row [k] the left montage is the lowest-confidence
    montage of the rows of class [k] and the right one the highest-confidence
    montage of the same rows, and each title names its class, its channel and
    its direction. *)
Theorem montage_cell_fills_grid (montage : Type)
    (create_cell_montage : DataFrame value → yaml → bool → string → result montage)
    (float_str : Qc → string)
    (add_filenames : DataFrame value → DataFrame value)
    config MONTAGE_CHANNEL classified_metadata montages titles num_rows :
  AggregateData.montage_cell montage create_cell_montage float_str
    add_filenames config MONTAGE_CHANNEL classified_metadata
  = Ok (montages, titles, num_rows) →
  ∃ classes,
    AggregateData.CELL_CLASSES classified_metadata = Ok classes ∧
    num_rows = length classes ∧
    length montages = 2 * num_rows ∧ length titles = 2 * num_rows ∧
    ∀ k c, classes !! k = Some c →
      ∃ cell_df channels lowest highest,
        AggregateData.class_rows (add_filenames classified_metadata) c
        = Ok cell_df ∧
        yaml_item2 "phenotype" "channel_names" config = Ok channels ∧
        create_cell_montage cell_df channels true MONTAGE_CHANNEL = Ok lowest ∧
        create_cell_montage cell_df channels false MONTAGE_CHANNEL = Ok highest ∧
        montages !! (2 * k) = Some lowest ∧
        montages !! (2 * k + 1) = Some highest ∧
        titles !! (2 * k)
        = Some ("Lowest Confidence " +:+ py_str float_str c +:+ " Cells - "
                +:+ MONTAGE_CHANNEL) ∧
        titles !! (2 * k + 1)
        = Some ("Highest Confidence " +:+ py_str float_str c +:+ " Cells - "
                +:+ MONTAGE_CHANNEL).
Proof.
  intros H. unfold AggregateData.montage_cell in H. result_cases H.
  subst montages titles num_rows.
  match goal with Hs : AggregateData.montage_loop _ _ _ _ _ _ = Ok ?p |- _ =>
    destruct p as [ms ts];
    apply montage_loop_lookup in Hs as (Hm & Ht & Hall) end.
  match goal with Hd : AggregateData.cell_class_dfs _ _ = Ok _ |- _ =>
    apply cell_class_dfs_lookup in Hd as (Hlen & Hdfs) end.
  eexists. split; [done|]. simpl. rewrite <-Hlen. repeat split; try done.
  intros k c Hk. destruct (Hdfs _ _ Hk) as (cell_df & Hrows & Hlook).
  destruct (Hall _ _ _ Hlook)
    as (ch & lo & hi & Hch & Hlo & Hhi & Hm1 & Hm2 & Ht1 & Ht2).
  by exists cell_df, ch, lo, hi.
Qed.

(** ** The aggregate combinations *)

Lemma bind_length_const {X Y} (f : X → list Y) (l : list X) (n : nat) :
  (∀ x, x ∈ l → length (f x) = n) → length (l ≫= f) = length l * n.
Proof.
  induction l as [|x l IH]; intros Hn; [done|].
  rewrite bind_cons, length_app, (Hn x), IH; [simpl; lia| |by left].
  intros y Hy. apply Hn. by right.
Qed.

Lemma bind_lookup_const {X Y} (f : X → list Y) (l : list X) (n i j : nat) (x : X) :
  (∀ x, x ∈ l → length (f x) = n) →
  l !! i = Some x → j < n → (l ≫= f) !! (i * n + j) = f x !! j.
Proof.
  revert i. induction l as [|y l IH]; intros i Hn Hi Hj; [done|].
  rewrite bind_cons. destruct i as [|i]; simpl in Hi.
  - injection Hi as ->. simpl. apply lookup_app_l. rewrite (Hn x); [done|by left].
  - rewrite lookup_app_r; rewrite (Hn y) by (by left); [|lia].
    replace (S i * n + j - n) with (i * n + j) by lia.
    apply IH; [|done|done]. intros z Hz. apply Hn. by right.
Qed.

Lemma bind_singleton_fmap {X Y} (g : X → Y) (l : list X) :
  l ≫= (λ x, [g x]) = g <$> l.
Proof. induction l as [|x l IH]; [done|]. rewrite bind_cons, IH. done. Qed.

Lemma combo_product_length tuples classes channel_combos :
  length (combo_product tuples classes channel_combos)
  = length tuples * length classes * length channel_combos.
Proof.
  unfold combo_product.
  rewrite (bind_length_const _ _ (length classes * length channel_combos)); [lia|].
  intros pw _.
  rewrite (bind_length_const _ _ (length channel_combos)); [done|].
  intros c _. by rewrite bind_singleton_fmap, length_fmap.
Qed.

Lemma combo_product_lookup tuples classes channel_combos i j k pw c cc :
  tuples !! i = Some pw → classes !! j = Some c → channel_combos !! k = Some cc →
  combo_product tuples classes channel_combos
    !! ((i * length classes + j) * length channel_combos + k)
  = Some (pw, c, cc).
Proof.
  intros Hi Hj Hk. unfold combo_product.
  pose proof (lookup_lt_Some _ _ _ Hj) as Hjlt.
  pose proof (lookup_lt_Some _ _ _ Hk) as Hklt.
  replace ((i * length classes + j) * length channel_combos + k)
    with (i * (length classes * length channel_combos)
          + (j * length channel_combos + k)) by lia.
  rewrite (bind_lookup_const _ _ (length classes * length channel_combos) i _ pw);
    [|..|done|nia].
  2:{ intros pw' _.
      rewrite (bind_length_const _ _ (length channel_combos)); [done|].
      intros c' _. by rewrite bind_singleton_fmap, length_fmap. }
  rewrite (bind_lookup_const _ _ (length channel_combos) j _ c); [|..|done|done].
  2:{ intros c' _. by rewrite bind_singleton_fmap, length_fmap. }
  by rewrite bind_singleton_fmap, list_lookup_fmap, Hk.
Qed.

Lemma aggregate_wildcard_combos_unfold merge_wildcard_combos classes CHANNEL_COMBOS :
  AggregateData.aggregate_wildcard_combos merge_wildcard_combos classes CHANNEL_COMBOS
  = let combos := combo_product (itertuples merge_wildcard_combos) classes
                    (String.concat "_" <$> CHANNEL_COMBOS) in
    if decide (combos ≠ [] ∧ length (columns merge_wildcard_combos) = 2)
    then Returns
           (mkDataFrame ["cell_class"; "channel_combo"; "plate"; "well"]
              (range_index
                 ((λ combo : list (option value) * option value * string,
                     [combo.1.2; Some (VStr combo.2);
                      mjoin (combo.1.1 !! 0); mjoin (combo.1.1 !! 1)])
                    <$> combos)))
    else Raises (ValueError "Columns must be same length as key").
Proof. reflexivity. Qed.

Lemma combo_product_nil tuples classes channel_combos :
  combo_product tuples classes channel_combos = []
  ↔ tuples = [] ∨ classes = [] ∨ channel_combos = [].
Proof.
  rewrite <-!length_zero_iff_nil, combo_product_length. nia.
Qed.

(** With rows, classes and channel combinations the cell returns, and the
    table has one row per triple. *)
Lemma aggregate_wildcard_combos_returns
    (merge_wildcard_combos : DataFrame value) (classes : list (option value))
    (CHANNEL_COMBOS : list (list string)) :
  length (columns merge_wildcard_combos) = 2 →
  rows merge_wildcard_combos ≠ [] → classes ≠ [] → CHANNEL_COMBOS ≠ [] →
  ∃ combos,
    AggregateData.aggregate_wildcard_combos merge_wildcard_combos classes
      CHANNEL_COMBOS = Returns combos ∧
    n_rows combos
    = n_rows merge_wildcard_combos * length classes * length CHANNEL_COMBOS.
Proof.
  intros Hcols Hrows Hclasses Hcc.
  rewrite aggregate_wildcard_combos_unfold. cbv zeta.
  assert (Hlen : length (itertuples merge_wildcard_combos)
                 = n_rows merge_wildcard_combos).
  { unfold itertuples, n_rows. by rewrite length_fmap. }
  rewrite decide_True.
  2:{ split; [|done]. rewrite combo_product_nil.
      intros [H|[H|H]]; [|done|].
      - apply Hrows. apply (f_equal length) in H. rewrite Hlen in H.
        by apply length_zero_iff_nil.
      - by apply fmap_nil_inv in H. }
  eexists. split; [reflexivity|].
  unfold n_rows. cbn [rows].
  rewrite range_index_length, length_fmap, combo_product_length, length_fmap.
  by rewrite Hlen.
Qed.

Lemma aggregate_wildcard_combos_raises_nil
    (merge_wildcard_combos : DataFrame value) (classes : list (option value))
    (CHANNEL_COMBOS : list (list string)) :
  rows merge_wildcard_combos = [] →
  AggregateData.aggregate_wildcard_combos merge_wildcard_combos classes
    CHANNEL_COMBOS = Raises (ValueError "Columns must be same length as key").
Proof.
  intros Hrows. rewrite aggregate_wildcard_combos_unfold. cbv zeta.
  rewrite decide_False; [done|]. intros [Hne _]. apply Hne.
  apply combo_product_nil. left. unfold itertuples. by rewrite Hrows.
Qed.

(** X5.  The aggregate combinations are the product of the merge rows, the
    cell classes and the channel combinations.  For a merge table with two
    columns and at least one row, and at least one class and one channel
    combination, the cell returns a table with the columns [cell_class],
    [channel_combo], [plate], [well] under a fresh index, with one row per
    triple: merge row [i], class [j] and channel combination [k] are at row
    [(i * classes + j) * combinations + k], the channel names joined by an
    underscore. *)
Theorem aggregate_wildcard_combos_product
    (merge_wildcard_combos : DataFrame value) (classes : list (option value))
    (CHANNEL_COMBOS : list (list string)) :
  length (columns merge_wildcard_combos) = 2 →
  rows merge_wildcard_combos ≠ [] → classes ≠ [] → CHANNEL_COMBOS ≠ [] →
  ∃ combos,
    AggregateData.aggregate_wildcard_combos merge_wildcard_combos classes
      CHANNEL_COMBOS = Returns combos ∧
    columns combos = ["cell_class"; "channel_combo"; "plate"; "well"] ∧
    n_rows combos
    = n_rows merge_wildcard_combos * length classes * length CHANNEL_COMBOS ∧
    row_labels combos = seq 0 (n_rows combos) ∧
    ∀ i j k r c combo,
      rows merge_wildcard_combos !! i = Some r →
      classes !! j = Some c →
      CHANNEL_COMBOS !! k = Some combo →
      let n := (i * length classes + j) * length CHANNEL_COMBOS + k in
      rows combos !! n
      = Some (n, [c; Some (VStr (String.concat "_" combo));
                  mjoin (r.2 !! 0); mjoin (r.2 !! 1)]).
Proof.
  intros Hcols Hrows Hclasses Hcc.
  rewrite aggregate_wildcard_combos_unfold. cbv zeta.
  assert (Hlen : length (itertuples merge_wildcard_combos)
                 = n_rows merge_wildcard_combos).
  { unfold itertuples, n_rows. by rewrite length_fmap. }
  rewrite decide_True.
  2:{ split; [|done]. rewrite combo_product_nil.
      intros [H|[H|H]]; [|done|].
      - apply Hrows. apply (f_equal length) in H. rewrite Hlen in H.
        by apply length_zero_iff_nil.
      - by apply fmap_nil_inv in H. }
  eexists. split; [reflexivity|]. split; [done|].
  split.
  { unfold n_rows. cbn [rows].
    rewrite range_index_length, length_fmap, combo_product_length, length_fmap.
    by rewrite Hlen. }
  split.
  { unfold n_rows. cbn [rows]. rewrite range_index_length. apply range_index_labels. }
  intros i j k r c combo Hi Hj Hk. cbn [rows].
  rewrite range_index_lookup, list_lookup_fmap.
  rewrite <-(length_fmap (String.concat "_") CHANNEL_COMBOS).
  rewrite (combo_product_lookup _ _ _ i j k
             ((λ i, mjoin (r.2 !! i)) <$> seq 0 (length (columns merge_wildcard_combos)))
             c (String.concat "_" combo)); [| |done|].
  - rewrite Hcols. done.
  - unfold itertuples. by rewrite list_lookup_fmap, Hi.
  - by rewrite list_lookup_fmap, Hk.
Qed.

(** X6.  The aggregate combinations cell raises the [ValueError] of assigning
    the expanded [plate_well] column to [plate] and [well] exactly when the
    product is empty (no merge row, no class or no channel combination) or
    the merge table has another number of columns than two. *)
Theorem aggregate_wildcard_combos_raises
    (merge_wildcard_combos : DataFrame value) (classes : list (option value))
    (CHANNEL_COMBOS : list (list string)) :
  AggregateData.aggregate_wildcard_combos merge_wildcard_combos classes
    CHANNEL_COMBOS = Raises (ValueError "Columns must be same length as key")
  ↔ rows merge_wildcard_combos = [] ∨ classes = [] ∨ CHANNEL_COMBOS = [] ∨
    length (columns merge_wildcard_combos) ≠ 2.
Proof.
  rewrite aggregate_wildcard_combos_unfold. cbv zeta.
  assert (Hnil : combo_product (itertuples merge_wildcard_combos) classes
                   (String.concat "_" <$> CHANNEL_COMBOS) = []
                 ↔ rows merge_wildcard_combos = [] ∨ classes = [] ∨
                   CHANNEL_COMBOS = []).
  { rewrite combo_product_nil. unfold itertuples.
    split; (intros [H|[H|H]]; [left|right; by left|right; right]).
    - by apply fmap_nil_inv in H.
    - by apply fmap_nil_inv in H.
    - by rewrite H.
    - by rewrite H. }
  destruct (decide _) as [[Hne Hcols]|Hno].
  - split; [discriminate|]. intros [H|[H|[H|H]]]; [| | |done];
      exfalso; apply Hne, Hnil; auto.
  - split; [intros _|done].
    destruct (decide (length (columns merge_wildcard_combos) = 2)) as [Hcols|Hcols];
      [|by do 3 right].
    destruct (decide (combo_product (itertuples merge_wildcard_combos) classes
                        (String.concat "_" <$> CHANNEL_COMBOS) = [])) as [He|He].
    + apply Hnil in He as [?|[?|?]]; auto.
    + by destruct Hno.
Qed.

(** ** The configuration file across the notebooks *)

Lemma dict_set_twice (k : string) (v v' : yaml) (d : list (string * yaml)) :
  dict_set k v' (dict_set k v d) = dict_set k v' d.
Proof.
  induction d as [|[k' w] d IH]; simpl.
  - by rewrite decide_True.
  - destruct (decide (k = k')) as [->|Hne]; simpl.
    + by rewrite decide_True.
    + rewrite decide_False by done. by rewrite IH.
Qed.

Lemma dict_set_absent (k : string) (v : yaml) (d : list (string * yaml)) :
  dict_get k d = None → dict_set k v d = d ++ [(k, v)].
Proof.
  induction d as [|[k' w] d IH]; simpl; [done|].
  destruct (decide (k = k')); [done|]. intros H. by rewrite IH.
Qed.

(** What a successful run of the aggregate notebook did to the files. *)
Lemma persist_aggregate_inv header (p : Aggregate.params)
    (data_cells : yaml → gmap string file → result (gmap string file))
    (fs fs' : gmap string file) :
  Aggregate.persist_aggregate_params header p data_cells fs = Ok fs' →
  ∃ d fs1,
    load_yaml fs Aggregate.CONFIG_FILE_PATH = Ok (YMap d) ∧
    data_cells (YMap d) fs = Ok fs1 ∧
    fs' = <[Aggregate.CONFIG_FILE_PATH :=
              YamlFile header
                (YMap (dict_set "aggregate" (Aggregate.aggregate_section p) d))]> fs1.
Proof.
  unfold Aggregate.persist_aggregate_params, Aggregate.load_config_cell.
  intros H.
  destruct (load_yaml fs Aggregate.CONFIG_FILE_PATH) as [cfg|]; [|discriminate H].
  simpl in H.
  destruct (yaml_item2 "all" "root_fp" cfg) as [root|]; [|discriminate H].
  simpl in H. destruct (yaml_path root); [|discriminate H]. simpl in H.
  destruct (data_cells cfg fs) as [fs1|] eqn:Hdata; [|discriminate H].
  simpl in H. unfold Aggregate.write_config_cell in H.
  destruct cfg as [| | |d]; try discriminate H. simpl in H.
  injection H as <-. by exists d, fs1.
Qed.

(** What the merge combination cell leaves. *)
Lemma merge_combo_cell_inv
    (list_set : list (option value * option value)
                → list (option value * option value))
    (fs : gmap string file) (st : Merge.state) :
  Merge.merge_combo_cell list_set fs = Ok st →
  load_yaml fs Merge.CONFIG_FILE_PATH = Ok (Merge.config st) ∧
  Merge.files st
  = <[Merge.MERGE_COMBO_DF_FP := TableFile (Merge.merge_wildcard_combos st)]> fs ∧
  ((Merge.warnings st = [Merge.MISMATCH_WARNING] ∧
    Merge.merge_wildcard_combos st = mkDataFrame ["plate"; "well"] []) ∨
   (Merge.warnings st = [] ∧
    ∃ combos : list (option value * option value),
      Merge.merge_wildcard_combos st = Merge.combos_table combos)).
Proof.
  unfold Merge.merge_combo_cell. intros H.
  destruct (load_yaml fs Merge.CONFIG_FILE_PATH) as [cfg|]; [|discriminate H].
  simpl in H. result_cases H. subst st. simpl.
  split; [done|]. split; [done|].
  match goal with
  | E : (if Merge.py_set_eq ?a ?b then _ else _) = _ |- _ =>
      destruct (Merge.py_set_eq a b); injection E as <- <-
  end.
  - right. split; [done|]. by eexists.
  - by left.
Qed.

(** What a successful run of the merge notebook did to the files. *)
Lemma persist_merge_inv
    (list_set : list (option value * option value)
                → list (option value * option value))
    header (p : Merge.params)
    (data_cells : yaml → gmap string file → result (gmap string file))
    (fs : gmap string file) (st : Merge.state) :
  Merge.persist_merge_params list_set header p data_cells fs = Ok st →
  ∃ st0 d fs1,
    Merge.merge_combo_cell list_set fs = Ok st0 ∧
    Merge.config st0 = YMap d ∧
    data_cells (YMap d) (Merge.files st0) = Ok fs1 ∧
    st = Merge.mkState
           (<[Merge.CONFIG_FILE_PATH :=
                YamlFile header
                  (YMap (dict_set "merge" (Merge.merge_section p) d))]> fs1)
           (Merge.warnings st0)
           (YMap (dict_set "merge" (Merge.merge_section p) d))
           (Merge.merge_wildcard_combos st0).
Proof.
  unfold Merge.persist_merge_params. intros H.
  destruct (Merge.merge_combo_cell list_set fs) as [st0|] eqn:Hcell;
    [|discriminate H].
  simpl in H.
  destruct (yaml_item2 "all" "root_fp" (Merge.config st0)) as [root|];
    [|discriminate H].
  simpl in H. destruct (yaml_path root); [|discriminate H]. simpl in H.
  destruct (data_cells (Merge.config st0) (Merge.files st0)) as [fs1|] eqn:Hdata;
    [|discriminate H].
  simpl in H. unfold Merge.write_config_cell in H. simpl in H.
  destruct (Merge.config st0) as [| | |d] eqn:Hcfg; try discriminate H.
  simpl in H. injection H as <-. by exists st0, d, fs1.
Qed.

Lemma merge_section_combo_fp (p : Merge.params) (d : list (string * yaml)) :
  yaml_item2 "merge" "merge_combo_fp"
    (YMap (dict_set "merge" (Merge.merge_section p) d))
  = Ok (YStr Merge.MERGE_COMBO_DF_FP).
Proof.
  unfold yaml_item2, yaml_item. by rewrite dict_get_set_eq.
Qed.

(** X7.  From the merge notebook to the aggregate notebook.  After a run of
    the merge notebook whose data cells left the merge combinations file as
    the combination cell wrote it, the aggregate notebook loads the
    configuration the merge notebook wrote and finds the merge combinations
    under [config["merge"]["merge_combo_fp"]].  If the merge notebook warned
    of mismatching plate-well sets, the aggregate combinations cell raises a
    [ValueError] whatever the classes and channel combinations are; if it did
    not warn and there are merge rows, classes and channel combinations, the
    cell writes a table with one row per merge row, class and channel
    combination. *)
Theorem merge_mismatch_stops_aggregate_combos
    (list_set : list (option value * option value)
                → list (option value * option value))
    header (p : Merge.params)
    (data_cells : yaml → gmap string file → result (gmap string file))
    (fs : gmap string file) (st : Merge.state)
    (classes : list (option value)) (CHANNEL_COMBOS : list (list string))
    (AGGREGATE_COMBO_FP : string) :
  Merge.persist_merge_params list_set header p data_cells fs = Ok st →
  Merge.files st !! Merge.MERGE_COMBO_DF_FP
  = Some (TableFile (Merge.merge_wildcard_combos st)) →
  load_yaml (Merge.files st) Aggregate.CONFIG_FILE_PATH = Ok (Merge.config st) ∧
  (Merge.warnings st ≠ [] →
     AggregateData.aggregate_combo_cell (Merge.config st) (Merge.files st)
       classes CHANNEL_COMBOS AGGREGATE_COMBO_FP
     = Raises (ValueError "Columns must be same length as key")) ∧
  (Merge.warnings st = [] →
     rows (Merge.merge_wildcard_combos st) ≠ [] →
     classes ≠ [] → CHANNEL_COMBOS ≠ [] →
     ∃ combos,
       AggregateData.aggregate_combo_cell (Merge.config st) (Merge.files st)
         classes CHANNEL_COMBOS AGGREGATE_COMBO_FP
       = Returns (<[AGGREGATE_COMBO_FP := TableFile combos]> (Merge.files st),
                  combos) ∧
       n_rows combos
       = n_rows (Merge.merge_wildcard_combos st) * length classes
         * length CHANNEL_COMBOS).
Proof.
  intros (st0 & d & fs1 & Hcell & Hcfg & Hdata & ->)%persist_merge_inv Hfile.
  cbn [Merge.files Merge.config Merge.warnings Merge.merge_wildcard_combos] in *.
  apply merge_combo_cell_inv in Hcell as (_ & _ & Hcases).
  split.
  { unfold load_yaml. by rewrite lookup_insert_eq. }
  assert (Hread : ∀ P : outcome (gmap string file * DataFrame value) → Prop,
            P (combos ← AggregateData.aggregate_wildcard_combos
                          (Merge.merge_wildcard_combos st0) classes CHANNEL_COMBOS;
               Returns (<[AGGREGATE_COMBO_FP := TableFile combos]>
                          (<[Merge.CONFIG_FILE_PATH :=
                               YamlFile header
                                 (YMap (dict_set "merge" (Merge.merge_section p) d))]>
                             fs1), combos)) →
            P (AggregateData.aggregate_combo_cell
                 (YMap (dict_set "merge" (Merge.merge_section p) d))
                 (<[Merge.CONFIG_FILE_PATH :=
                      YamlFile header
                        (YMap (dict_set "merge" (Merge.merge_section p) d))]> fs1)
                 classes CHANNEL_COMBOS AGGREGATE_COMBO_FP)).
  { intros P HP. unfold AggregateData.aggregate_combo_cell.
    rewrite merge_section_combo_fp. simpl.
    unfold read_csv. rewrite Hfile. exact HP. }
  split.
  - intros Hwarn. apply Hread.
    destruct Hcases as [[_ Hempty]|[Hnone _]]; [|done].
    assert (AggregateData.aggregate_wildcard_combos
              (Merge.merge_wildcard_combos st0) classes CHANNEL_COMBOS
            = Raises (ValueError "Columns must be same length as key")) as ->;
      [|done].
    apply aggregate_wildcard_combos_raises_nil. by rewrite Hempty.
  - intros Hwarn Hrows Hclasses Hcc.
    destruct Hcases as [[Hw _]|[_ [combos Hcombos]]]; [congruence|].
    destruct (aggregate_wildcard_combos_returns
                (Merge.merge_wildcard_combos st0) classes CHANNEL_COMBOS)
      as (t & Ht & Hn); [by rewrite Hcombos|done..|].
    exists t. split; [|done]. apply Hread. by rewrite Ht.
Qed.

(** X8.  Running the aggregate notebook again.  A second run, with other
    parameters, header and data cells, on the files the first run left
    writes the configuration file that a single run with the second
    parameters would have written from the original mapping: the [aggregate]
    section of the first run is replaced, not merged or appended, and every
    other section is where it was. *)
Theorem aggregate_rerun_last_wins header header' (p p' : Aggregate.params)
    (data_cells data_cells' : yaml → gmap string file → result (gmap string file))
    (fs fs1 fs2 : gmap string file) :
  Aggregate.persist_aggregate_params header p data_cells fs = Ok fs1 →
  Aggregate.persist_aggregate_params header' p' data_cells' fs1 = Ok fs2 →
  ∃ d,
    load_yaml fs Aggregate.CONFIG_FILE_PATH = Ok (YMap d) ∧
    fs2 !! Aggregate.CONFIG_FILE_PATH
    = Some (YamlFile header'
              (YMap (dict_set "aggregate" (Aggregate.aggregate_section p') d))).
Proof.
  intros (d & fs1' & Hload & _ & ->)%persist_aggregate_inv
         (d' & fs2' & Hload' & _ & ->)%persist_aggregate_inv.
  exists d. split; [done|].
  unfold load_yaml in Hload'. rewrite lookup_insert_eq in Hload'.
  injection Hload' as <-.
  by rewrite lookup_insert_eq, dict_set_twice.
Qed.

(** X9.  The merge notebook, then the aggregate notebook.  After both have
    run on a configuration file, the file holds the mapping that was loaded
    first with the [merge] section of the merge parameters and the
    [aggregate] section of the aggregate parameters; every other section has
    the value it had, and where the file had neither section the two are
    appended in the order the notebooks ran. *)
Theorem merge_then_aggregate_sections
    (list_set : list (option value * option value)
                → list (option value * option value))
    header header' (pm : Merge.params)
    (pa : Aggregate.params)
    (merge_data_cells aggregate_data_cells :
       yaml → gmap string file → result (gmap string file))
    (fs fs2 : gmap string file) (st : Merge.state) :
  Merge.persist_merge_params list_set header pm merge_data_cells fs = Ok st →
  Aggregate.persist_aggregate_params header' pa aggregate_data_cells
    (Merge.files st) = Ok fs2 →
  ∃ d d2,
    load_yaml fs Merge.CONFIG_FILE_PATH = Ok (YMap d) ∧
    fs2 !! Aggregate.CONFIG_FILE_PATH = Some (YamlFile header' (YMap d2)) ∧
    dict_get "merge" d2 = Some (Merge.merge_section pm) ∧
    dict_get "aggregate" d2 = Some (Aggregate.aggregate_section pa) ∧
    (∀ k, k ≠ "merge" → k ≠ "aggregate" → dict_get k d2 = dict_get k d) ∧
    (dict_get "merge" d = None → dict_get "aggregate" d = None →
       d2 = d ++ [("merge", Merge.merge_section pm);
                  ("aggregate", Aggregate.aggregate_section pa)]).
Proof.
  intros (st0 & d & fs1 & Hcell & Hcfg & _ & ->)%persist_merge_inv
         (d' & fs2' & Hload' & _ & ->)%persist_aggregate_inv.
  cbn [Merge.files] in Hload'.
  unfold load_yaml in Hload'. rewrite lookup_insert_eq in Hload'.
  injection Hload' as <-.
  apply merge_combo_cell_inv in Hcell as (Hload & _).
  rewrite Hcfg in Hload.
  exists d, (dict_set "aggregate" (Aggregate.aggregate_section pa)
               (dict_set "merge" (Merge.merge_section pm) d)).
  split; [done|]. split; [by rewrite lookup_insert_eq|].
  split; [by rewrite dict_get_set_ne, dict_get_set_eq|].
  split; [by rewrite dict_get_set_eq|].
  split.
  - intros k Hm Ha. by rewrite !dict_get_set_ne.
  - intros Hm Ha. rewrite (dict_set_absent "merge") by done.
    rewrite dict_set_absent.
    + by rewrite <-app_assoc.
    + rewrite <-(dict_set_absent "merge") by done.
      by rewrite dict_get_set_ne.
Qed.

(** X10.  From the aggregate notebook to the downstream analysis.  After a
    run of the aggregate notebook the downstream notebook, loading the
    configuration file, reads as [GENE_COL] the perturbation name column the
    aggregate notebook was run with. *)
Theorem downstream_gene_col_is_perturbation_name_col header
    (p : Aggregate.params)
    (data_cells : yaml → gmap string file → result (gmap string file))
    (fs fs' : gmap string file) :
  Aggregate.persist_aggregate_params header p data_cells fs = Ok fs' →
  ∃ config,
    load_yaml fs' Aggregate.CONFIG_FILE_PATH = Ok config ∧
    yaml_item2 "all" "root_fp" config
    = (load_yaml fs Aggregate.CONFIG_FILE_PATH ≫= yaml_item2 "all" "root_fp") ∧
    Downstream.GENE_COL config = Ok (YStr (Aggregate.PERTURBATION_NAME_COL p)).
Proof.
  intros (d & fs1 & Hload & _ & ->)%persist_aggregate_inv.
  eexists. split; [unfold load_yaml; by rewrite lookup_insert_eq|].
  split.
  - rewrite Hload. simpl. unfold yaml_item2, yaml_item.
    by rewrite dict_get_set_ne.
  - unfold Downstream.GENE_COL, yaml_item2, yaml_item.
    by rewrite dict_get_set_eq.
Qed.

(** ** Plate-well sets *)

Lemma zip_fmap_same {X Y Z} (f : X → Y) (g : X → Z) (l : list X) :
  zip (f <$> l) (g <$> l) = (λ x, (f x, g x)) <$> l.
Proof. induction l as [|x l IH]; [done|]. cbn. by f_equal. Qed.

Lemma plate_well_tuples (df : DataFrame value) :
  zip (column_cells df "plate") (column_cells df "well")
  = (λ cells, (get_cell (columns df) cells "plate",
               get_cell (columns df) cells "well")) <$> (rows df).*2.
Proof.
  unfold column_cells. by rewrite zip_fmap_same, <-list_fmap_compose.
Qed.

(** X11.  The plate-well set of a combination table depends only on which
    rows the table has.  For two tables with the same columns, of distinct
    names, and the same rows, in any order and any number of times: without a [plate] or a
    [well] column both sets are the same [KeyError]; with them, and no
    missing plate or well, both sets are built and the cell finds them
    equal. *)
Theorem plate_well_combos_rows_as_set (frame frame' : string)
    (df df' : DataFrame value) :
  NoDup (columns df) →
  columns df = columns df' →
  (∀ cells, cells ∈ (rows df).*2 ↔ cells ∈ (rows df').*2) →
  (∀ c, c ∈ ["plate"; "well"] → c ∉ columns df →
     ∃ missing,
       Merge.plate_well_combos frame df = Err (KeyError missing) ∧
       Merge.plate_well_combos frame' df' = Err (KeyError missing)) ∧
  ("plate" ∈ columns df → "well" ∈ columns df →
   Forall (λ pw : option value * option value, is_Some pw.1 ∧ is_Some pw.2)
     (zip (column_cells df "plate") (column_cells df "well")) →
   ∃ combos combos',
     Merge.plate_well_combos frame df = Ok combos ∧
     Merge.plate_well_combos frame' df' = Ok combos' ∧
     Merge.py_set_eq combos combos' = true).
Proof.
  intros _ Hcols Hrows. split.
  - intros c Hc Hno. unfold Merge.plate_well_combos.
    destruct (decide ("plate" ∈ columns df)) as [Hp|Hp].
    + exists "well".
      assert ("well" ∉ columns df) as Hw.
      { apply elem_of_cons in Hc as [->|Hc]; [done|].
        apply elem_of_cons in Hc as [->|Hc]; [done|].
        by apply elem_of_nil in Hc. }
      rewrite (column_Ok df "plate") by done.
      rewrite (column_Ok df' "plate") by (by rewrite <-Hcols). simpl.
      rewrite (column_Err df "well") by done.
      by rewrite (column_Err df' "well") by (by rewrite <-Hcols).
    + exists "plate".
      rewrite (column_Err df "plate") by done.
      by rewrite (column_Err df' "plate") by (by rewrite <-Hcols).
  - intros Hp Hw Hvalues.
    assert (Htuples : ∀ a,
              a ∈ zip (column_cells df "plate") (column_cells df "well")
              ↔ a ∈ zip (column_cells df' "plate") (column_cells df' "well")).
    { intros a. rewrite !plate_well_tuples, <-Hcols, !list_elem_of_fmap.
      split; intros (cells & -> & Hin); exists cells; (split; [done|]);
        by apply Hrows. }
    assert (Hvalues' :
              Forall (λ pw : option value * option value,
                        is_Some pw.1 ∧ is_Some pw.2)
                (zip (column_cells df' "plate") (column_cells df' "well"))).
    { rewrite Forall_forall in Hvalues. apply Forall_forall.
      intros a Ha. by apply Hvalues, Htuples. }
    eexists _, _.
    split; [by apply plate_well_combos_values|].
    split; [apply plate_well_combos_values; by rewrite <-?Hcols|].
    apply py_set_eq_values; [done..|].
    split.
    + intros a Ha. exists a. split; [by apply Htuples|done].
    + intros b Hb. exists b. split; [by apply Htuples|done].
Qed.

(** X12.  Round trip of the merge table.  The table the merge cell builds
    from a list of plate-well pairs, none with a missing entry and the
    plates and the wells of one dtype each, has one row per pair under the
    labels [0, 1, ...]; its [plate] and [well] columns pair up to the pairs
    again, and its tuples, as the aggregate notebook iterates them, are the
    pairs in order. *)
Theorem combos_table_round_trip (pairs : list (option value * option value)) :
  Forall (λ pw, is_Some pw.1 ∧ is_Some pw.2) pairs →
  one_dtype pairs.*1 = true → one_dtype pairs.*2 = true →
  n_rows (Merge.combos_table pairs) = length pairs ∧
  row_labels (Merge.combos_table pairs) = seq 0 (length pairs) ∧
  zip (column_cells (Merge.combos_table pairs) "plate")
      (column_cells (Merge.combos_table pairs) "well") = pairs ∧
  itertuples (Merge.combos_table pairs)
  = (λ pw : option value * option value, [pw.1; pw.2]) <$> pairs.
Proof.
  intros _ _ _.
  assert (Htable : Merge.combos_table pairs
                   = mkDataFrame ["plate"; "well"]
                       (range_index ((λ pw : option value * option value,
                                        [pw.1; pw.2]) <$> pairs))).
  { unfold Merge.combos_table, range_index. by rewrite imap_fmap. }
  split; [apply length_imap|].
  split.
  { rewrite Htable. unfold row_labels. cbn [rows].
    by rewrite range_index_labels, length_fmap. }
  split.
  { rewrite plate_well_tuples, combos_table_rows, <-list_fmap_compose.
    rewrite <-(list_fmap_id pairs) at 2. apply list_fmap_ext.
    by intros _ [plate well] _. }
  rewrite Htable. unfold itertuples. cbn [rows columns].
  rewrite <-(range_index_cells ((λ pw : option value * option value,
                                   [pw.1; pw.2]) <$> pairs)) at 2.
  apply list_fmap_ext.
  intros i [lbl cells] Hi. simpl.
  rewrite range_index_lookup, list_lookup_fmap in Hi.
  destruct (pairs !! i) as [[plate well]|]; [|done].
  by injection Hi as _ <-.
Qed.

(** ** The data cells of the merge notebook *)

Lemma for_each_py_index {X} (i : nat) (l : list (list X)) :
  (Forall (λ site, i < length site) l →
     ∃ ys, for_each (λ site, py_index site i) l = Returns ys ∧
           Forall2 (λ site y, site !! i = Some y) l ys) ∧
  (¬ Forall (λ site, i < length site) l →
     for_each (λ site, py_index site i) l
     = Raises (IndexError "list index out of range")).
Proof.
  set (F := λ site : list X, py_index site i).
  induction l as [|site l [IHok IHno]].
  - split; [by exists []|]. intros H. by destruct H.
  - assert (Hcons : for_each F (site :: l)
                    = match site !! i with
                      | Some y => ys ← for_each F l; Returns (y :: ys)
                      | None => Raises (IndexError "list index out of range")
                      end).
    { cbn [for_each]. unfold F, py_index. by destruct (site !! i). }
    rewrite Hcons. clear Hcons. destruct (site !! i) as [y|] eqn:Hy.
    + pose proof (lookup_lt_Some _ _ _ Hy) as Hlt. split.
      * intros [_ Hl]%Forall_cons. destruct (IHok Hl) as (ys & -> & Hys).
        exists (y :: ys). split; [done|]. by constructor.
      * intros Hno. rewrite IHno; [done|]. intros Hl. apply Hno. by constructor.
    + apply lookup_ge_None in Hy. split; [|done].
      intros [Hlt _]%Forall_cons. lia.
Qed.

(** X13.  The tiles of the initial sites.  The cell returns exactly when
    every initial site has a phenotype tile and an SBS tile; it then has one
    phenotype tile and one SBS tile per site, in the order of the sites, the
    first and the second entry of the site.  A site with fewer than two
    entries is an [IndexError]. *)
Theorem site_tiles_returns_iff_pairs (INITIAL_SITES : list (list value)) :
  (Forall (λ site, (2 ≤ length site)%nat) INITIAL_SITES →
     ∃ phenotype_tiles sbs_tiles,
       MergeData.site_tiles INITIAL_SITES = Returns (phenotype_tiles, sbs_tiles) ∧
       length phenotype_tiles = length INITIAL_SITES ∧
       length sbs_tiles = length INITIAL_SITES ∧
       ∀ k site, INITIAL_SITES !! k = Some site →
         site !! 0 = phenotype_tiles !! k ∧ site !! 1 = sbs_tiles !! k) ∧
  (¬ Forall (λ site, (2 ≤ length site)%nat) INITIAL_SITES →
     MergeData.site_tiles INITIAL_SITES
     = Raises (IndexError "list index out of range")).
Proof.
  unfold MergeData.site_tiles.
  destruct (for_each_py_index 0 INITIAL_SITES) as [H0ok H0no].
  destruct (for_each_py_index 1 INITIAL_SITES) as [H1ok H1no].
  split.
  - intros Hall.
    destruct H0ok as (ph & -> & Hph).
    { eapply Forall_impl; [exact Hall|]. simpl. lia. }
    destruct H1ok as (sbs & -> & Hsbs).
    { eapply Forall_impl; [exact Hall|]. simpl. lia. }
    exists ph, sbs. split; [done|].
    split; [symmetry; by eapply Forall2_length|].
    split; [symmetry; by eapply Forall2_length|].
    intros k site Hk. split.
    + destruct (Forall2_lookup_l _ _ _ _ _ Hph Hk) as (y & -> & Hy). done.
    + destruct (Forall2_lookup_l _ _ _ _ _ Hsbs Hk) as (y & -> & Hy). done.
  - intros Hno.
    destruct (decide (Forall (λ site : list value, 0 < length site) INITIAL_SITES))
      as [Hall0|Hno0].
    + destruct (H0ok Hall0) as (ph & -> & _). simpl.
      rewrite H1no; [done|]. intros H1. apply Hno.
      eapply Forall_impl; [exact H1|]. simpl. lia.
    + by rewrite H0no.
Qed.

Lemma zip_with_fmap_same {X Y Z W} (h : Y → Z → W) (f : X → Y) (g : X → Z)
    (l : list X) :
  zip_with h (f <$> l) (g <$> l) = (λ x, h (f x) (g x)) <$> l.
Proof. induction l as [|x l IH]; [done|]. cbn. by f_equal. Qed.

(** X14.  The example alignment vector is taken from the first row of the
    initial alignment whose tile and site are those of the first initial
    site.  With distinct column names, the columns [tile] and [site] present
    and a first site of two entries, the cell returns a Series named by the
    label of that row, holding its cells as converted to the common dtype of
    the selected rows' table, if there is such a row; it raises the
    [IndexError] of [iloc[0]] on an empty selection if no row matches. *)
Theorem alignment_vec_example_first_match
    (series_values : DataFrame value → list (option value) → list (option value))
    (initial_alignment_df : DataFrame value)
    (tile site : value) (more : list value) (sites : list (list value)) :
  NoDup (columns initial_alignment_df) →
  "tile" ∈ columns initial_alignment_df →
  "site" ∈ columns initial_alignment_df →
  let matches (r : nat * list (option value)) : bool :=
    cell_eq tile (get_cell (columns initial_alignment_df) r.2 "tile")
    && cell_eq site (get_cell (columns initial_alignment_df) r.2 "site") in
  let selected :=
    mkDataFrame (columns initial_alignment_df)
      (filter (λ r, matches r = true) (rows initial_alignment_df)) in
  let example :=
    MergeData.alignment_vec_example series_values initial_alignment_df
      ((tile :: site :: more) :: sites) in
  (∀ before r after,
     rows initial_alignment_df = before ++ r :: after →
     Forall (λ r', matches r' = false) before → matches r = true →
     example = Returns (r.1, series_values selected r.2)) ∧
  (Forall (λ r, matches r = false) (rows initial_alignment_df) →
   example = Raises (IndexError "single positional indexer is out-of-bounds")).
Proof.
  intros _ Htile Hsite matches selected example.
  assert (Hex : example
                = match rows selected with
                  | r :: _ => Returns (r.1, series_values selected r.2)
                  | [] => Raises (IndexError "single positional indexer is out-of-bounds")
                  end).
  { unfold example, MergeData.alignment_vec_example.
    rewrite (column_Ok _ _ Htile), (column_Ok _ _ Hsite).
    with_strategy opaque [mask_rows] simpl.
    unfold column_cells. rewrite <-!list_fmap_compose, zip_with_fmap_same.
    change (λ x, (cell_eq tile ∘ ?f) x && (cell_eq site ∘ ?g) x) with matches.
    assert (mask_rows (matches <$> rows initial_alignment_df) initial_alignment_df
            = selected) as ->; [|done].
    unfold selected.
    by rewrite <-(mask_rows_filter matches initial_alignment_df). }
  rewrite Hex. clear Hex. subst selected. cbn [rows]. split.
  - intros before r after -> Hbefore Hr.
    rewrite filter_app, filter_cons_True by done.
    rewrite filter_none; [done|].
    eapply Forall_impl; [exact Hbefore|]. simpl. intros r' ->. done.
  - intros Hnone. rewrite filter_none; [done|].
    eapply Forall_impl; [exact Hnone|]. simpl. intros r' ->. done.
Qed.

Lemma cycle_rows_Ok (df : DataFrame value) (cycle : Z) :
  "cycle" ∈ columns df →
  MergeData.cycle_rows df cycle
  = Ok (mkDataFrame (columns df)
          (filter (λ r, cell_eq (VInt cycle) (get_cell (columns df) r.2 "cycle")
                        = true) (rows df))).
Proof.
  intros Hcol. unfold MergeData.cycle_rows.
  rewrite (column_Ok _ _ Hcol). simpl. f_equal.
  pose proof (mask_rows_column (cell_eq (VInt cycle)) df "cycle") as Hrows.
  unfold mask_rows in *. cbn [rows] in Hrows. by rewrite Hrows.
Qed.

(** X15.  Keeping one SBS cycle.  On metadata with a [cycle] column the
    filter keeps the columns and exactly the rows whose cycle equals
    [SBS_METADATA_CYCLE], in order; without the column it is a [KeyError].
    Filtering the result again for the same cycle changes nothing, and
    filtering it for another cycle leaves no row. *)
Theorem cycle_rows_keeps_one_cycle (sbs_test_metadata : DataFrame value)
    (SBS_METADATA_CYCLE other : Z) :
  ("cycle" ∉ columns sbs_test_metadata →
     MergeData.cycle_rows sbs_test_metadata SBS_METADATA_CYCLE
     = Err (KeyError "cycle")) ∧
  ("cycle" ∈ columns sbs_test_metadata →
     ∃ kept,
       MergeData.cycle_rows sbs_test_metadata SBS_METADATA_CYCLE = Ok kept ∧
       columns kept = columns sbs_test_metadata ∧
       rows kept
       = filter (λ r, cell_eq (VInt SBS_METADATA_CYCLE)
                        (get_cell (columns sbs_test_metadata) r.2 "cycle") = true)
           (rows sbs_test_metadata) ∧
       (∀ r, r ∈ rows kept ↔
             r ∈ rows sbs_test_metadata ∧
             ∃ v, get_cell (columns sbs_test_metadata) r.2 "cycle" = Some v ∧
                  py_key v = inl (Qc_of_Z SBS_METADATA_CYCLE)) ∧
       MergeData.cycle_rows kept SBS_METADATA_CYCLE = Ok kept ∧
       (other ≠ SBS_METADATA_CYCLE →
          MergeData.cycle_rows kept other
          = Ok (mkDataFrame (columns sbs_test_metadata) []))).
Proof.
  split.
  { intros Hno. unfold MergeData.cycle_rows. by rewrite (column_Err _ _ Hno). }
  intros Hcol. eexists. split; [by apply cycle_rows_Ok|].
  split; [done|]. split; [done|]. cbn [rows columns].
  assert (Hiff : ∀ (c : Z) (cell : option value),
            cell_eq (VInt c) cell = true
            ↔ ∃ v, cell = Some v ∧ py_key v = inl (Qc_of_Z c)).
  { intros c [v|]; simpl.
    - rewrite bool_decide_eq_true. split; [by exists v|].
      by intros (? & [= <-] & ?).
    - split; [done|]. by intros (? & ? & _). }
  split.
  { intros r. rewrite list_elem_of_filter, Hiff. tauto. }
  split.
  - rewrite cycle_rows_Ok by done. cbn [rows columns]. by rewrite filter_twice.
  - intros Hother. rewrite cycle_rows_Ok by done. cbn [rows columns].
    f_equal. f_equal. apply filter_none, Forall_forall.
    intros r [Hr _]%list_elem_of_filter Hr'.
    apply Hiff in Hr as (v & Hv & Hkey).
    apply Hiff in Hr' as (v' & Hv' & Hkey').
    rewrite Hv in Hv'. injection Hv' as <-.
    rewrite Hkey in Hkey'. injection Hkey' as Heq.
    apply Hother. symmetry. by apply Z2Qc_inj.
Qed.

(** ** Aligned and aggregated cell data *)







Global Instance more_cells_total : Total AggregateData.more_cells.
Proof. intros a b. unfold AggregateData.more_cells. lia. Qed.

Global Instance more_cells_trans : Transitive AggregateData.more_cells.
Proof. intros a b c. unfold AggregateData.more_cells. lia. Qed.

(** X17.  The aggregated cell data are sorted by cell count.  The table has
    the aggregate records, each as often as it was there, under the labels
    [0, 1, ...], and a record never comes before one with more cells. *)
Theorem aggregated_cell_data_sorted (records : list AggregateRecord) :
  let sorted := AggregateData.aggregated_cell_data records in
  sorted.*1 = seq 0 (length records) ∧
  sorted.*2 ≡ₚ records ∧
  ∀ (i j : nat) a b, (i ≤ j)%nat →
    sorted !! i = Some (i, a) → sorted !! j = Some (j, b) →
    (cell_count b ≤ cell_count a)%nat.
Proof.
  unfold AggregateData.aggregated_cell_data.
  set (l := merge_sort AggregateData.more_cells records).
  assert (Hperm : l ≡ₚ records) by apply merge_sort_Permutation.
  assert (Hlook : ∀ i, imap (λ i rec, (i, rec)) l !! i = (λ rec, (i, rec)) <$> l !! i)
    by (intros i; apply list_lookup_imap).
  cbv zeta. split.
  { rewrite <-(Permutation_length Hperm). apply list_eq. intros i.
    rewrite list_lookup_fmap, Hlook.
    destruct (l !! i) as [rec|] eqn:Hi; simpl.
    - symmetry. apply lookup_seq. split; [done|]. by eapply lookup_lt_Some.
    - symmetry. apply lookup_seq_ge. by apply lookup_ge_None. }
  split.
  { rewrite (imap_snd id id), list_fmap_id. done. }
  intros i j a b Hij Hi Hj. rewrite Hlook in Hi, Hj.
  destruct (l !! i) as [a'|] eqn:Ha; [|done]. injection Hi as <-.
  destruct (l !! j) as [b'|] eqn:Hb; [|done]. injection Hj as <-.
  destruct (decide (i = j)) as [->|Hne].
  { rewrite Ha in Hb. by injection Hb as <-. }
  pose proof (StronglySorted_merge_sort AggregateData.more_cells records) as Hs.
  fold l in Hs.
  assert (Hgen : ∀ (l : list AggregateRecord) i j a b,
            StronglySorted AggregateData.more_cells l → i < j →
            l !! i = Some a → l !! j = Some b → AggregateData.more_cells a b).
  { clear. intros l i j a b Hs. revert i j.
    induction Hs as [|x l Hs IH Hall]; intros i j Hij Hi Hj; [done|].
    destruct j as [|j]; [lia|]. simpl in Hj.
    destruct i as [|i]; simpl in Hi.
    - injection Hi as <-. rewrite Forall_forall in Hall.
      apply Hall. by eapply list_elem_of_lookup_2.
    - apply (IH i j); [lia|done..]. }
  apply (Hgen l i j a' b' Hs); [lia|done..].
Qed.

(** ** The pseudo-class and the missing section *)

(** X19.  The pseudo-class [all].  The list of classes the aggregate
    combinations are made from lists no class twice exactly when no cell of
    the classified metadata has the class ["all"]; a cell of that class makes
    ["all"] appear twice. *)
Theorem cell_classes_distinct_iff_no_all (classified_metadata : DataFrame value) :
  "class" ∈ columns classified_metadata →
  ∃ classes,
    AggregateData.cell_classes classified_metadata = Ok classes ∧
    last classes = Some (Some (VStr "all")) ∧
    (NoDup classes
     ↔ Some (VStr "all") ∉ column_cells classified_metadata "class").
Proof.
  intros Hcol. unfold AggregateData.cell_classes, AggregateData.CELL_CLASSES.
  rewrite (column_Ok _ _ Hcol). simpl. eexists. split; [done|].
  split; [apply last_snoc|].
  rewrite NoDup_app. split.
  - intros (_ & Hfresh & _) Hin.
    apply (unique_on_covers (fmap (M:=option) py_key)) in Hin as (y & Hy & Hkey).
    apply (Hfresh y Hy).
    destruct y as [[| | |s]|]; try discriminate Hkey.
    injection Hkey as ->. by left.
  - intros Hno. split; [apply unique_on_NoDup|]. split.
    + intros y Hy [->|Hin%elem_of_nil]%elem_of_cons; [|done].
      apply Hno. by apply unique_on_elem in Hy.
    + apply NoDup_singleton.
Qed.

(** X21.  The aggregate notebook before the merge notebook.  On a
    configuration without a [merge] section the aggregate combinations cell
    raises [KeyError] for [merge], and it still does after the aggregate
    notebook has written its own section: that notebook never creates the
    [merge] section. *)
Theorem aggregate_combos_need_merge_section (d : list (string * yaml))
    (fs : gmap string file) (classes : list (option value))
    (CHANNEL_COMBOS : list (list string)) (AGGREGATE_COMBO_FP : string) :
  load_yaml fs Aggregate.CONFIG_FILE_PATH = Ok (YMap d) →
  dict_get "merge" d = None →
  AggregateData.aggregate_combo_cell (YMap d) fs classes CHANNEL_COMBOS
    AGGREGATE_COMBO_FP = Raises (Raised (KeyError "merge")) ∧
  ∀ header (p : Aggregate.params)
    (data_cells : yaml → gmap string file → result (gmap string file)) fs',
    Aggregate.persist_aggregate_params header p data_cells fs = Ok fs' →
    ∃ config',
      load_yaml fs' Aggregate.CONFIG_FILE_PATH = Ok config' ∧
      AggregateData.aggregate_combo_cell config' fs' classes CHANNEL_COMBOS
        AGGREGATE_COMBO_FP = Raises (Raised (KeyError "merge")).
Proof.
  intros Hload Hno.
  assert (Hraise : ∀ d' fs', dict_get "merge" d' = None →
            AggregateData.aggregate_combo_cell (YMap d') fs' classes
              CHANNEL_COMBOS AGGREGATE_COMBO_FP
            = Raises (Raised (KeyError "merge"))).
  { intros d' fs' Hd'. unfold AggregateData.aggregate_combo_cell, yaml_item2.
    simpl. by rewrite Hd'. }
  split; [by apply Hraise|].
  intros header p data_cells fs'
    (d0 & fs1 & Hload0 & _ & ->)%persist_aggregate_inv.
  rewrite Hload in Hload0. injection Hload0 as <-.
  eexists. split; [unfold load_yaml; by rewrite lookup_insert_eq|].
  apply Hraise. by rewrite dict_get_set_ne.
Qed.

(** ** Instances on the example inputs *)

Lemma load_cell_data_rows_witness :
  let both :=
    AggregateData.load_cell_data CellExamples.wells_astype
      CellExamples.well_1 CellExamples.well_2 in
  n_rows both = 3 ∧
  columns both = ["plate"; "well"; "cell_area"; "cell_dapi"] ∧
  cell_at both 2 "plate" = Some (VInt 1) ∧
  cell_at both 2 "cell_dapi" = Some (VNum (Examples.num 7)) ∧
  cell_at both 2 "cell_area" = None ∧
  cell_at both 0 "cell_area" = Some (VNum (Examples.num 40)).
Proof.
  destruct (load_cell_data_rows CellExamples.wells_astype
              CellExamples.well_1 CellExamples.well_2)
    as (Hn & _ & Hcols & _ & _ & Hfirst & Hsecond & _ & Hlacks);
    [compute_done..|].
  split; [exact Hn|]. split; [exact Hcols|].
  change 2 with (n_rows CellExamples.well_1 + 0). split_and!.
  - rewrite (Hsecond 0 "plate"); [reflexivity|compute_done|compute_done].
  - rewrite (Hsecond 0 "cell_dapi"); [reflexivity|compute_done|compute_done].
  - rewrite (Hlacks 0 "cell_area"); [reflexivity|compute_done..].
  - rewrite (Hfirst 0 "cell_area"); [reflexivity|compute_done..].
Defined.

Lemma class_subset_cell_rows_witness :
  ∃ class_metadata class_features,
    Aggregate.class_subset_cell Examples.all_features Examples.mitotic_params
      Examples.config Examples.two_genes_classified Examples.two_genes_features
    = Ok (class_metadata, class_features) ∧
    rows class_metadata
    = [(0, [Some (VStr "GENE_A"); Some (VStr "mitotic"); Some (VInt 1)])].
Proof.
  destruct (class_subset_cell_rows Examples.all_features Examples.mitotic_params
              Examples.config (YList [YStr "DAPI"; YStr "WGA"]) ["DAPI"; "WGA"]
              Examples.two_genes_classified Examples.two_genes_features)
    as (_ & _ & Hclass); [reflexivity..|].
  destruct Hclass as (class_metadata & class_features & Hcell & _ & _ & Hrows & _);
    [discriminate|compute_done|compute_done|reflexivity|].
  exists class_metadata, (Examples.all_features class_features
                            (Aggregate.TEST_CHANNEL_COMBO Examples.mitotic_params)
                            ["DAPI"; "WGA"]).
  split; [exact Hcell|]. rewrite Hrows. reflexivity.
Defined.

Lemma cell_class_dfs_partition_witness :
  ∃ dfs,
    AggregateData.cell_classes Examples.two_genes_classified
    = Ok [Some (VStr "mitotic"); Some (VStr "interphase"); Some (VStr "all")] ∧
    AggregateData.cell_class_dfs Examples.two_genes_classified
      [Some (VStr "mitotic"); Some (VStr "interphase")] = Ok dfs ∧
    sum_list ((λ cdf : option value * DataFrame value, n_rows cdf.2) <$> dfs) = 2.
Proof.
  destruct (cell_class_dfs_partition Examples.two_genes_classified
              Examples.two_genes_classified)
    as (classes & dfs & Hclasses & Hall & Hdfs & _ & _ & _ & _ & _ & Hsum);
    [compute_done|compute_done|reflexivity|].
  assert (classes = [Some (VStr "mitotic"); Some (VStr "interphase")]) as ->.
  { assert (Ok classes = Ok [Some (VStr "mitotic"); Some (VStr "interphase")]) as H
      by (rewrite <-Hclasses; reflexivity).
    by injection H. }
  exists dfs. split; [exact Hall|]. split; [exact Hdfs|]. rewrite Hsum. reflexivity.
Defined.

Lemma montage_cell_fills_grid_witness :
  AggregateData.montage_cell nat CellExamples.counted_montage
    CellExamples.plain_float CellExamples.same_table Examples.config "DAPI"
    Examples.two_genes_classified
  = Ok ([1; 1; 1; 1],
        ["Lowest Confidence mitotic Cells - DAPI";
         "Highest Confidence mitotic Cells - DAPI";
         "Lowest Confidence interphase Cells - DAPI";
         "Highest Confidence interphase Cells - DAPI"], 2) ∧
  ∃ classes,
    AggregateData.CELL_CLASSES Examples.two_genes_classified = Ok classes ∧
    2 = length classes.
Proof.
  assert (AggregateData.montage_cell nat CellExamples.counted_montage
            CellExamples.plain_float CellExamples.same_table Examples.config
            "DAPI" Examples.two_genes_classified
          = Ok ([1; 1; 1; 1],
                ["Lowest Confidence mitotic Cells - DAPI";
                 "Highest Confidence mitotic Cells - DAPI";
                 "Lowest Confidence interphase Cells - DAPI";
                 "Highest Confidence interphase Cells - DAPI"], 2)) as Hcell
    by reflexivity.
  split; [exact Hcell|].
  destruct (montage_cell_fills_grid _ _ _ _ _ _ _ _ _ _ Hcell)
    as (classes & Hclasses & Hrows & _).
  by exists classes.
Defined.

Lemma aggregate_wildcard_combos_product_witness :
  ∃ combos,
    AggregateData.aggregate_wildcard_combos CellExamples.merge_table
      CellExamples.classes CellExamples.CHANNEL_COMBOS = Returns combos ∧
    n_rows combos = 12 ∧
    rows combos !! 9
    = Some (9, [Some (VStr "interphase"); Some (VStr "DAPI");
                Some (VInt 1); Some (VStr "B2")]).
Proof.
  destruct (aggregate_wildcard_combos_product CellExamples.merge_table
              CellExamples.classes CellExamples.CHANNEL_COMBOS)
    as (combos & Hcombos & _ & Hn & _ & Hrow); [reflexivity|discriminate..|].
  exists combos. split; [exact Hcombos|]. split; [exact Hn|].
  apply (Hrow 1 1 1 (1, [Some (VInt 1); Some (VStr "B2")])
           (Some (VStr "interphase")) ["DAPI"]); reflexivity.
Defined.

Lemma merge_mismatch_stops_aggregate_combos_witness :
  ∃ st,
    Merge.persist_merge_params id "# Brieflow configuration"
      Examples.merge_params Examples.data_cells Examples.files = Ok st ∧
    Merge.warnings st = [Merge.MISMATCH_WARNING] ∧
    AggregateData.aggregate_combo_cell (Merge.config st) (Merge.files st)
      CellExamples.classes CellExamples.CHANNEL_COMBOS "config/aggregate_combo.tsv"
    = Raises (ValueError "Columns must be same length as key").
Proof.
  eexists. split; [reflexivity|]. split; [reflexivity|].
  eapply (merge_mismatch_stops_aggregate_combos id "# Brieflow configuration"
            Examples.merge_params Examples.data_cells Examples.files);
    [reflexivity|reflexivity|discriminate].
Defined.

Lemma aggregate_rerun_last_wins_witness :
  ∃ fs1 fs2 d,
    Aggregate.persist_aggregate_params "# Brieflow configuration" Examples.params
      Examples.data_cells Examples.files = Ok fs1 ∧
    Aggregate.persist_aggregate_params "# Second run" CellExamples.sgrna_params
      Examples.data_cells fs1 = Ok fs2 ∧
    load_yaml Examples.files Aggregate.CONFIG_FILE_PATH = Ok (YMap d) ∧
    fs2 !! Aggregate.CONFIG_FILE_PATH
    = Some (YamlFile "# Second run"
              (YMap (dict_set "aggregate"
                       (Aggregate.aggregate_section CellExamples.sgrna_params) d))).
Proof.
  eexists _, _.
  destruct (aggregate_rerun_last_wins "# Brieflow configuration" "# Second run"
              Examples.params CellExamples.sgrna_params
              Examples.data_cells Examples.data_cells Examples.files _ _
              eq_refl eq_refl)
    as (d & Hload & Hfile).
  exists d. split; [reflexivity|]. split; [reflexivity|]. by split.
Defined.

Lemma merge_then_aggregate_sections_witness :
  ∃ st fs2 d2,
    Merge.persist_merge_params id "# Brieflow configuration"
      Examples.merge_params Examples.data_cells Examples.files = Ok st ∧
    Aggregate.persist_aggregate_params "# Brieflow configuration" Examples.params
      Examples.data_cells (Merge.files st) = Ok fs2 ∧
    fs2 !! Aggregate.CONFIG_FILE_PATH
    = Some (YamlFile "# Brieflow configuration" (YMap d2)) ∧
    dict_get "merge" d2 = Some (Merge.merge_section Examples.merge_params) ∧
    dict_get "aggregate" d2 = Some (Aggregate.aggregate_section Examples.params).
Proof.
  eexists _, _.
  destruct (merge_then_aggregate_sections id "# Brieflow configuration"
              "# Brieflow configuration" Examples.merge_params Examples.params
              Examples.data_cells Examples.data_cells Examples.files _ _
              eq_refl eq_refl)
    as (d & d2 & _ & Hfile & Hmerge & Haggregate & _).
  exists d2. split; [reflexivity|]. split; [reflexivity|]. by split.
Defined.

Lemma downstream_gene_col_is_perturbation_name_col_witness :
  ∃ fs' config,
    Aggregate.persist_aggregate_params "# Brieflow configuration"
      CellExamples.sgrna_params Examples.data_cells Examples.files = Ok fs' ∧
    load_yaml fs' Aggregate.CONFIG_FILE_PATH = Ok config ∧
    Downstream.GENE_COL config = Ok (YStr "sgRNA_0").
Proof.
  eexists.
  destruct (downstream_gene_col_is_perturbation_name_col
              "# Brieflow configuration" CellExamples.sgrna_params
              Examples.data_cells Examples.files _ eq_refl)
    as (config & Hload & _ & Hgene).
  exists config. split; [reflexivity|]. by split.
Defined.

Lemma plate_well_combos_rows_as_set_witness :
  ∃ combos combos',
    Merge.plate_well_combos "sbs" Examples.sbs_combos_table = Ok combos ∧
    Merge.plate_well_combos "shuffled" CellExamples.sbs_combos_shuffled
    = Ok combos' ∧
    Merge.py_set_eq combos combos' = true.
Proof.
  destruct (plate_well_combos_rows_as_set "sbs" "shuffled"
              Examples.sbs_combos_table CellExamples.sbs_combos_shuffled)
    as [_ Hsets].
  - compute_done.
  - reflexivity.
  - intros cells. simpl. rewrite !elem_of_cons, !elem_of_nil. tauto.
  - apply Hsets; [compute_done|compute_done|].
    refine (proj1 (bool_decide_eq_true _) _). reflexivity.
Defined.

Lemma combos_table_round_trip_witness :
  itertuples CellExamples.merge_table
  = [[Some (VInt 1); Some (VStr "A1")]; [Some (VInt 1); Some (VStr "B2")]].
Proof.
  destruct (combos_table_round_trip
              [(Some (VInt 1), Some (VStr "A1")); (Some (VInt 1), Some (VStr "B2"))])
    as (_ & _ & _ & Htuples); [|reflexivity|reflexivity|exact Htuples].
  refine (proj1 (bool_decide_eq_true _) _). reflexivity.
Defined.

Lemma site_tiles_returns_iff_pairs_witness :
  ∃ phenotype_tiles sbs_tiles,
    MergeData.site_tiles CellExamples.INITIAL_SITES
    = Returns (phenotype_tiles, sbs_tiles) ∧
    length phenotype_tiles = 2 ∧ length sbs_tiles = 2.
Proof.
  destruct (site_tiles_returns_iff_pairs CellExamples.INITIAL_SITES) as [Hok _].
  destruct Hok as (ph & sbs & Hrun & Hph & Hsbs & _).
  { repeat constructor. }
  by exists ph, sbs.
Defined.

Lemma alignment_vec_example_first_match_witness :
  MergeData.alignment_vec_example (λ _ cells, cells)
    CellExamples.initial_alignment_df CellExamples.INITIAL_SITES
  = Returns (1, [Some (VInt 5); Some (VInt 0); Some (VInt 9)]).
Proof.
  destruct (alignment_vec_example_first_match (λ _ cells, cells)
              CellExamples.initial_alignment_df
              (VInt 5) (VInt 0) [] [[VInt 141; VInt 32]])
    as [Hfirst _]; [compute_done..|].
  apply (Hfirst [(0, [Some (VInt 5); Some (VInt 1); Some (VInt 3)])]
           (1, [Some (VInt 5); Some (VInt 0); Some (VInt 9)])
           [(2, [Some (VInt 141); Some (VInt 32); Some (VInt 8)])]).
  - reflexivity.
  - repeat constructor.
  - reflexivity.
Defined.

Lemma cycle_rows_keeps_one_cycle_witness :
  ∃ kept,
    MergeData.cycle_rows Examples.sbs_combos_table 1 = Ok kept ∧
    n_rows kept = 3 ∧
    MergeData.cycle_rows kept 2
    = Ok (mkDataFrame (columns Examples.sbs_combos_table) []).
Proof.
  destruct (cycle_rows_keeps_one_cycle Examples.sbs_combos_table 1 2) as [_ Hok].
  destruct Hok as (kept & Hrun & _ & Hrows & _ & _ & Hother); [compute_done|].
  exists kept. split; [exact Hrun|]. split.
  - unfold n_rows. rewrite Hrows. reflexivity.
  - by apply Hother.
Defined.


Lemma cell_classes_distinct_iff_no_all_witness :
  ∃ classes,
    AggregateData.cell_classes Examples.two_genes_classified = Ok classes ∧
    NoDup classes.
Proof.
  destruct (cell_classes_distinct_iff_no_all Examples.two_genes_classified)
    as (classes & Hclasses & _ & Hnodup); [compute_done|].
  exists classes. split; [exact Hclasses|].
  apply Hnodup. compute_done.
Defined.

Lemma aggregate_combos_need_merge_section_witness :
  AggregateData.aggregate_combo_cell Examples.config Examples.files
    CellExamples.classes CellExamples.CHANNEL_COMBOS "config/aggregate_combo.tsv"
  = Raises (Raised (KeyError "merge")).
Proof.
  refine (proj1 (aggregate_combos_need_merge_section _ Examples.files
                   CellExamples.classes CellExamples.CHANNEL_COMBOS
                   "config/aggregate_combo.tsv" _ _)); reflexivity.
Defined.
